(** * Concepts of the social backend: a shallow embedding

    The server is a set of independent concepts (Authenticating,
    Friending, Labelling, Sorting, Sourcing, Templating), each a class
    of [async] methods over one or two [DocCollection]s.  A method is
    embedded as a function in a state-and-exception monad over the
    concept's collections: [await] is sequencing, [throw] is the
    exceptional result, [try]/[catch] is [try_catch].  Methods run one
    at a time; interleavings of concurrent requests are outside this
    model. *)

From Stdlib Require Import Floats.PrimFloat.
From stdpp Require Import base option list strings gmap.

Open Scope string_scope.

(** ** Identifiers, dates, numbers *)

(** A MongoDB [ObjectId] is a 12-byte value; only its identity is
    observed ([toString] is injective, [equals] is equality), so an id
    is a natural number. *)
Abbreviation ObjectId := N (only parsing).

(** A date is a tick of the store's clock. *)
Abbreviation Date := N (only parsing).

(** [Label] is validated as [z.string()] by the routes. *)
Definition Label := string.

(** A JavaScript [number]. *)
Definition number := float.

(** ** Filters *)

(** The scalar values a filter compares against. *)
Inductive Value :=
| VId (i : ObjectId)
| VStr (s : string)
| VDate (t : Date).

#[global] Instance Value_eq_dec : EqDecision Value.
Proof. solve_decision. Defined.

(** The condition on one field: [{ k: v }] or [{ k: { $in: vs } }]. *)
Inductive Cond :=
| CEq (v : Value)
| CIn (vs : list Value).

Definition Conj := list (string * Cond).

(** The filters the concepts build: an object literal of field
    conditions, a [$or] of object literals, or an [ObjectId] passed in
    place of a filter (lookup by [_id]). *)
Inductive Filter :=
| FAnd (cs : Conj)
| FOr (alts : list Conj)
| FId (i : ObjectId).

(** ** Errors *)

(** The five base classes of [framework/errors]. *)
Inductive ErrorBase :=
| BadValues | Unauthenticated | NotAllowed | NotFound | NotImplemented.

#[global] Instance ErrorBase_eq_dec : EqDecision ErrorBase.
Proof. solve_decision. Defined.

(** The error classes thrown by the concepts, with the constructor
    arguments they carry.  [BaseError b] is an instance of the base
    class itself ([new BadValuesError(..)], [new NotImplementedError()],
    and the errors raised by the store). *)
Inductive Error :=
| BaseError (b : ErrorBase)
| UserNotFoundError (filter : Filter)
| UserNotAllowedError (filter : Filter)
| FriendRequestNotFoundError (from to : ObjectId)
| FriendRequestAlreadyExistsError (from to : ObjectId)
| FriendNotFoundError (user1 user2 : ObjectId)
| AlreadyFriendsError (user1 user2 : ObjectId)
| LabelNotFoundError (label : Label)
| LabelNotAllowedError (label : Label)
| ResourceNotAllowedError (resource : ObjectId)
| ResourceNotFoundError (resource : ObjectId)
| SortNotFoundError (sort : ObjectId)
| SourceNotFoundError (_filter : Filter)
| SourceNotAllowedError (_filter : Filter)
| TemplateNotFoundError (_id : ObjectId).

(** The base class each error class [extends]; [e instanceof B] is
    [base e = B]. *)
Definition base (e : Error) : ErrorBase :=
  match e with
  | BaseError b => b
  | UserNotFoundError _ => NotFound
  | UserNotAllowedError _ => NotAllowed
  | FriendRequestNotFoundError _ _ => NotFound
  | FriendRequestAlreadyExistsError _ _ => NotAllowed
  | FriendNotFoundError _ _ => NotFound
  | AlreadyFriendsError _ _ => NotAllowed
  | LabelNotFoundError _ => NotFound
  | LabelNotAllowedError _ => NotAllowed
  | ResourceNotAllowedError _ => NotAllowed
  | ResourceNotFoundError _ => NotFound
  | SortNotFoundError _ => NotFound
  | SourceNotFoundError _ => NotFound
  | SourceNotAllowedError _ => NotAllowed
  | TemplateNotFoundError _ => NotFound
  end.

Definition instanceof (e : Error) (b : ErrorBase) : bool :=
  bool_decide (base e = b).

(** ** The monad of concept actions *)

Inductive Result (A : Type) :=
| Ok (a : A)
| Throw (e : Error).
Arguments Ok {A} a.
Arguments Throw {A} e.

(** An action over a state [S]: the outcome, and the state it leaves
    (also when it throws: nothing is rolled back). *)
Definition M (S A : Type) : Type := S -> Result A * S.

Definition ret {S A} (a : A) : M S A := fun s => (Ok a, s).

Definition throw {S A} (e : Error) : M S A := fun s => (Throw e, s).

Definition bind {S A B} (m : M S A) (k : A -> M S B) : M S B :=
  fun s =>
    match m s with
    | (Ok a, s') => k a s'
    | (Throw e, s') => (Throw e, s')
    end.

Definition try_catch {S A} (m : M S A) (handler : Error -> M S A) : M S A :=
  fun s =>
    match m s with
    | (Ok a, s') => (Ok a, s')
    | (Throw e, s') => handler e s'
    end.

(** Run an action of a component inside the state that owns it. *)
Definition zoom {S C A} (get : S -> C) (set : C -> S -> S) (m : M C A) : M S A :=
  fun s => let (r, c') := m (get s) in (r, set c' s).

#[global] Instance M_ret {S} : MRet (M S) := fun A => @ret S A.
#[global] Instance M_bind {S} : MBind (M S) := fun A B k m => bind m k.

(** The outcome and the final state of a run. *)
Definition outcome {S A} (m : M S A) (s : S) : Result A := fst (m s).
Definition after {S A} (m : M S A) (s : S) : S := snd (m s).

Definition fails_with {A} (r : Result A) (b : ErrorBase) : Prop :=
  exists e, r = Throw e /\ base e = b.

(** ** The generic store *)

(** Modelled from the spec: [framework/doc] ([BaseDoc] and
    [DocCollection]) is not among the sources.  Section 4.1 gives its
    contract: a collection of documents, each with an identifier and
    two timestamps assigned by the store; filter-based create, read,
    update, delete and pop; [readOne] returns the first match or null;
    [partialUpdateOne] is a no-op without a match; [popOne] is the only
    operation that raises ([NotFound]).  The collection is a database
    collection (the constructor of Authenticating creates an index on
    it): a read hands out a copy of the stored document, with the
    shape it was stored with, and changing that copy does not change
    the store. *)
Module Store.

Record BaseDoc (T : Type) := mkDoc {
  _id : ObjectId;
  dateCreated : Date;
  dateUpdated : Date;
  fields : T;
}.
Arguments mkDoc {T}.
Arguments _id {T}.
Arguments dateCreated {T}.
Arguments dateUpdated {T}.
Arguments fields {T}.

(** The collection: its documents in insertion order, the next
    fresh identifier, and the store's clock. *)
Record DocCollection (T : Type) := mkColl {
  docs : list (BaseDoc T);
  nextId : ObjectId;
  clock : Date;
}.
Arguments mkColl {T}.
Arguments docs {T}.
Arguments nextId {T}.
Arguments clock {T}.

Definition empty {T} : DocCollection T := mkColl [] 0%N 0%N.

(** The scalar fields of a document shape, by name; [None] when the
    shape has no such field. *)
Class Schema (T : Type) := field : T -> string -> option Value.

Section Operations.
Context {T : Type} `{Schema T}.

Definition docField (d : BaseDoc T) (k : string) : option Value :=
  if String.eqb k "_id" then Some (VId (_id d))
  else if String.eqb k "dateCreated" then Some (VDate (dateCreated d))
  else if String.eqb k "dateUpdated" then Some (VDate (dateUpdated d))
  else field (fields d) k.

Definition condHolds (c : Cond) (v : Value) : bool :=
  match c with
  | CEq w => bool_decide (v = w)
  | CIn ws => bool_decide (v ∈ ws)
  end.

(** A condition on a field the document does not have fails. *)
Definition conjHolds (d : BaseDoc T) (cs : Conj) : bool :=
  forallb (fun kc => match docField d (fst kc) with
                     | Some v => condHolds (snd kc) v
                     | None => false
                     end) cs.

Definition matches (f : Filter) (d : BaseDoc T) : bool :=
  match f with
  | FAnd cs => conjHolds d cs
  | FOr alts => existsb (conjHolds d) alts
  | FId i => bool_decide (_id d = i)
  end.

(** Remove / rewrite the first element satisfying [p]. *)
Fixpoint removeFirst {A} (p : A -> bool) (l : list A) : list A :=
  match l with
  | [] => []
  | x :: l' => if p x then l' else x :: removeFirst p l'
  end.

Fixpoint updateFirst {A} (p : A -> bool) (g : A -> A) (l : list A) : list A :=
  match l with
  | [] => []
  | x :: l' => if p x then g x :: l' else x :: updateFirst p g l'
  end.

Definition createOne (item : T) : M (DocCollection T) ObjectId :=
  fun c =>
    (Ok (nextId c),
     mkColl (docs c ++ [mkDoc (nextId c) (clock c) (clock c) item])
            (N.succ (nextId c)) (N.succ (clock c))).

Definition readOne (f : Filter) : M (DocCollection T) (option (BaseDoc T)) :=
  fun c => (Ok (List.find (matches f) (docs c)), c).

Definition readMany (f : Filter) : M (DocCollection T) (list (BaseDoc T)) :=
  fun c => (Ok (List.filter (matches f) (docs c)), c).

(** Returns the number of documents modified. *)
Definition partialUpdateOne (f : Filter) (patch : T -> T)
  : M (DocCollection T) nat :=
  fun c =>
    match List.find (matches f) (docs c) with
    | None => (Ok 0, c)
    | Some _ =>
        (Ok 1,
         mkColl (updateFirst (matches f)
                   (fun d => mkDoc (_id d) (dateCreated d) (clock c)
                                   (patch (fields d)))
                   (docs c))
                (nextId c) (N.succ (clock c)))
    end.

(** Returns the number of documents deleted. *)
Definition deleteOne (f : Filter) : M (DocCollection T) nat :=
  fun c =>
    match List.find (matches f) (docs c) with
    | None => (Ok 0, c)
    | Some _ => (Ok 1, mkColl (removeFirst (matches f) (docs c))
                              (nextId c) (clock c))
    end.

Definition popOne (f : Filter) : M (DocCollection T) (BaseDoc T) :=
  fun c =>
    match List.find (matches f) (docs c) with
    | None => (Throw (BaseError NotFound), c)
    | Some d => (Ok d, mkColl (removeFirst (matches f) (docs c))
                              (nextId c) (clock c))
    end.

Definition assertDoesExist {S} (doc : option (BaseDoc T)) : M S (BaseDoc T) :=
  match doc with
  | Some d => ret d
  | None => throw (BaseError NotFound)
  end.

Definition assertDoesNotExist {S} (doc : option (BaseDoc T)) : M S unit :=
  match doc with
  | Some _ => throw (BaseError NotAllowed)
  | None => ret tt
  end.

End Operations.

End Store.
Import Store.

(** ** Friending *)

Module Friending.

Record FriendshipDoc := mkFriendship {
  user1 : ObjectId;
  user2 : ObjectId;
}.

Inductive Status := pending | rejected | accepted.

#[global] Instance Status_eq_dec : EqDecision Status.
Proof. solve_decision. Defined.

(** The string a status is. *)
Definition statusString (s : Status) : string :=
  match s with
  | pending => "pending"
  | rejected => "rejected"
  | accepted => "accepted"
  end.

Record FriendRequestDoc := mkRequest {
  from : ObjectId;
  to : ObjectId;
  status : Status;
}.

#[global] Instance FriendshipDoc_schema : Schema FriendshipDoc :=
  fun d k =>
    if String.eqb k "user1" then Some (VId (user1 d))
    else if String.eqb k "user2" then Some (VId (user2 d))
    else None.

#[global] Instance FriendRequestDoc_schema : Schema FriendRequestDoc :=
  fun d k =>
    if String.eqb k "from" then Some (VId (from d))
    else if String.eqb k "to" then Some (VId (to d))
    else if String.eqb k "status" then Some (VStr (statusString (status d)))
    else None.

Record FriendingConcept := mkFriending {
  friends : DocCollection FriendshipDoc;
  requests : DocCollection FriendRequestDoc;
}.

Definition init : FriendingConcept := mkFriending Store.empty Store.empty.

Definition onFriends {A} : M (DocCollection FriendshipDoc) A -> M FriendingConcept A :=
  zoom friends (fun c s => mkFriending c (requests s)).

Definition onRequests {A} : M (DocCollection FriendRequestDoc) A -> M FriendingConcept A :=
  zoom requests (fun c s => mkFriending (friends s) c).

(** [{ $or: [{ user1: u1, user2: u2 }, { user1: u2, user2: u1 }] }] *)
Definition friendshipBetween (u1 u2 : ObjectId) : Filter :=
  FOr [ [("user1", CEq (VId u1)); ("user2", CEq (VId u2))];
        [("user1", CEq (VId u2)); ("user2", CEq (VId u1))] ].

(** [{ from, to, status: "pending" }] *)
Definition pendingFromTo (from to : ObjectId) : Filter :=
  FAnd [("from", CEq (VId from)); ("to", CEq (VId to));
        ("status", CEq (VStr "pending"))].

(** [{ from: { $in: [u1, u2] }, to: { $in: [u1, u2] }, status: "pending" }] *)
Definition pendingBetween (u1 u2 : ObjectId) : Filter :=
  FAnd [("from", CIn [VId u1; VId u2]); ("to", CIn [VId u1; VId u2]);
        ("status", CEq (VStr "pending"))].

Definition getRequests (user : ObjectId) : M FriendingConcept (list (BaseDoc FriendRequestDoc)) :=
  onRequests (readMany (FOr [ [("from", CEq (VId user))]; [("to", CEq (VId user))] ])).

Definition assertNotFriends (u1 u2 : ObjectId) : M FriendingConcept unit :=
  friendship ← onFriends (readOne (friendshipBetween u1 u2));
  if is_Some_dec friendship then throw (AlreadyFriendsError u1 u2)
  else if bool_decide (u1 = u2) then throw (AlreadyFriendsError u1 u2)
  else ret tt.

Definition canSendRequest (u1 u2 : ObjectId) : M FriendingConcept unit :=
  assertNotFriends u1 u2;;
  request ← onRequests (readOne (pendingBetween u1 u2));
  if is_Some_dec request then throw (FriendRequestAlreadyExistsError u1 u2)
  else ret tt.

Definition createRequest (from to : ObjectId) : M FriendingConcept ObjectId :=
  canSendRequest from to;;
  onRequests (createOne (mkRequest from to pending)).

Definition removePendingRequest (from to : ObjectId)
  : M FriendingConcept (BaseDoc FriendRequestDoc) :=
  try_catch (onRequests (popOne (pendingFromTo from to)))
    (fun e => throw (if instanceof e NotFound
                     then FriendRequestNotFoundError from to else e)).

Definition addFriend (user1 user2 : ObjectId) : M FriendingConcept ObjectId :=
  onFriends (createOne (mkFriendship user1 user2)).

(** [Promise.all] of the two inserts: both are started in order and
    touch different collections. *)
Definition acceptRequest (from to : ObjectId) : M FriendingConcept (ObjectId * ObjectId) :=
  removePendingRequest from to;;
  requestId ← onRequests (createOne (mkRequest from to accepted));
  friendId ← addFriend from to;
  ret (requestId, friendId).

Definition rejectRequest (from to : ObjectId) : M FriendingConcept ObjectId :=
  removePendingRequest from to;;
  onRequests (createOne (mkRequest from to rejected)).

Definition removeRequest (from to : ObjectId) : M FriendingConcept unit :=
  removePendingRequest from to;;
  ret tt.

Definition removeFriend (user friend : ObjectId) : M FriendingConcept unit :=
  try_catch (onFriends (popOne (friendshipBetween user friend));; ret tt)
    (fun e => throw (if instanceof e NotFound
                     then FriendNotFoundError user friend else e)).

(** [{ $or: [{ user1: user }, { user2: user }] }] *)
Definition friendshipsOf (user : ObjectId) : Filter :=
  FOr [ [("user1", CEq (VId user))]; [("user2", CEq (VId user))] ].

Definition getFriends (user : ObjectId) : M FriendingConcept (list ObjectId) :=
  friendships ← onFriends (readMany (friendshipsOf user));
  ret (map (fun friendship =>
              if bool_decide (user1 (fields friendship) = user)
              then user2 (fields friendship)
              else user1 (fields friendship))
           friendships).

End Friending.

(** ** Authenticating *)

Module Authenticating.

Record UserDoc := mkUser {
  username : string;
  password : string;
}.

#[global] Instance UserDoc_schema : Schema UserDoc :=
  fun d k =>
    if String.eqb k "username" then Some (VStr (username d))
    else if String.eqb k "password" then Some (VStr (password d))
    else None.

Record AuthenticatingConcept := mkAuthenticating {
  users : DocCollection UserDoc;
}.

Definition init : AuthenticatingConcept := mkAuthenticating Store.empty.

Definition onUsers {A} : M (DocCollection UserDoc) A -> M AuthenticatingConcept A :=
  zoom users (fun c _ => mkAuthenticating c).

(** [!s] on a string: true exactly for the empty string. *)
Definition falsy (s : string) : bool := bool_decide (s = "").

Definition DELETED_USER : string := "DELETED_USER".

Definition assertUsernameUnique (username : string) : M AuthenticatingConcept unit :=
  let filter := FAnd [("username", CEq (VStr username))] in
  try_catch (user ← onUsers (readOne filter); assertDoesNotExist user)
    (fun e => throw (if instanceof e NotAllowed
                     then UserNotAllowedError filter else e)).

Definition assertGoodCredentials (username password : string) : M AuthenticatingConcept unit :=
  if falsy username || falsy password
  then throw (BaseError BadValues)
  else assertUsernameUnique username.

Definition register (username password : string) : M AuthenticatingConcept ObjectId :=
  assertGoodCredentials username password;;
  onUsers (createOne (mkUser username password)).

(** [idToUser] is [new Map(users.map(user => [user._id.toString(), user]))]:
    the pairs are inserted in order, a later one replacing an earlier
    one under the same key. *)
Definition idToUserMap (users : list (BaseDoc UserDoc)) : gmap ObjectId (BaseDoc UserDoc) :=
  foldl (fun m user => <[_id user := user]> m) ∅ users.

Definition idsToUsernames (ids : list ObjectId) : M AuthenticatingConcept (list string) :=
  users ← onUsers (readMany (FAnd [("_id", CIn (VId <$> ids))]));
  let idToUser := idToUserMap users in
  ret ((fun id => match idToUser !! id with
                  | Some user => username (fields user)
                  | None => DELETED_USER
                  end) <$> ids).

Definition authenticate (username password : string) : M AuthenticatingConcept ObjectId :=
  let filter := FAnd [("username", CEq (VStr username));
                      ("password", CEq (VStr password))] in
  user ← onUsers (readOne filter);
  user ← try_catch (assertDoesExist user)
           (fun e => throw (if instanceof e NotFound
                            then UserNotFoundError filter else e));
  ret (_id user).

Definition updateUsername (_id : ObjectId) (username : string) : M AuthenticatingConcept nat :=
  try_catch (assertUsernameUnique username)
    (fun e => throw (if instanceof e NotAllowed
                     then UserNotAllowedError (FAnd [("username", CEq (VStr username))])
                     else e));;
  onUsers (partialUpdateOne (FAnd [("_id", CEq (VId _id))])
             (fun u => mkUser username (password u))).

(** The filter is the object literal [{ _id, currentPassword }]: its
    second key is [currentPassword]. *)
Definition updatePassword (_id : ObjectId) (currentPassword newPassword : string)
  : M AuthenticatingConcept nat :=
  let filter := FAnd [("_id", CEq (VId _id));
                      ("currentPassword", CEq (VStr currentPassword))] in
  user ← onUsers (readOne filter);
  try_catch (assertDoesExist user)
    (fun e => throw (if instanceof e NotFound
                     then UserNotFoundError filter else e));;
  onUsers (partialUpdateOne (FAnd [("_id", CEq (VId _id))])
             (fun u => mkUser (username u) newPassword)).

Definition delete (_id : ObjectId) : M AuthenticatingConcept nat :=
  onUsers (deleteOne (FAnd [("_id", CEq (VId _id))])).

End Authenticating.

(** ** Labelling *)

Module Labelling.

Record LabelDoc := mkLabel {
  user : ObjectId;
  label : Label;
  resources : gset ObjectId;
}.

#[global] Instance LabelDoc_schema : Schema LabelDoc :=
  fun d k =>
    if String.eqb k "user" then Some (VId (user d))
    else if String.eqb k "label" then Some (VStr (label d))
    else None.

Record LabellingConcept := mkLabelling {
  labels : DocCollection LabelDoc;
}.

Definition init : LabellingConcept := mkLabelling Store.empty.

Definition onLabels {A} : M (DocCollection LabelDoc) A -> M LabellingConcept A :=
  zoom labels (fun c _ => mkLabelling c).

(** [{ label, user }] *)
Definition labelOf (label : Label) (user : ObjectId) : Filter :=
  FAnd [("label", CEq (VStr label)); ("user", CEq (VId user))].

Definition assertLabelExists (label : Label) (user : ObjectId) : M LabellingConcept unit :=
  result ← onLabels (readOne (labelOf label user));
  if is_Some_dec result then ret tt else throw (LabelNotFoundError label).

Definition assertLabelDoesNotExist (label : Label) (user : ObjectId) : M LabellingConcept unit :=
  result ← onLabels (readOne (labelOf label user));
  if is_Some_dec result then throw (LabelNotAllowedError label) else ret tt.

(** [result?.resources.has(resource)]: false when [result] is null. *)
Definition hasResource (result : option (BaseDoc LabelDoc)) (resource : ObjectId) : bool :=
  match result with
  | Some d => bool_decide (resource ∈ resources (fields d))
  | None => false
  end.

Definition assertResourceExists (label : Label) (resource user : ObjectId)
  : M LabellingConcept unit :=
  assertLabelExists label user;;
  result ← onLabels (readOne (labelOf label user));
  if negb (hasResource result resource)
  then throw (ResourceNotFoundError resource) else ret tt.

Definition assertResourceDoesNotExist (label : Label) (resource user : ObjectId)
  : M LabellingConcept unit :=
  assertLabelExists label user;;
  result ← onLabels (readOne (labelOf label user));
  if hasResource result resource
  then throw (ResourceNotAllowedError resource) else ret tt.

Definition register (label : Label) (user : ObjectId) : M LabellingConcept ObjectId :=
  assertLabelDoesNotExist label user;;
  onLabels (createOne (mkLabel user label ∅)).

Definition unregister (label : Label) (user : ObjectId) : M LabellingConcept unit :=
  assertLabelExists label user;;
  onLabels (deleteOne (labelOf label user));;
  ret tt.

Definition lookup (label : Label) (user : ObjectId) : M LabellingConcept (BaseDoc LabelDoc) :=
  result ← onLabels (readOne (labelOf label user));
  match result with
  | Some d => ret d
  | None => throw (LabelNotFoundError label)
  end.

(** [_label?.resources.add(resource)] / [.delete(resource)] act on the
    document that [readOne] returned, which is local to the call. *)
Definition withResources (g : gset ObjectId -> gset ObjectId) (d : BaseDoc LabelDoc)
  : BaseDoc LabelDoc :=
  mkDoc (_id d) (dateCreated d) (dateUpdated d)
        (mkLabel (user (fields d)) (label (fields d)) (g (resources (fields d)))).

Definition add (resource : ObjectId) (label : Label) (user : ObjectId) : M LabellingConcept unit :=
  assertLabelExists label user;;
  assertResourceDoesNotExist label resource user;;
  _label ← onLabels (readOne (labelOf label user));
  let _label := withResources (fun r => r ∪ {[resource]}) <$> _label in
  ret tt.

Definition remove (resource : ObjectId) (label : Label) (user : ObjectId) : M LabellingConcept unit :=
  assertLabelExists label user;;
  assertResourceExists label resource user;;
  _label ← onLabels (readOne (labelOf label user));
  let _label := withResources (fun r => r ∖ {[resource]}) <$> _label in
  ret tt.

Definition get (resource : ObjectId) : M LabellingConcept (gset Label) :=
  labels ← onLabels (readMany (FAnd []));
  ret (foldl (fun result element =>
                if bool_decide (resource ∈ resources (fields element))
                then result ∪ {[label (fields element)]}
                else result)
             ∅ labels).

End Labelling.

(** ** Sorting *)

Module Sorting.

(** [SortingOptions] is the empty interface. *)
Definition SortingOptions := unit.

Record SortDoc := mkSort {
  user : ObjectId;
  weights : gmap Label number;
  options : option SortingOptions;
}.

#[global] Instance SortDoc_schema : Schema SortDoc :=
  fun d k => if String.eqb k "user" then Some (VId (user d)) else None.

Record SortingConcept := mkSorting {
  sorts : DocCollection SortDoc;
}.

Definition onSorts {A} : M (DocCollection SortDoc) A -> M SortingConcept A :=
  zoom sorts (fun c _ => mkSorting c).

(** The static [Sort]: its body is a single [throw]. *)
Definition Sort (sort : BaseDoc SortDoc) (feed : gset ObjectId)
  : M SortingConcept (list ObjectId) :=
  throw (BaseError NotImplemented).

Definition sort (sortId : ObjectId) (feed : gset ObjectId) : M SortingConcept (list ObjectId) :=
  sort ← onSorts (readOne (FId sortId));
  match sort with
  | None => throw (SortNotFoundError sortId)
  | Some sort => Sort sort feed
  end.

Definition add (sortId : ObjectId) (label : Label) (weight : number) (user : ObjectId)
  : M SortingConcept unit :=
  sort ← onSorts (readOne (FId sortId));
  match sort with
  | None => throw (SortNotFoundError sortId)
  | Some sort =>
      if bool_decide (is_Some (weights (fields sort) !! label))
      then throw (LabelNotAllowedError label)
      else
        onSorts (partialUpdateOne (FId sortId)
                   (fun d => mkSort user (<[label := weight]> (weights (fields sort)))
                                    (options d)));;
        ret tt
  end.

Definition remove (sortId : ObjectId) (label : Label) : M SortingConcept unit :=
  sort ← onSorts (readOne (FId sortId));
  match sort with
  | None => throw (SortNotFoundError sortId)
  | Some sort =>
      if negb (bool_decide (is_Some (weights (fields sort) !! label)))
      then throw (LabelNotFoundError label)
      else
        onSorts (partialUpdateOne (FId sortId)
                   (fun d => mkSort (Sorting.user d)
                                    (base.delete label (weights (fields sort)))
                                    (options d)));;
        ret tt
  end.

Definition set (sortId : ObjectId) (label : Label) (weight : number) (user : ObjectId)
  : M SortingConcept unit :=
  sort ← onSorts (readOne (FId sortId));
  match sort with
  | None => throw (SortNotFoundError sortId)
  | Some sort =>
      if negb (bool_decide (is_Some (weights (fields sort) !! label)))
      then throw (LabelNotAllowedError label)
      else
        onSorts (partialUpdateOne (FId sortId)
                   (fun d => mkSort (Sorting.user d)
                                    (<[label := weight]> (weights (fields sort)))
                                    (options d)));;
        ret tt
  end.

(** [weights.get(label)] is [undefined] exactly when the label is not a
    key: a stored weight is a number. *)
Definition get (sortId : ObjectId) (label : Label) : M SortingConcept number :=
  sort ← onSorts (readOne (FId sortId));
  match sort with
  | None => throw (SortNotFoundError sortId)
  | Some sort =>
      match weights (fields sort) !! label with
      | None => throw (LabelNotAllowedError label)
      | Some result => ret result
      end
  end.

End Sorting.

(** ** Sourcing *)

Module Sourcing.

(** Modelled from the spec: [concepts/types] is not among the sources;
    the data model gives the source kinds as URL, File, Folder. *)
Inductive SourceTarget := URL | File | Folder.

Definition SourcingOptions := unit.

Record SourceDoc := mkSource {
  user : ObjectId;
  path_uri : string;
  target : SourceTarget;
  contentIDs : gset ObjectId;
  options : option SourcingOptions;
}.

Record ContentDoc := mkContent {
  content_user : ObjectId;
  source : ObjectId;
  body : option string;
}.

#[global] Instance SourceDoc_schema : Schema SourceDoc :=
  fun d k =>
    if String.eqb k "user" then Some (VId (user d))
    else if String.eqb k "path_uri" then Some (VStr (path_uri d))
    else None.

#[global] Instance ContentDoc_schema : Schema ContentDoc :=
  fun d k =>
    if String.eqb k "user" then Some (VId (content_user d))
    else if String.eqb k "source" then Some (VId (source d))
    else match body d with
         | Some b => if String.eqb k "body" then Some (VStr b) else None
         | None => None
         end.

(** The constructor opens both handles under the one [collectionName];
    [update] goes through [sources] only. *)
Record SourcingConcept := mkSourcing {
  sources : DocCollection SourceDoc;
  content : DocCollection ContentDoc;
}.

Definition onSources {A} : M (DocCollection SourceDoc) A -> M SourcingConcept A :=
  zoom sources (fun c s => mkSourcing c (content s)).

Definition assertSourceExists (filter : Filter) : M SourcingConcept unit :=
  result ← onSources (readOne filter);
  if is_Some_dec result then ret tt else throw (SourceNotAllowedError filter).

(** The static [Get]: its body is a single [throw]. *)
Definition Get (target : option SourceTarget) (uri : option string)
  : M SourcingConcept (list ContentDoc) :=
  throw (BaseError NotImplemented).

Definition update (sourceID : ObjectId) : M SourcingConcept unit :=
  assertSourceExists (FId sourceID);;
  source ← onSources (readOne (FId sourceID));
  newContent ← Get (target ∘ fields <$> source) (path_uri ∘ fields <$> source);
  match newContent with
  | [] => ret tt
  | _ :: _ => throw (BaseError NotImplemented)
  end.

End Sourcing.

(** ** Templating *)

Module Templating.

Inductive TemplateType := Markdown.

Inductive ResourceType := Text | Image.

Definition TemplatingOptions := unit.

(** [resources] is a [Set] of enum values, kept in insertion order. *)
Record TemplateDoc := mkTemplate {
  user : ObjectId;
  type : TemplateType;
  resources : list ResourceType;
  template : ObjectId;
  options : option TemplatingOptions;
}.

Record RenderDoc := mkRender {
  render_user : ObjectId;
  render_template : ObjectId;
  data : gmap string ObjectId;
}.

#[global] Instance TemplateDoc_schema : Schema TemplateDoc :=
  fun d k =>
    if String.eqb k "user" then Some (VId (user d))
    else if String.eqb k "template" then Some (VId (template d))
    else None.

#[global] Instance RenderDoc_schema : Schema RenderDoc :=
  fun d k =>
    if String.eqb k "user" then Some (VId (render_user d))
    else if String.eqb k "template" then Some (VId (render_template d))
    else None.

(** The constructor opens both handles under the one [collectionName];
    [render] goes through [templates] only. *)
Record TemplatingConcept := mkTemplating {
  templates : DocCollection TemplateDoc;
  renders : DocCollection RenderDoc;
}.

Definition onTemplates {A} : M (DocCollection TemplateDoc) A -> M TemplatingConcept A :=
  zoom templates (fun c s => mkTemplating c (renders s)).

Definition assertTemplateExists (template : ObjectId) : M TemplatingConcept unit :=
  result ← onTemplates (readOne (FId template));
  if is_Some_dec result then ret tt else throw (TemplateNotFoundError template).

(** The private [Render]: its body is a single [throw]. *)
Definition Render (template : ObjectId) (data : gmap string ObjectId)
  : M TemplatingConcept ObjectId :=
  throw (BaseError NotImplemented).

Definition render (template : ObjectId) (data : gmap string ObjectId)
  : M TemplatingConcept ObjectId :=
  assertTemplateExists template;;
  Render template data.

End Templating.

(** ** Authenticating: the queries *)

Module AuthenticatingQueries.

(** [Omit<UserDoc, "password">]: what is left of a User once the
    password is taken out. *)
Record RedactedUser := mkRedacted {
  username : string;
}.

(** [const { password, ...rest } = user; return rest]. *)
Definition redactPassword (user : BaseDoc Authenticating.UserDoc) : BaseDoc RedactedUser :=
  mkDoc (_id user) (dateCreated user) (dateUpdated user)
        (mkRedacted (Authenticating.username (fields user))).

Definition getUserById (_id : ObjectId)
  : M Authenticating.AuthenticatingConcept (BaseDoc RedactedUser) :=
  let filter := FAnd [("_id", CEq (VId _id))] in
  user ← Authenticating.onUsers (readOne filter);
  user ← try_catch (assertDoesExist user)
           (fun e => throw (if instanceof e NotFound
                            then UserNotFoundError filter else e));
  ret (redactPassword user).

Definition getUserByUsername (username : string)
  : M Authenticating.AuthenticatingConcept (BaseDoc RedactedUser) :=
  let filter := FAnd [("username", CEq (VStr username))] in
  user ← Authenticating.onUsers (readOne filter);
  user ← try_catch (assertDoesExist user)
           (fun e => throw (if instanceof e NotFound
                            then UserNotFoundError filter else e));
  ret (redactPassword user).


End AuthenticatingQueries.

(** ** Sourcing: registration and lookup *)

Module SourcingActions.
Import Sourcing.

Section WithTarget.

(** [SourceTarget] is declared in [concepts/types], which is not among
    the sources: the value a target is stored as is left open. *)
Variable targetValue : SourceTarget -> Value.

(** The scalar fields of a Source, [target] included. *)
Definition sourceFields : Schema SourceDoc :=
  fun d k =>
    if String.eqb k "target" then Some (targetValue (target d))
    else field d k.

Definition onSources {A} : M (DocCollection SourceDoc) A -> M SourcingConcept A :=
  zoom sources (fun c s => mkSourcing c (content s)).

Definition assertUserOwns (source : BaseDoc SourceDoc) (user : ObjectId)
  : M SourcingConcept unit :=
  if negb (bool_decide (Sourcing.user (fields source) = user))
  then throw (SourceNotAllowedError (FId (_id source)))
  else ret tt.

Definition assertSourceExists (filter : Filter) : M SourcingConcept unit :=
  result ← onSources (readOne (H := sourceFields) filter);
  if is_Some_dec result then ret tt else throw (SourceNotAllowedError filter).

Definition assertSourceDoesNotExist (filter : Filter) : M SourcingConcept unit :=
  result ← onSources (readOne (H := sourceFields) filter);
  if is_Some_dec result then throw (SourceNotFoundError filter) else ret tt.

(** The filter of the duplicate check is [{ target, uri, user }]. *)
Definition register (target : SourceTarget) (uri : string) (user : ObjectId)
  : M SourcingConcept ObjectId :=
  assertSourceDoesNotExist
    (FAnd [("target", CEq (targetValue target)); ("uri", CEq (VStr uri));
           ("user", CEq (VId user))]);;
  onSources (createOne (mkSource user uri target ∅ None)).

Definition unregister (sourceID : ObjectId) (user : ObjectId) : M SourcingConcept nat :=
  result ← onSources (readOne (H := sourceFields) (FId sourceID));
  match result with
  | None => throw (SourceNotFoundError (FId sourceID))
  | Some result =>
      assertUserOwns result user;;
      onSources (deleteOne (H := sourceFields) (FId sourceID))
  end.

(** The second read uses the filter [{ sourceID, user }]. *)
Definition lookupOne (sourceID : ObjectId) (user : ObjectId)
  : M SourcingConcept (BaseDoc SourceDoc) :=
  assertSourceExists (FId sourceID);;
  result ← onSources (readOne (H := sourceFields)
                        (FAnd [("sourceID", CEq (VId sourceID));
                               ("user", CEq (VId user))]));
  match result with
  | None => throw (SourceNotFoundError (FId sourceID))
  | Some result => assertUserOwns result user;; ret result
  end.

(** [readMany] returns an array, never null: the [result == null]
    branch is dead. *)
Definition lookupMany (user : ObjectId) : M SourcingConcept (list (BaseDoc SourceDoc)) :=
  onSources (readMany (H := sourceFields) (FAnd [("user", CEq (VId user))])).

End WithTarget.

End SourcingActions.

(** ** Responses *)

(** The conversions of [responses.ts]; they read the users of the
    Authenticating instance of the application. *)
Module Responses.

Record BaseResponse (B : Type) := mkResponse {
  HTTP_CODE : N;
  body : B;
}.
Arguments mkResponse {B}.
Arguments HTTP_CODE {B}.
Arguments body {B}.

Record PostOptions := mkPostOptions {
  backgroundColor : option string;
}.

(** A post whose [author] is an [A]: an id in a [PostDoc], a name in a
    response. *)
Record Post (A : Type) := mkPost {
  author : A;
  content : ObjectId;
  options : option PostOptions;
}.
Arguments mkPost {A}.
Arguments author {A}.
Arguments content {A}.
Arguments options {A}.

Definition PostDoc := Post ObjectId.

(** [{ ...post, author: name }] *)
Definition withAuthor {A} (post : BaseDoc PostDoc) (name : A) : BaseDoc (Post A) :=
  mkDoc (_id post) (dateCreated post) (dateUpdated post)
        (mkPost name (content (fields post)) (options (fields post))).

(** A friend request whose ends are [A]s. *)
Record Request (A : Type) := mkRequestOf {
  from : A;
  to : A;
  status : Friending.Status;
}.
Arguments mkRequestOf {A}.
Arguments from {A}.
Arguments to {A}.
Arguments status {A}.

(** [{ ...request, from: f, to: t }] *)
Definition withEnds {A} (request : BaseDoc Friending.FriendRequestDoc) (f t : A)
  : BaseDoc (Request A) :=
  mkDoc (_id request) (dateCreated request) (dateUpdated request)
        (mkRequestOf f t (Friending.status (fields request))).

Definition post (post : BaseDoc PostDoc)
  : M Authenticating.AuthenticatingConcept (BaseResponse (BaseDoc (Post string))) :=
  author ← AuthenticatingQueries.getUserById (author (fields post));
  ret (mkResponse 200 (withAuthor post (AuthenticatingQueries.username (fields author)))).

(** [authors[i]] is [undefined] past the end of [authors]: [None]. *)
Definition posts (posts : list (BaseDoc PostDoc))
  : M Authenticating.AuthenticatingConcept
      (BaseResponse (list (BaseDoc (Post (option string))))) :=
  authors ← Authenticating.idsToUsernames ((fun post => author (fields post)) <$> posts);
  ret (mkResponse 200 (imap (fun i post => withAuthor post (authors !! i)) posts)).

Definition friendRequests (requests : list (BaseDoc Friending.FriendRequestDoc))
  : M Authenticating.AuthenticatingConcept
      (BaseResponse (list (BaseDoc (Request (option string))))) :=
  let from := (fun request => Friending.from (fields request)) <$> requests in
  let to := (fun request => Friending.to (fields request)) <$> requests in
  usernames ← Authenticating.idsToUsernames (from ++ to);
  ret (mkResponse 200
         (imap (fun i request =>
                  withEnds request (usernames !! i) (usernames !! (i + length requests)))
               requests)).

End Responses.

(** ** FormattableError *)

(** The message of a [FormattableError] is
    [format.replace(/{(\d+)}/g, (match, number) =>
       typeof args[number] !== "undefined" ? args[number] : match)].
    The global replace is one pass over [format] from left to right;
    it is written here as that pass.  An argument is given by the
    string it is written as, [None] standing for [undefined]. *)
Module Formatting.
Import Stdlib.Strings.Ascii.

Definition isDigit (c : Ascii.ascii) : bool :=
  (48 <=? Ascii.nat_of_ascii c)%nat && (Ascii.nat_of_ascii c <=? 57)%nat.

Definition digitValue (c : Ascii.ascii) : nat := Ascii.nat_of_ascii c - 48.

Fixpoint decimal (acc : nat) (digits : string) : nat :=
  match digits with
  | EmptyString => acc
  | String c rest => decimal (10 * acc + digitValue c) rest
  end.

(** [number] is a string of digits; it is a key of an array exactly
    when it is the decimal writing of an index: no leading zero. *)
Definition isIndex (number : string) : bool :=
  match number with
  | EmptyString => false
  | String c rest => negb (Ascii.eqb c "0"%char) || String.eqb rest ""
  end.

(** [args[number]] *)
Definition argAt (args : list (option string)) (number : string) : option string :=
  if isIndex number then mjoin (args !! decimal 0 number) else None.

(** Where the pass stands: in plain text, or after a ["{"] and the
    digits that followed it. *)
Inductive Scan :=
| Text
| Brace (digits : string).

(** What has been read and not yet written out. *)
Definition pending (st : Scan) : string :=
  match st with
  | Text => ""
  | Brace digits => "{" ++ digits
  end.

(** The replacement of the match ["{" ++ number ++ "}"]. *)
Definition replacement (args : list (option string)) (number : string) : string :=
  match argAt args number with
  | Some arg => arg
  | None => "{" ++ number ++ "}"
  end.

Fixpoint replaceAll (args : list (option string)) (st : Scan) (s : string) : string :=
  match s with
  | EmptyString => pending st
  | String c rest =>
      match st with
      | Text =>
          if Ascii.eqb c "{"%char then replaceAll args (Brace "") rest
          else String c (replaceAll args Text rest)
      | Brace digits =>
          if isDigit c then replaceAll args (Brace (digits ++ String c "")) rest
          else if Ascii.eqb c "}"%char && negb (String.eqb digits "")
          then replacement args digits ++ replaceAll args Text rest
          else if Ascii.eqb c "{"%char
          then pending st ++ replaceAll args (Brace "") rest
          else pending st ++ String c (replaceAll args Text rest)
      end
  end.

Record FormattableError := mkError {
  HTTP_CODE : N;
  format : string;
  message : string;
}.

(** [new FormattableError(format, ...args)] *)
Definition new (format : string) (args : list (option string)) : FormattableError :=
  mkError 500 format (replaceAll args Text format).

Definition formatWith (this : FormattableError) (args : list (option string))
  : FormattableError :=
  let e := new (format this) args in
  mkError (HTTP_CODE this) (format e) (message e).

End Formatting.

(** * Vocabulary of the properties *)

(** The number of elements of [l] satisfying [p]. *)
Definition count {A} (p : A -> bool) (l : list A) : nat := length (List.filter p l).

Module FriendingSpec.
Import Friending.

(** The unordered pair [{x, y}] is the unordered pair [{a, b}]. *)
Definition samePair (a b x y : ObjectId) : bool :=
  bool_decide (x = a /\ y = b) || bool_decide (x = b /\ y = a).

(** A request row that is pending between [a] and [b], in either
    direction. *)
Definition isPendingBetween (a b : ObjectId) (r : BaseDoc FriendRequestDoc) : bool :=
  bool_decide (status (fields r) = pending)
  && samePair a b (from (fields r)) (to (fields r)).

(** A request row that is pending from [a] to [b]. *)
Definition isPendingFromTo (a b : ObjectId) (r : BaseDoc FriendRequestDoc) : bool :=
  bool_decide (from (fields r) = a) && bool_decide (to (fields r) = b)
  && bool_decide (status (fields r) = pending).

(** A Friendship edge of the unordered pair [{a, b}]. *)
Definition isFriendship (a b : ObjectId) (f : BaseDoc FriendshipDoc) : bool :=
  samePair a b (user1 (fields f)) (user2 (fields f)).

(** The actions of the concept that change its collections, and the
    states they lead to from the empty concept.  An action that throws
    leaves the state it had reached. *)
Inductive Call :=
| CreateRequest (from to : ObjectId)
| AcceptRequest (from to : ObjectId)
| RejectRequest (from to : ObjectId)
| RemoveRequest (from to : ObjectId)
| RemoveFriend (user friend : ObjectId).

Definition call (c : Call) (s : FriendingConcept) : FriendingConcept :=
  match c with
  | CreateRequest a b => after (createRequest a b) s
  | AcceptRequest a b => after (acceptRequest a b) s
  | RejectRequest a b => after (rejectRequest a b) s
  | RemoveRequest a b => after (removeRequest a b) s
  | RemoveFriend a b => after (removeFriend a b) s
  end.

Inductive reachable : FriendingConcept -> Prop :=
| reachable_init : reachable init
| reachable_call c s : reachable s -> reachable (call c s).

Definition pendingCount (a b : ObjectId) (s : FriendingConcept) : nat :=
  count (isPendingBetween a b) (docs (requests s)).

Definition friendshipCount (a b : ObjectId) (s : FriendingConcept) : nat :=
  count (isFriendship a b) (docs (friends s)).

(** [a] and [b] are friends: some Friendship edge joins them. *)
Definition areFriends (a b : ObjectId) (s : FriendingConcept) : Prop :=
  exists f, In f (docs (friends s)) /\ isFriendship a b f = true.

(** A pending request exists between [a] and [b], in either direction. *)
Definition hasPendingBetween (a b : ObjectId) (s : FriendingConcept) : Prop :=
  exists r, In r (docs (requests s)) /\ isPendingBetween a b r = true.

(** The invariant of the reachable states: a pair has at most one
    pending request or one Friendship edge, never both; no request row
    goes from a user to itself. *)
Definition invariant (s : FriendingConcept) : Prop :=
  (forall a b, pendingCount a b s + friendshipCount a b s <= 1) /\
  (forall r, In r (docs (requests s)) -> from (fields r) <> to (fields r)).

End FriendingSpec.


Module AuthenticatingSpec.
Import Authenticating.

(** Some stored User has this username. *)
Definition usernameTaken (name : string) (s : AuthenticatingConcept) : Prop :=
  exists u, In u (docs (users s)) /\ username (fields u) = name.

(** Some stored User has this id. *)
Definition userExists (id : ObjectId) (s : AuthenticatingConcept) : Prop :=
  exists u, In u (docs (users s)) /\ _id u = id.

(** A stored User with this id has this password. *)
Definition credentialsMatch (id : ObjectId) (pw : string) (s : AuthenticatingConcept) : Prop :=
  exists u, In u (docs (users s)) /\ _id u = id /\ password (fields u) = pw.

End AuthenticatingSpec.

Module AuthenticatingReach.
Import Authenticating.

(** The actions that write to the users, and the states they lead to
    from the empty concept. *)
Inductive Call :=
| Register (username password : string)
| UpdateUsername (_id : ObjectId) (username : string)
| UpdatePassword (_id : ObjectId) (currentPassword newPassword : string)
| Delete (_id : ObjectId).

Definition call (c : Call) (s : AuthenticatingConcept) : AuthenticatingConcept :=
  match c with
  | Register name pw => after (register name pw) s
  | UpdateUsername id name => after (updateUsername id name) s
  | UpdatePassword id cur new => after (updatePassword id cur new) s
  | Delete id => after (delete id) s
  end.

Inductive reachable : AuthenticatingConcept -> Prop :=
| reachable_init : reachable init
| reachable_call c s : reachable s -> reachable (call c s).

(** Usernames are pairwise distinct, identifiers are pairwise distinct
    and below the next fresh one, and no password is empty. *)
Definition invariant (s : AuthenticatingConcept) : Prop :=
  NoDup ((fun u => username (fields u)) <$> docs (users s))
  /\ NoDup (_id <$> docs (users s))
  /\ (forall u, In u (docs (users s)) -> (_id u < nextId (users s))%N)
  /\ (forall u, In u (docs (users s)) -> password (fields u) <> "").

End AuthenticatingReach.

Module LabellingReach.
Import Labelling.

Inductive Call :=
| Register (label : Label) (user : ObjectId)
| Unregister (label : Label) (user : ObjectId)
| Add (resource : ObjectId) (label : Label) (user : ObjectId)
| Remove (resource : ObjectId) (label : Label) (user : ObjectId).

Definition call (c : Call) (s : LabellingConcept) : LabellingConcept :=
  match c with
  | Register l u => after (register l u) s
  | Unregister l u => after (unregister l u) s
  | Add r l u => after (add r l u) s
  | Remove r l u => after (remove r l u) s
  end.

Inductive reachable : LabellingConcept -> Prop :=
| reachable_init : reachable init
| reachable_call c s : reachable s -> reachable (call c s).

(** The user has a label of that name. *)
Definition registered (l : Label) (u : ObjectId) (s : LabellingConcept) : Prop :=
  exists d, In d (docs (labels s)) /\ label (fields d) = l /\ user (fields d) = u.

(** Every stored resource set is empty, and a user has at most one
    label of a name. *)
Definition invariant (s : LabellingConcept) : Prop :=
  (forall d, In d (docs (labels s)) -> resources (fields d) = ∅)
  /\ NoDup ((fun d => (label (fields d), user (fields d))) <$> docs (labels s)).

End LabellingReach.

Module SortingSpec.
Import Sorting.

(** The state after the fields of the profile stored under [sortId]
    are rewritten by [g]. *)
Definition rewritten (s : SortingConcept) (sortId : ObjectId)
    (g : SortDoc -> SortDoc) : SortingConcept :=
  mkSorting
    (mkColl (updateFirst (matches (FId sortId))
               (fun d => mkDoc (_id d) (dateCreated d) (clock (sorts s)) (g (fields d)))
               (docs (sorts s)))
            (nextId (sorts s)) (N.succ (clock (sorts s)))).

End SortingSpec.

Module SourcingSpec.
Import Sourcing.

(** One way of storing a target, by its name; used to run the
    properties of [SourcingActions] on examples. *)
Definition targetName (t : SourceTarget) : Value :=
  VStr match t with URL => "url" | File => "file" | Folder => "folder" end.

End SourcingSpec.

Module ResponsesSpec.
Import Authenticating AuthenticatingSpec.

(** [shown] is the display name of [id] in [s]: a defined string, the
    username of a stored User with that id when there is one, the
    sentinel otherwise. *)
Definition named (s : AuthenticatingConcept) (id : ObjectId) (shown : option string) : Prop :=
  exists name,
    shown = Some name
    /\ (userExists id s ->
        exists u, In u (docs (users s)) /\ _id u = id /\ name = username (fields u))
    /\ (~ userExists id s -> name = DELETED_USER).

End ResponsesSpec.

Module FormattingSpec.
Import Stdlib.Strings.Ascii.

(** The character ["{"] does not occur in [s]. *)
Fixpoint braceFree (s : string) : bool :=
  match s with
  | EmptyString => true
  | String c rest => negb (Ascii.eqb c "{"%char) && braceFree rest
  end.

(** The digit of [n], for [n] below ten. *)
Definition digitOf (n : nat) : Ascii.ascii := Ascii.ascii_of_nat (48 + n).

End FormattingSpec.

(** * Properties *)

(** ** The store *)

Section StoreFacts.
Context {T : Type} `{Schema T}.
Implicit Types (p q : BaseDoc T -> bool) (l : list (BaseDoc T)).

Lemma count_app {A} (p : A -> bool) (l1 l2 : list A) :
  count p (l1 ++ l2) = count p l1 + count p l2.
Proof. unfold count. by rewrite List.filter_app, length_app. Qed.

Lemma count_ext {A} (p q : A -> bool) (l : list A) :
  (forall x, p x = q x) -> count p l = count q l.
Proof. intros E. unfold count. f_equal. by apply List.filter_ext. Qed.

Lemma count_zero_find {A} (p : A -> bool) (l : list A) :
  count p l = 0 <-> List.find p l = None.
Proof.
  unfold count. induction l as [|x l IH]; simpl; [done|].
  destruct (p x); simpl; [split; discriminate | exact IH].
Qed.

Lemma find_In {A} (p : A -> bool) (l : list A) x :
  List.find p l = Some x -> In x l /\ p x = true.
Proof. apply List.find_some. Qed.

Lemma In_find {A} (p : A -> bool) (l : list A) x :
  In x l -> p x = true -> exists y, List.find p l = Some y.
Proof.
  intros Hin Hp. destruct (List.find p l) eqn:E; [eauto|].
  by rewrite (List.find_none _ _ E _ Hin) in Hp.
Qed.

(** Removing the first [p]-document [x] lowers the count of [q] by one
    exactly when [q x]. *)
Lemma count_removeFirst {A} (p q : A -> bool) (l : list A) x :
  List.find p l = Some x ->
  count q l = count q (removeFirst p l) + (if q x then 1 else 0).
Proof.
  unfold count. induction l as [|y l IH]; simpl; [done|].
  destruct (p y) eqn:Ep.
  - intros [= ->]. destruct (q x); simpl; lia.
  - intros Hf. specialize (IH Hf). simpl. destruct (q y); simpl; lia.
Qed.

Lemma In_removeFirst {A} (p : A -> bool) (l : list A) x :
  In x (removeFirst p l) -> In x l.
Proof.
  induction l as [|y l IH]; simpl; [done|].
  destruct (p y); simpl; intuition.
Qed.

Lemma count_zero_all {A} (p : A -> bool) (l : list A) :
  (forall x, In x l -> p x = false) -> count p l = 0.
Proof.
  unfold count. induction l as [|x l IH]; simpl; [done|]. intros Hall.
  rewrite (Hall x) by auto. apply IH. auto.
Qed.

Lemma find_none_count {A} (p q : A -> bool) (l : list A) :
  List.find p l = None -> (forall x, q x = true -> p x = true) -> count q l = 0.
Proof.
  intros Hf Hqp. apply count_zero_find.
  destruct (List.find q l) as [x|] eqn:E; [|done].
  apply find_In in E as [Hin Hq].
  specialize (Hqp x Hq). by rewrite (List.find_none _ _ Hf _ Hin) in Hqp.
Qed.

Lemma count_removeFirst_le {A} (p q : A -> bool) (l : list A) :
  count q (removeFirst p l) <= count q l.
Proof.
  unfold count. induction l as [|y l IH]; simpl; [done|].
  destruct (p y); simpl; destruct (q y); simpl; lia.
Qed.

Lemma count_pos {A} (p : A -> bool) (l : list A) x :
  In x l -> p x = true -> 1 <= count p l.
Proof.
  intros Hin Hp. destruct (count p l) eqn:E; [|lia].
  apply count_zero_find in E. by rewrite (List.find_none _ _ E _ Hin) in Hp.
Qed.

Lemma count_le_impl {A} (p q : A -> bool) (l : list A) :
  (forall x, p x = true -> q x = true) -> count p l <= count q l.
Proof.
  intros Hpq. unfold count. induction l as [|x l IH]; simpl; [done|].
  destruct (p x) eqn:Ep; [rewrite (Hpq x Ep); simpl; lia|].
  destruct (q x); simpl; lia.
Qed.

Lemma count_le1_unique {A} (p : A -> bool) (l : list A) x y :
  count p l <= 1 -> In x l -> In y l -> p x = true -> p y = true -> x = y.
Proof.
  intros Hle Hx Hy Hpx Hpy. induction l as [|z l IH]; [done|].
  unfold count in Hle. simpl in Hle.
  destruct Hx as [->|Hx], Hy as [->|Hy]; [done| | |].
  - rewrite Hpx in Hle. pose proof (count_pos p l y Hy Hpy).
    unfold count in *. simpl in Hle. lia.
  - rewrite Hpy in Hle. pose proof (count_pos p l x Hx Hpx).
    unfold count in *. simpl in Hle. lia.
  - apply IH; [|done..]. unfold count. destruct (p z); simpl in Hle; lia.
Qed.

(** When at most one element satisfies [p], removing the first such
    element [r] leaves exactly the other elements. *)
Lemma In_removeFirst_unique {A} (p : A -> bool) (l : list A) r :
  List.find p l = Some r -> count p l <= 1 ->
  forall x, In x (removeFirst p l) <-> In x l /\ x <> r.
Proof.
  induction l as [|y l IH]; simpl; [done|].
  unfold count. simpl. destruct (p y) eqn:Ep; simpl.
  - intros [= ->] Hle x. split.
    + intros Hx. split; [by right|]. intros ->.
      pose proof (count_pos p l r Hx Ep). unfold count in *. lia.
    + intros [[->|Hx] Hne]; done.
  - intros Hf Hle x. rewrite (IH Hf Hle).
    apply find_In in Hf as [_ Hr]. split.
    + intros [->|[Hx Hne]]; [|by auto]. split; [by left|]. congruence.
    + intros [[->|Hx] Hne]; auto.
Qed.

End StoreFacts.

(** Unfolding the monad and the store operations of a run. *)
Ltac run :=
  unfold outcome, after, mbind, M_bind, bind, try_catch, zoom, ret, throw,
    readOne, readMany, createOne, popOne, deleteOne, partialUpdateOne,
    assertDoesExist, assertDoesNotExist; simpl.

(** ** Friending *)

Section FriendingFacts.
Import Friending FriendingSpec.

Lemma samePair_true a b x y :
  samePair a b x y = true <-> (x = a /\ y = b) \/ (x = b /\ y = a).
Proof.
  unfold samePair. rewrite orb_true_iff, !bool_decide_eq_true. tauto.
Qed.

Lemma samePair_trans a b c d x y :
  samePair c d a b = true -> samePair c d x y = samePair a b x y.
Proof.
  intros Hcd. apply samePair_true in Hcd.
  apply eq_true_iff_eq. rewrite !samePair_true.
  destruct Hcd as [[-> ->]|[-> ->]]; tauto.
Qed.

Lemma statusString_pending s : statusString s = "pending" <-> s = pending.
Proof. destruct s; simpl; split; congruence. Qed.

Lemma matches_friendshipBetween a b f :
  matches (friendshipBetween a b) f = isFriendship a b f.
Proof.
  unfold isFriendship, samePair. simpl. rewrite orb_false_r, !andb_true_r.
  apply eq_true_iff_eq.
  rewrite !orb_true_iff, !andb_true_iff, !bool_decide_eq_true. split.
  - intros [[[= ->] [= ->]]|[[= ->] [= ->]]]; auto.
  - intros [[-> ->]|[-> ->]]; auto.
Qed.

Lemma matches_pendingFromTo a b r :
  matches (pendingFromTo a b) r = isPendingFromTo a b r.
Proof.
  unfold isPendingFromTo. simpl. rewrite !andb_true_r, andb_assoc.
  apply eq_true_iff_eq.
  rewrite !andb_true_iff, !bool_decide_eq_true. split.
  - intros [[[= ->] [= ->]] [= E]]. by apply statusString_pending in E.
  - intros [[-> ->] ->]. done.
Qed.

(** The filter of [canSendRequest] asks for [from] and [to] to lie in
    [{u1, u2}]: besides the rows between the pair it accepts a row
    from a user to itself. *)
Lemma matches_pendingBetween a b r :
  matches (pendingBetween a b) r = true <->
  status (fields r) = pending /\
  (from (fields r) = a \/ from (fields r) = b) /\
  (to (fields r) = a \/ to (fields r) = b).
Proof.
  simpl. rewrite !andb_true_r, !andb_true_iff, !bool_decide_eq_true.
  rewrite !elem_of_cons, !elem_of_nil. split.
  - intros ([[= ->]|[[= ->]|[]]] & [[= ->]|[[= ->]|[]]] & [= E]);
      apply statusString_pending in E; auto.
  - intros (-> & [->| ->] & [->| ->]); auto.
Qed.

Lemma isPendingBetween_matches a b r :
  isPendingBetween a b r = true -> matches (pendingBetween a b) r = true.
Proof.
  unfold isPendingBetween. rewrite andb_true_iff, bool_decide_eq_true, samePair_true.
  intros [Hs Hp]. apply matches_pendingBetween. intuition.
Qed.

Lemma matches_isPendingBetween a b r :
  from (fields r) <> to (fields r) ->
  matches (pendingBetween a b) r = true -> isPendingBetween a b r = true.
Proof.
  intros Hne Hm. apply matches_pendingBetween in Hm.
  unfold isPendingBetween. rewrite andb_true_iff, bool_decide_eq_true, samePair_true.
  destruct Hm as (Hs & [Hf|Hf] & [Ht|Ht]); split; auto; congruence.
Qed.

(** *** What each action does *)

Lemma removePendingRequest_run a b s :
  removePendingRequest a b s =
  match List.find (matches (pendingFromTo a b)) (docs (requests s)) with
  | None => (Throw (FriendRequestNotFoundError a b), s)
  | Some d =>
      (Ok d, mkFriending (friends s)
               (mkColl (removeFirst (matches (pendingFromTo a b)) (docs (requests s)))
                       (nextId (requests s)) (clock (requests s))))
  end.
Proof.
  unfold removePendingRequest, onRequests. run.
  destruct (List.find _ _); simpl; [done|]. by destruct s.
Qed.

Lemma canSendRequest_run a b s :
  canSendRequest a b s =
  if is_Some_dec (List.find (matches (friendshipBetween a b)) (docs (friends s)))
  then (Throw (AlreadyFriendsError a b), s)
  else if bool_decide (a = b) then (Throw (AlreadyFriendsError a b), s)
  else if is_Some_dec (List.find (matches (pendingBetween a b)) (docs (requests s)))
  then (Throw (FriendRequestAlreadyExistsError a b), s)
  else (Ok tt, s).
Proof.
  unfold canSendRequest, assertNotFriends, onFriends, onRequests. run.
  destruct s as [fr rq]; simpl.
  destruct (is_Some_dec (List.find _ (docs fr))); [done|].
  destruct (bool_decide (a = b)); [done|]. simpl.
  by destruct (is_Some_dec (List.find _ (docs rq))).
Qed.

Lemma createRequest_run a b s :
  createRequest a b s =
  match canSendRequest a b s with
  | (Ok _, _) =>
      (Ok (nextId (requests s)),
       mkFriending (friends s)
         (mkColl (docs (requests s) ++
                    [mkDoc (nextId (requests s)) (clock (requests s))
                           (clock (requests s)) (mkRequest a b pending)])
                 (N.succ (nextId (requests s))) (N.succ (clock (requests s)))))
  | (Throw e, _) => (Throw e, s)
  end.
Proof.
  unfold createRequest. unfold mbind, M_bind, bind.
  rewrite canSendRequest_run.
  repeat match goal with |- context [if ?c then _ else _] => destruct c end;
    try done.
Qed.

Lemma acceptRequest_run a b s :
  acceptRequest a b s =
  match List.find (matches (pendingFromTo a b)) (docs (requests s)) with
  | None => (Throw (FriendRequestNotFoundError a b), s)
  | Some _ =>
      (Ok (nextId (requests s), nextId (friends s)),
       mkFriending
         (mkColl (docs (friends s) ++
                    [mkDoc (nextId (friends s)) (clock (friends s))
                           (clock (friends s)) (mkFriendship a b)])
                 (N.succ (nextId (friends s))) (N.succ (clock (friends s))))
         (mkColl (removeFirst (matches (pendingFromTo a b)) (docs (requests s)) ++
                    [mkDoc (nextId (requests s)) (clock (requests s))
                           (clock (requests s)) (mkRequest a b accepted)])
                 (N.succ (nextId (requests s))) (N.succ (clock (requests s)))))
  end.
Proof.
  unfold acceptRequest. unfold mbind at 1, M_bind at 1, bind at 1.
  rewrite removePendingRequest_run.
  destruct (List.find _ _); [|done].
  unfold addFriend, onFriends, onRequests. run. done.
Qed.

Lemma rejectRequest_run a b s :
  rejectRequest a b s =
  match List.find (matches (pendingFromTo a b)) (docs (requests s)) with
  | None => (Throw (FriendRequestNotFoundError a b), s)
  | Some _ =>
      (Ok (nextId (requests s)),
       mkFriending (friends s)
         (mkColl (removeFirst (matches (pendingFromTo a b)) (docs (requests s)) ++
                    [mkDoc (nextId (requests s)) (clock (requests s))
                           (clock (requests s)) (mkRequest a b rejected)])
                 (N.succ (nextId (requests s))) (N.succ (clock (requests s)))))
  end.
Proof.
  unfold rejectRequest. unfold mbind at 1, M_bind at 1, bind at 1.
  rewrite removePendingRequest_run.
  destruct (List.find _ _); [|done].
  unfold onRequests. run. done.
Qed.

Lemma removeRequest_run a b s :
  after (removeRequest a b) s = after (removePendingRequest a b) s.
Proof.
  unfold removeRequest, after, mbind, M_bind, bind, ret.
  by destruct (removePendingRequest a b s) as [[?|?] ?].
Qed.

Lemma removeFriend_run a b s :
  removeFriend a b s =
  match List.find (matches (friendshipBetween a b)) (docs (friends s)) with
  | None => (Throw (FriendNotFoundError a b), s)
  | Some _ =>
      (Ok tt, mkFriending
                (mkColl (removeFirst (matches (friendshipBetween a b)) (docs (friends s)))
                        (nextId (friends s)) (clock (friends s)))
                (requests s))
  end.
Proof.
  unfold removeFriend, onFriends. run.
  destruct (List.find _ _); simpl; [done|]. by destruct s.
Qed.

Lemma getFriends_run u s :
  getFriends u s =
  (Ok (map (fun f => if bool_decide (user1 (fields f) = u)
                     then user2 (fields f) else user1 (fields f))
           (List.filter (matches (friendshipsOf u)) (docs (friends s)))), s).
Proof. unfold getFriends, onFriends. run. by destruct s. Qed.

(** *** The invariant *)

Lemma isPendingBetween_FromTo a b c d p :
  isPendingFromTo a b p = true -> isPendingBetween c d p = samePair c d a b.
Proof.
  unfold isPendingFromTo, isPendingBetween.
  rewrite !andb_true_iff, !bool_decide_eq_true. intros [[-> ->] ->].
  by rewrite bool_decide_eq_true_2.
Qed.

Lemma invariant_init : invariant init.
Proof. split; [intros a b; cbn; lia | intros r []]. Qed.

Lemma invariant_createRequest a b s :
  invariant s -> invariant (after (createRequest a b) s).
Proof.
  intros [Hcount Hself]. unfold after.
  rewrite createRequest_run, canSendRequest_run.
  destruct (is_Some_dec _) as [|Hfr]; [by split|].
  destruct (bool_decide_reflect (a = b)) as [|Hab]; [by split|].
  destruct (is_Some_dec _) as [|Hrq]; [by split|]. simpl.
  apply eq_None_not_Some in Hfr, Hrq.
  split; simpl.
  - intros c d. unfold pendingCount, friendshipCount. simpl.
    rewrite count_app. unfold count at 2. simpl.
    unfold isPendingBetween at 2. simpl.
    destruct (samePair c d a b) eqn:E; simpl.
    + rewrite (count_ext _ (isPendingBetween a b)), (count_ext _ (isFriendship a b)).
      * rewrite (find_none_count _ _ _ Hrq), (find_none_count _ _ _ Hfr); [lia| |].
        -- intros x. by rewrite matches_friendshipBetween.
        -- apply isPendingBetween_matches.
      * intros x. by apply samePair_trans.
      * intros x. unfold isPendingBetween. f_equal. by apply samePair_trans.
    + specialize (Hcount c d). unfold pendingCount, friendshipCount in Hcount. lia.
  - intros r [Hin|[<-|[]]]%in_app_or; [by apply Hself | done].
Qed.

(** Consuming the pending request from [a] to [b] and then inserting
    [rows] that are not pending and [edges] that join [a] and [b], when
    there are any. *)
Lemma invariant_consume a b s p rows edges nid clk fnid fclk :
  invariant s ->
  List.find (matches (pendingFromTo a b)) (docs (requests s)) = Some p ->
  (forall r, In r rows -> fields r = mkRequest a b (status (fields r))
                          /\ status (fields r) <> pending) ->
  (edges = [] \/ exists e, edges = [e] /\ fields e = mkFriendship a b) ->
  invariant
    (mkFriending
       (mkColl (docs (friends s) ++ edges) fnid fclk)
       (mkColl (removeFirst (matches (pendingFromTo a b)) (docs (requests s)) ++ rows)
               nid clk)).
Proof.
  intros [Hcount Hself] Hfind Hrows Hedges.
  pose proof (find_In _ _ _ Hfind) as [Hin Hp].
  rewrite matches_pendingFromTo in Hp.
  assert (Hab : a <> b).
  { specialize (Hself p Hin). unfold isPendingFromTo in Hp.
    rewrite !andb_true_iff, !bool_decide_eq_true in Hp.
    destruct Hp as [[<- <-] _]. exact Hself. }
  split; simpl.
  - intros c d. unfold pendingCount, friendshipCount. simpl.
    rewrite !count_app.
    assert (count (isPendingBetween c d) rows = 0) as ->.
    { apply count_zero_all. intros r Hr.
      destruct (Hrows r Hr) as [_ Hst]. unfold isPendingBetween.
      by rewrite bool_decide_eq_false_2. }
    pose proof (count_removeFirst _ (isPendingBetween c d) _ _ Hfind) as Hrem.
    rewrite (isPendingBetween_FromTo a b) in Hrem by done.
    specialize (Hcount c d). unfold pendingCount, friendshipCount in Hcount.
    destruct Hedges as [->|(e & -> & He)].
    + unfold count in *. destruct (samePair c d a b); simpl; lia.
    + unfold count in *. simpl. unfold isFriendship in *. rewrite He. simpl.
      destruct (samePair c d a b); simpl; lia.
  - intros r [Hr|Hr]%in_app_or.
    + by apply In_removeFirst, Hself in Hr.
    + destruct (Hrows r Hr) as [-> _]. done.
Qed.

Lemma invariant_call c s : invariant s -> invariant (call c s).
Proof.
  intros Hinv. destruct c as [a b|a b|a b|a b|a b]; simpl.
  - by apply invariant_createRequest.
  - unfold after. rewrite acceptRequest_run.
    destruct (List.find _ _) as [p|] eqn:Hfind; [|done]. simpl.
    eapply invariant_consume; eauto.
    intros r [<-|[]]. done.
  - unfold after. rewrite rejectRequest_run.
    destruct (List.find _ _) as [p|] eqn:Hfind; [|done]. simpl.
    replace (friends s) with (mkColl (docs (friends s) ++ []) (nextId (friends s))
                                     (clock (friends s)))
      by (rewrite app_nil_r; by destruct (friends s)).
    simpl. eapply invariant_consume; eauto.
    intros r [<-|[]]. done.
  - rewrite removeRequest_run. unfold after. rewrite removePendingRequest_run.
    destruct (List.find _ _) as [p|] eqn:Hfind; [|done]. simpl.
    rewrite <- (app_nil_r (removeFirst _ _)).
    replace (friends s) with (mkColl (docs (friends s) ++ []) (nextId (friends s))
                                     (clock (friends s)))
      by (rewrite app_nil_r; by destruct (friends s)).
    eapply invariant_consume; eauto. intros r [].
  - unfold after. rewrite removeFriend_run.
    destruct (List.find _ _) as [f|] eqn:Hfind; [|done]. simpl.
    destruct Hinv as [Hcount Hself]. split; simpl; [|done].
    intros c d. specialize (Hcount c d).
    unfold pendingCount, friendshipCount in *. simpl.
    pose proof (count_removeFirst_le (matches (friendshipBetween a b))
                  (isFriendship c d) (docs (friends s))). lia.
Qed.

Lemma reachable_invariant s : reachable s -> invariant s.
Proof.
  induction 1 as [|c s _ IH]; [apply invariant_init | by apply invariant_call].
Qed.

End FriendingFacts.

(** C10.  [createRequest(u, u)] throws [AlreadyFriendsError] (a
    [NotAllowedError]) in every state, whatever the two collections
    hold, and leaves both collections as they were. *)
Theorem createRequest_self_not_allowed (u : ObjectId) (s : Friending.FriendingConcept) :
  Friending.createRequest u u s = (Throw (AlreadyFriendsError u u), s)
  /\ fails_with (outcome (Friending.createRequest u u) s) NotAllowed
  /\ after (Friending.createRequest u u) s = s.
Proof.
  assert (E : Friending.createRequest u u s = (Throw (AlreadyFriendsError u u), s)).
  { rewrite createRequest_run, canSendRequest_run.
    destruct (is_Some_dec _); [done|]. by rewrite bool_decide_eq_true_2. }
  unfold outcome, after, fails_with. rewrite E. simpl. eauto.
Qed.

Section FriendingClaims.
Import Friending FriendingSpec.

(** C2.  In every state reachable by the Friending actions, and for
    distinct users [a] and [b]: at most one pending request exists
    between the pair; [createRequest(a, b)] fails with a
    [NotAllowedError] when the pair is already friends or a pending
    request exists between them in either direction; otherwise it
    succeeds and appends one pending request from [a] to [b], leaving
    the friendships alone. *)
Theorem createRequest_pending_unique (s : FriendingConcept) (a b : ObjectId) :
  reachable s -> a <> b ->
  pendingCount a b s <= 1
  /\ (areFriends a b s \/ hasPendingBetween a b s ->
      fails_with (outcome (createRequest a b) s) NotAllowed)
  /\ (~ areFriends a b s -> ~ hasPendingBetween a b s ->
      exists requestId created,
        outcome (createRequest a b) s = Ok requestId
        /\ friends (after (createRequest a b) s) = friends s
        /\ docs (requests (after (createRequest a b) s)) =
           (docs (requests s)
              ++ [mkDoc requestId created created (mkRequest a b pending)])%list
        /\ pendingCount a b (after (createRequest a b) s) = 1).
Proof.
  intros Hreach Hab. pose proof (reachable_invariant s Hreach) as [Hcount Hself].
  split; [specialize (Hcount a b); lia|]. split.
  - intros Hblocked. unfold outcome, fails_with.
    rewrite createRequest_run, canSendRequest_run.
    destruct (is_Some_dec _) as [|Hfr]; [by eexists|].
    rewrite bool_decide_eq_false_2 by done.
    destruct (is_Some_dec _) as [|Hrq]; [by eexists|].
    apply eq_None_not_Some in Hfr, Hrq. exfalso.
    destruct Hblocked as [(f & Hin & Hf)|(r & Hin & Hr)].
    + rewrite <- matches_friendshipBetween in Hf.
      by rewrite (List.find_none _ _ Hfr _ Hin) in Hf.
    + apply isPendingBetween_matches in Hr.
      by rewrite (List.find_none _ _ Hrq _ Hin) in Hr.
  - intros Hnf Hnp. unfold outcome, after.
    rewrite createRequest_run, canSendRequest_run.
    destruct (is_Some_dec _) as [[f Hf]|_].
    { destruct Hnf. apply find_In in Hf as [Hin Hf].
      rewrite matches_friendshipBetween in Hf. by exists f. }
    rewrite bool_decide_eq_false_2 by done.
    destruct (is_Some_dec _) as [[r Hr]|_].
    { destruct Hnp. apply find_In in Hr as [Hin Hr].
      exists r. split; [done|]. apply matches_isPendingBetween; auto. }
    simpl. eexists _, _. repeat split.
    unfold pendingCount. simpl. rewrite count_app.
    assert (count (isPendingBetween a b) (docs (requests s)) = 0) as ->.
    { apply count_zero_all. intros x Hx.
      destruct (isPendingBetween a b x) eqn:E; [|done].
      destruct Hnp. by exists x. }
    unfold count, isPendingBetween, samePair. simpl.
    by rewrite (bool_decide_eq_true_2 (a = a /\ b = b)).
Qed.

(** C1.  In a state reachable by the Friending actions that holds a
    pending request [r] from [from] to [to], [acceptRequest(from, to)]
    succeeds; afterwards [r] is gone and no request is pending between
    the two, the requests are the former ones without [r] plus one new
    [accepted] row, the friendships are the former ones plus one new
    edge of [from] and [to], which is the only edge of the unordered
    pair, and [getFriends(from)] contains [to] and [getFriends(to)]
    contains [from]. *)
Theorem acceptRequest_creates_friendship
    (s : FriendingConcept) (from to : ObjectId) (r : BaseDoc FriendRequestDoc) :
  reachable s ->
  In r (docs (requests s)) -> isPendingFromTo from to r = true ->
  exists requestId friendId row edge,
    outcome (acceptRequest from to) s = Ok (requestId, friendId)
    /\ _id row = requestId /\ fields row = mkRequest from to accepted
    /\ _id edge = friendId /\ fields edge = mkFriendship from to
    /\ ~ In r (docs (requests (after (acceptRequest from to) s)))
    /\ (forall x, In x (docs (requests (after (acceptRequest from to) s))) <->
                  (In x (docs (requests s)) /\ x <> r) \/ x = row)
    /\ pendingCount from to (after (acceptRequest from to) s) = 0
    /\ docs (friends (after (acceptRequest from to) s)) = (docs (friends s) ++ [edge])%list
    /\ friendshipCount from to s = 0
    /\ friendshipCount from to (after (acceptRequest from to) s) = 1
    /\ (exists l, outcome (getFriends from) (after (acceptRequest from to) s) = Ok l
                  /\ In to l)
    /\ (exists l, outcome (getFriends to) (after (acceptRequest from to) s) = Ok l
                  /\ In from l).
Proof.
  intros Hreach Hin Hr.
  pose proof (reachable_invariant s Hreach) as [Hcount Hself].
  specialize (Hcount from to).
  assert (Hrb : isPendingBetween from to r = true).
  { rewrite (isPendingBetween_FromTo from to) by done.
    apply samePair_true. auto. }
  pose proof (count_pos _ _ _ Hin Hrb) as Hpos. fold (pendingCount from to s) in Hpos.
  assert (Hone : count (matches (pendingFromTo from to)) (docs (requests s)) <= 1).
  { etrans; [apply (count_le_impl _ (isPendingBetween from to))|].
    - intros x Hx. rewrite matches_pendingFromTo in Hx.
      rewrite (isPendingBetween_FromTo from to) by done. apply samePair_true. auto.
    - unfold pendingCount in *. lia. }
  destruct (In_find (matches (pendingFromTo from to)) _ r Hin) as [p Hfind];
    [by rewrite matches_pendingFromTo|].
  assert (p = r) as ->.
  { pose proof (find_In _ _ _ Hfind) as [Hpin Hp].
    apply (count_le1_unique _ _ _ _ Hone); auto.
    by rewrite matches_pendingFromTo. }
  assert (Hfc : friendshipCount from to s = 0) by lia.
  unfold outcome, after. rewrite acceptRequest_run, Hfind. simpl.
  exists (nextId (requests s)), (nextId (friends s)),
    (mkDoc (nextId (requests s)) (clock (requests s)) (clock (requests s))
           (mkRequest from to accepted)),
    (mkDoc (nextId (friends s)) (clock (friends s)) (clock (friends s))
           (mkFriendship from to)).
  split; [reflexivity|]. do 4 (split; [reflexivity|]).
  assert (Hrows : forall x,
    In x (removeFirst (matches (pendingFromTo from to)) (docs (requests s)) ++
            [mkDoc (nextId (requests s)) (clock (requests s)) (clock (requests s))
                   (mkRequest from to accepted)]) <->
    (In x (docs (requests s)) /\ x <> r) \/
    x = mkDoc (nextId (requests s)) (clock (requests s)) (clock (requests s))
              (mkRequest from to accepted)).
  { intros x. rewrite in_app_iff, (In_removeFirst_unique _ _ _ Hfind Hone). simpl.
    intuition congruence. }
  split; [|split; [exact Hrows|]].
  { intros [[_ Hne]| ->]%Hrows; [done|].
    unfold isPendingFromTo in Hr. simpl in Hr.
    by rewrite andb_false_r in Hr. }
  split; [|split; [reflexivity|split; [done|split; [|split]]]].
  - unfold pendingCount. simpl. rewrite count_app.
    pose proof (count_removeFirst _ (isPendingBetween from to) _ _ Hfind) as Hrem.
    rewrite Hrb in Hrem. unfold pendingCount in *.
    unfold count at 2. simpl. lia.
  - unfold friendshipCount in *. simpl. rewrite count_app, Hfc.
    unfold count, isFriendship, samePair. simpl.
    by rewrite (bool_decide_eq_true_2 (from = from /\ to = to)).
  - eexists. split; [reflexivity|].
    rewrite List.filter_app, map_app. apply in_or_app. right. simpl.
    rewrite !bool_decide_eq_true_2 by done. simpl.
    rewrite bool_decide_eq_true_2 by done. by left.
  - eexists. split; [reflexivity|].
    rewrite List.filter_app, map_app. apply in_or_app. right. simpl.
    rewrite (bool_decide_eq_true_2 (VId to = VId to)) by done.
    rewrite orb_true_r. simpl.
    destruct (bool_decide_reflect (from = to)) as [->|]; by left.
Qed.

(** At work: user 1 has sent a request to user 2. *)
Lemma createRequest_pending_unique_witness :
  reachable (call (CreateRequest 1 2) init) /\ 2%N <> 1%N
  /\ pendingCount 2 1 (call (CreateRequest 1 2) init) <= 1
  /\ fails_with (outcome (createRequest 2 1) (call (CreateRequest 1 2) init)) NotAllowed.
Proof.
  assert (Hreach : reachable (call (CreateRequest 1 2) init))
    by apply reachable_call, reachable_init.
  assert (Hne : 2%N <> 1%N) by lia.
  destruct (createRequest_pending_unique _ 2 1 Hreach Hne) as (Hle & Hfail & _).
  repeat split; [done..|].
  apply Hfail. right. eexists. split; [left; reflexivity | reflexivity].
Defined.

Lemma acceptRequest_creates_friendship_witness :
  reachable (call (CreateRequest 1 2) init)
  /\ In (mkDoc 0 0 0 (mkRequest 1 2 pending))
        (docs (requests (call (CreateRequest 1 2) init)))
  /\ isPendingFromTo 1 2 (mkDoc 0 0 0 (mkRequest 1 2 pending)) = true
  /\ friendshipCount 1 2
       (after (acceptRequest 1 2) (call (CreateRequest 1 2) init)) = 1
  /\ (exists l, outcome (getFriends 2)
                  (after (acceptRequest 1 2) (call (CreateRequest 1 2) init)) = Ok l
                /\ In 1%N l).
Proof.
  assert (Hreach : reachable (call (CreateRequest 1 2) init))
    by apply reachable_call, reachable_init.
  assert (Hin : In (mkDoc 0 0 0 (mkRequest 1 2 pending))
                  (docs (requests (call (CreateRequest 1 2) init))))
    by (left; reflexivity).
  assert (Hp : isPendingFromTo 1 2 (mkDoc 0 0 0 (mkRequest 1 2 pending)) = true)
    by reflexivity.
  destruct (acceptRequest_creates_friendship _ 1 2 _ Hreach Hin Hp)
    as (? & ? & ? & ? & _ & _ & _ & _ & _ & _ & _ & _ & _ & _ & Hone & _ & Hfriends).
  repeat split; done.
Defined.

End FriendingClaims.

(** ** Authenticating *)

Section AuthenticatingFacts.
Import Authenticating AuthenticatingSpec.

Lemma find_none_all {A} (p : A -> bool) (l : list A) :
  (forall x, In x l -> p x = false) -> List.find p l = None.
Proof.
  intros Hall. destruct (List.find p l) as [x|] eqn:E; [|done].
  apply find_In in E as [Hin Hp]. by rewrite (Hall x Hin) in Hp.
Qed.

Lemma matches_username name (u : BaseDoc UserDoc) :
  matches (FAnd [("username", CEq (VStr name))]) u = true <-> username (fields u) = name.
Proof.
  simpl. rewrite andb_true_r, bool_decide_eq_true. split; [by intros [= ->] | by intros ->].
Qed.

(** No document of the users collection has a field [currentPassword]. *)
Lemma matches_currentPassword id pw (u : BaseDoc UserDoc) :
  matches (FAnd [("_id", CEq (VId id)); ("currentPassword", CEq (VStr pw))]) u = false.
Proof. simpl. by rewrite andb_false_r. Qed.

Lemma assertUsernameUnique_run name s :
  assertUsernameUnique name s =
  match List.find (matches (FAnd [("username", CEq (VStr name))])) (docs (users s)) with
  | Some _ => (Throw (UserNotAllowedError (FAnd [("username", CEq (VStr name))])), s)
  | None => (Ok tt, s)
  end.
Proof.
  unfold assertUsernameUnique, onUsers. run. destruct s as [us]. simpl.
  by destruct (List.find _ _).
Qed.

Lemma register_run name pw s :
  register name pw s =
  if falsy name || falsy pw then (Throw (BaseError BadValues), s)
  else match List.find (matches (FAnd [("username", CEq (VStr name))])) (docs (users s)) with
       | Some _ => (Throw (UserNotAllowedError (FAnd [("username", CEq (VStr name))])), s)
       | None =>
           (Ok (nextId (users s)),
            mkAuthenticating
              (mkColl (docs (users s) ++
                         [mkDoc (nextId (users s)) (clock (users s)) (clock (users s))
                                (mkUser name pw)])
                      (N.succ (nextId (users s))) (N.succ (clock (users s)))))
       end.
Proof.
  unfold register, assertGoodCredentials. unfold mbind, M_bind, bind.
  destruct (falsy name || falsy pw); [done|].
  rewrite assertUsernameUnique_run.
  destruct (List.find _ _); [done|]. unfold onUsers. run. done.
Qed.

Lemma updatePassword_run id cur new s :
  updatePassword id cur new s =
  (Throw (UserNotFoundError
            (FAnd [("_id", CEq (VId id)); ("currentPassword", CEq (VStr cur))])), s).
Proof.
  unfold updatePassword, onUsers. run. destruct s as [us]. simpl.
  rewrite find_none_all; [done|]. intros u _. apply matches_currentPassword.
Qed.

Lemma falsy_false name pw :
  name <> "" -> pw <> "" -> falsy name || falsy pw = false.
Proof. intros. unfold falsy. by rewrite !bool_decide_eq_false_2. Qed.

(** *** The map of [idsToUsernames] *)

Lemma foldl_insert_lookup (us : list (BaseDoc UserDoc)) (m : gmap N (BaseDoc UserDoc)) id u :
  foldl (fun m user => <[_id user := user]> m) m us !! id = Some u ->
  (In u us /\ _id u = id) \/ m !! id = Some u.
Proof.
  revert m. induction us as [|x us IH]; simpl; intros m Hl; [by right|].
  destruct (IH _ Hl) as [[Hin Hid]|Hm]; [by left; auto|].
  destruct (decide (_id x = id)) as [E|E].
  - rewrite E, lookup_insert_eq in Hm. injection Hm as <-. left. auto.
  - rewrite lookup_insert_ne in Hm by done. by right.
Qed.

Lemma foldl_insert_is_Some (us : list (BaseDoc UserDoc)) (m : gmap N (BaseDoc UserDoc)) id :
  (exists u, In u us /\ _id u = id) \/ is_Some (m !! id) ->
  is_Some (foldl (fun m user => <[_id user := user]> m) m us !! id).
Proof.
  revert m. induction us as [|x us IH]; simpl; intros m.
  - intros [(u & [] & _)|Hm]. done.
  - intros [(u & [->|Hin] & Hid)|Hm]; apply IH.
    + right. rewrite <- Hid, lookup_insert_eq. by eexists.
    + left. eauto.
    + right. destruct (decide (_id x = id)) as [E|E].
      * rewrite E, lookup_insert_eq. by eexists.
      * by rewrite lookup_insert_ne.
Qed.

Lemma matches_id_in ids (u : BaseDoc UserDoc) :
  matches (FAnd [("_id", CIn (VId <$> ids))]) u = true <-> _id u ∈ ids.
Proof.
  simpl. rewrite andb_true_r, bool_decide_eq_true, list_elem_of_fmap. split.
  - by intros (i & [= ->] & Hin).
  - intros Hin. by exists (_id u).
Qed.

End AuthenticatingFacts.

Section AuthenticatingClaims.
Import Authenticating AuthenticatingSpec.

(** C6.  [register(username, password)] throws [BadValuesError] when
    either string is empty; with both non-empty it throws a
    [NotAllowedError] ([UserNotAllowedError]) when some User already
    has that username, whatever that User's password is; otherwise it
    appends one User with these credentials and returns its id.  A
    failed call leaves the users as they were. *)
Theorem register_outcomes (name pw : string) (s : AuthenticatingConcept) :
  (name = "" \/ pw = "" ->
     register name pw s = (Throw (BaseError BadValues), s))
  /\ (name <> "" -> pw <> "" -> usernameTaken name s ->
      fails_with (outcome (register name pw) s) NotAllowed
      /\ after (register name pw) s = s)
  /\ (name <> "" -> pw <> "" -> ~ usernameTaken name s ->
      exists id created,
        outcome (register name pw) s = Ok id
        /\ docs (users (after (register name pw) s)) =
           (docs (users s) ++ [mkDoc id created created (mkUser name pw)])%list).
Proof.
  split; [|split].
  - intros Hempty. rewrite register_run. unfold falsy.
    destruct Hempty as [->| ->]; simpl; [done|]. by rewrite orb_true_r.
  - intros Hn Hp (u & Hin & Hu). unfold outcome, after, fails_with.
    rewrite register_run, falsy_false by done.
    destruct (In_find (matches (FAnd [("username", CEq (VStr name))])) _ u Hin)
      as [u' ->]; [by apply matches_username|].
    simpl. split; [by eexists|done].
  - intros Hn Hp Hfree. unfold outcome, after.
    rewrite register_run, falsy_false by done.
    destruct (List.find _ _) as [u|] eqn:E.
    + destruct Hfree. apply find_In in E as [Hin Hu]. exists u.
      split; [done|]. by apply matches_username.
    + simpl. eauto.
Qed.

Lemma register_outcomes_witness :
  "alice" <> "" /\ "secret" <> "" /\ ~ usernameTaken "alice" init
  /\ outcome (register "alice" "secret") init = Ok 0%N
  /\ usernameTaken "alice" (after (register "alice" "secret") init)
  /\ fails_with (outcome (register "alice" "other")
                   (after (register "alice" "secret") init)) NotAllowed.
Proof.
  assert (Hfree : ~ usernameTaken "alice" init) by (intros (u & [] & _)).
  assert (Htaken : usernameTaken "alice" (after (register "alice" "secret") init))
    by (eexists; split; [left; reflexivity | reflexivity]).
  destruct (register_outcomes "alice" "secret" init) as (_ & _ & Hnew).
  destruct (Hnew ltac:(done) ltac:(done) Hfree) as (id & t & Hid & _).
  destruct (register_outcomes "alice" "other" (after (register "alice" "secret") init))
    as (_ & Hdup & _).
  destruct (Hdup ltac:(done) ltac:(done) Htaken) as [Hfail _].
  repeat split; done.
Defined.

(** C7.  [idsToUsernames(ids)] never throws and changes nothing; its
    result has the length of [ids]; at each position it holds the
    username of a stored User with the id at that position when there
    is one, and ["DELETED_USER"] when there is none. *)
Theorem idsToUsernames_total (ids : list ObjectId) (s : AuthenticatingConcept) :
  exists names,
    idsToUsernames ids s = (Ok names, s)
    /\ length names = length ids
    /\ forall i id, ids !! i = Some id ->
         (userExists id s ->
            exists u, In u (docs (users s)) /\ _id u = id
                      /\ names !! i = Some (username (fields u)))
         /\ (~ userExists id s -> names !! i = Some "DELETED_USER").
Proof.
  unfold idsToUsernames, onUsers. run. destruct s as [us]. simpl.
  eexists. split; [reflexivity|]. split; [by rewrite length_fmap|].
  intros i id Hi. rewrite list_lookup_fmap, Hi. simpl. unfold idToUserMap.
  assert (Hid : id ∈ ids) by (by eapply list_elem_of_lookup_2).
  split.
  - intros (u & Hin & Hu).
    destruct (foldl_insert_is_Some
                (List.filter (matches (FAnd [("_id", CIn (VId <$> ids))])) (docs us))
                ∅ id) as [v Hv].
    { left. exists u. split; [|done]. apply List.filter_In. split; [done|].
      apply matches_id_in. by rewrite Hu. }
    rewrite Hv. apply foldl_insert_lookup in Hv as [[Hvin Hvid]|Hv]; [|done].
    apply List.filter_In in Hvin as [Hvin _]. eauto.
  - intros Hnone.
    destruct (foldl _ _ _ !! id) as [v|] eqn:Hv; [|done].
    apply foldl_insert_lookup in Hv as [[Hvin Hvid]|Hv]; [|done].
    apply List.filter_In in Hvin as [Hvin _]. destruct Hnone. by exists v.
Qed.

(** At work: of the ids 0 and 9, only 0 is a stored User. *)
Lemma idsToUsernames_total_witness :
  let s := after (register "alice" "secret") init in
  exists names,
    idsToUsernames [0%N; 9%N] s = (Ok names, s)
    /\ names !! 0%nat = Some "alice" /\ names !! 1%nat = Some "DELETED_USER".
Proof.
  intros s.
  destruct (idsToUsernames_total [0%N; 9%N] s) as (names & Hrun & _ & Hpos).
  exists names. split; [exact Hrun|]. split.
  - destruct (Hpos 0%nat 0%N eq_refl) as [Hsome _].
    destruct Hsome as (u & Hin & _ & Hname).
    { eexists. split; [left; reflexivity | reflexivity]. }
    destruct Hin as [<-|[]]. exact Hname.
  - destruct (Hpos 1%nat 9%N eq_refl) as [_ Hnone]. apply Hnone.
    intros (u & [<-|[]] & Hid). discriminate Hid.
Defined.

(** [updatePassword] throws [UserNotFoundError] in every state and for
    every argument, and changes nothing: its filter asks for a field
    [currentPassword], which no User has. *)
Lemma updatePassword_always_not_found (id : ObjectId) (cur new : string)
    (s : AuthenticatingConcept) :
  fails_with (outcome (updatePassword id cur new) s) NotFound
  /\ after (updatePassword id cur new) s = s.
Proof.
  unfold outcome, after, fails_with. rewrite updatePassword_run. simpl. eauto.
Qed.

(** C3, as the code runs it.  User 0 is registered with password
    ["secret"]; presenting that very password, [updatePassword] throws
    [UserNotFoundError] (a [NotFoundError]), the state is unchanged
    and no User 0 with password ["hunter2"] exists afterwards. *)
Theorem updatePassword_rejects_current_password :
  let s := after (register "alice" "secret") init in
  credentialsMatch 0 "secret" s
  /\ fails_with (outcome (updatePassword 0 "secret" "hunter2") s) NotFound
  /\ after (updatePassword 0 "secret" "hunter2") s = s
  /\ ~ credentialsMatch 0 "hunter2" (after (updatePassword 0 "secret" "hunter2") s).
Proof.
  intros s. split; [|split; [|split]].
  - eexists. split; [left; reflexivity|]. done.
  - apply updatePassword_always_not_found.
  - apply updatePassword_always_not_found.
  - destruct (updatePassword_always_not_found 0 "secret" "hunter2" s) as [_ ->].
    intros (u & [<-|[]] & _ & Hpw). discriminate Hpw.
Qed.

End AuthenticatingClaims.

(** ** Labelling *)

Section LabellingFacts.
Import Labelling.

Lemma matches_labelOf l u (d : BaseDoc LabelDoc) :
  matches (labelOf l u) d = true <-> label (fields d) = l /\ user (fields d) = u.
Proof.
  simpl. rewrite andb_true_r, andb_true_iff, !bool_decide_eq_true. split.
  - by intros [[= ->] [= ->]].
  - by intros [-> ->].
Qed.

Lemma label_register_run l u s :
  register l u s =
  match List.find (matches (labelOf l u)) (docs (labels s)) with
  | Some _ => (Throw (LabelNotAllowedError l), s)
  | None =>
      (Ok (nextId (labels s)),
       mkLabelling
         (mkColl (docs (labels s) ++
                    [mkDoc (nextId (labels s)) (clock (labels s)) (clock (labels s))
                           (mkLabel u l ∅)])
                 (N.succ (nextId (labels s))) (N.succ (clock (labels s)))))
  end.
Proof.
  unfold register, assertLabelDoesNotExist, onLabels. run.
  destruct s as [ls]. simpl. by destruct (List.find _ _).
Qed.

(** [add] writes nothing: whatever it returns, the labels are as
    before. *)
Lemma label_add_run r l u s :
  add r l u s =
  match List.find (matches (labelOf l u)) (docs (labels s)) with
  | None => (Throw (LabelNotFoundError l), s)
  | Some d =>
      if bool_decide (r ∈ resources (fields d))
      then (Throw (ResourceNotAllowedError r), s)
      else (Ok tt, s)
  end.
Proof.
  unfold add, assertResourceDoesNotExist, assertLabelExists, onLabels. run.
  destruct s as [ls]. simpl.
  destruct (List.find _ _) as [d|] eqn:E; simpl; rewrite ?E; simpl; [|done].
  rewrite E. simpl. by destruct (bool_decide _).
Qed.

Lemma label_remove_run r l u s :
  remove r l u s =
  match List.find (matches (labelOf l u)) (docs (labels s)) with
  | None => (Throw (LabelNotFoundError l), s)
  | Some d =>
      if bool_decide (r ∈ resources (fields d))
      then (Ok tt, s)
      else (Throw (ResourceNotFoundError r), s)
  end.
Proof.
  unfold remove, assertResourceExists, assertLabelExists, onLabels. run.
  destruct s as [ls]. simpl.
  destruct (List.find _ _) as [d|] eqn:E; simpl; rewrite ?E; simpl; [|done].
  rewrite E. simpl. by destruct (bool_decide _).
Qed.

Lemma label_get_run r s :
  get r s =
  (Ok (foldl (fun result element =>
                if bool_decide (r ∈ resources (fields element))
                then result ∪ {[label (fields element)]}
                else result)
             ∅ (docs (labels s))), s).
Proof.
  unfold get, onLabels. run. destruct s as [ls]. simpl.
  do 3 f_equal. induction (docs ls) as [|d ds IH]; simpl; [done|]. by f_equal.
Qed.

Lemma add_leaves_state r l u s : after (add r l u) s = s.
Proof.
  unfold after. rewrite label_add_run.
  destruct (List.find _ _); [|done]. by destruct (bool_decide _).
Qed.

Lemma find_registered l u :
  List.find (matches (labelOf l u))
    (docs (labels (after (register l u) init))) =
  Some (mkDoc 0 0 0 (mkLabel u l ∅)).
Proof.
  unfold after. rewrite label_register_run. simpl.
  by rewrite !bool_decide_eq_true_2.
Qed.

End LabellingFacts.

Section LabellingClaims.
Import Labelling.

(** [add] throws [LabelNotFoundError] (a [NotFoundError]) when the
    user has no label of that name. *)
Lemma add_unregistered_not_found (r : ObjectId) (l : Label) (u : ObjectId)
    (s : LabellingConcept) :
  (forall d, In d (docs (labels s)) ->
             ~ (label (fields d) = l /\ user (fields d) = u)) ->
  add r l u s = (Throw (LabelNotFoundError l), s).
Proof.
  intros Hnone. rewrite label_add_run.
  destruct (List.find _ _) as [d|] eqn:E; [|done].
  apply find_In in E as [Hin Hd]. apply matches_labelOf in Hd.
  by destruct (Hnone d Hin).
Qed.

(** C4, as the code runs it.  For every user [U] and resource [R1],
    starting from the empty concept, [register("work", U)] and then
    [add(R1, "work", U)] both succeed, [add] leaves the labels as
    they were, and [get(R1)] returns the empty set: ["work"] is not
    in it. *)
Theorem add_then_get_is_empty (U R1 : ObjectId) :
  let s1 := after (register "work" U) init in
  let s2 := after (add R1 "work" U) s1 in
  outcome (register "work" U) init = Ok 0%N
  /\ outcome (add R1 "work" U) s1 = Ok tt
  /\ s2 = s1
  /\ outcome (get R1) s2 = Ok ∅
  /\ forall labels, outcome (get R1) s2 = Ok labels -> "work" ∉ labels.
Proof.
  intros s1 s2.
  assert (Hadd : add R1 "work" U s1 = (Ok tt, s1)).
  { rewrite label_add_run. unfold s1. by rewrite find_registered. }
  assert (Hs2 : s2 = s1) by apply add_leaves_state.
  assert (Hget : outcome (get R1) s2 = Ok ∅).
  { rewrite Hs2. unfold outcome. by rewrite label_get_run. }
  repeat split; [by unfold outcome; rewrite Hadd|done..|].
  intros labels. rewrite Hget. intros [= <-]. set_solver.
Qed.

(** C5, as the code runs it.  Whenever [add(resource, label, user)]
    succeeds, calling it again succeeds again, and
    [remove(resource, label, user)] throws [ResourceNotFoundError]
    (a [NotFoundError]). *)
Theorem add_twice_then_remove (r : ObjectId) (l : Label) (u : ObjectId)
    (s : LabellingConcept) :
  outcome (add r l u) s = Ok tt ->
  outcome (add r l u) (after (add r l u) s) = Ok tt
  /\ outcome (remove r l u) (after (add r l u) s) = Throw (ResourceNotFoundError r)
  /\ fails_with (outcome (remove r l u) (after (add r l u) s)) NotFound.
Proof.
  intros Hadd. rewrite add_leaves_state. split; [done|].
  assert (Hrem : outcome (remove r l u) s = Throw (ResourceNotFoundError r)).
  { unfold outcome in *. rewrite label_add_run in Hadd. rewrite label_remove_run.
    destruct (List.find _ _); [|done]. by destruct (bool_decide _). }
  split; [done|]. rewrite Hrem. by eexists.
Qed.

Lemma add_twice_then_remove_witness :
  outcome (add 7 "work" 1) (after (register "work" 1) init) = Ok tt
  /\ outcome (add 7 "work" 1)
       (after (add 7 "work" 1) (after (register "work" 1) init)) = Ok tt
  /\ outcome (remove 7 "work" 1)
       (after (add 7 "work" 1) (after (register "work" 1) init))
     = Throw (ResourceNotFoundError 7).
Proof.
  assert (Hadd : outcome (add 7 "work" 1) (after (register "work" 1) init) = Ok tt)
    by reflexivity.
  destruct (add_twice_then_remove 7 "work" 1 _ Hadd) as (Hagain & Hrem & _).
  repeat split; done.
Defined.

End LabellingClaims.

(** ** Sorting, Sourcing, Templating *)

Section LookupById.
Context {T : Type} `{Schema T}.

(** A document of the collection is found under its id... *)
Lemma find_by_id_exists (l : list (BaseDoc T)) d :
  In d l -> exists d', List.find (matches (FId (_id d))) l = Some d'.
Proof.
  intros Hin. apply (In_find _ _ d Hin). simpl. by apply bool_decide_eq_true.
Qed.

(** ... and it is the document found when identifiers are unique. *)
Lemma find_by_id_unique (l : list (BaseDoc T)) d :
  NoDup (_id <$> l) -> In d l -> List.find (matches (FId (_id d))) l = Some d.
Proof.
  induction l as [|x l IH]; simpl; [done|].
  rewrite NoDup_cons. intros [Hx Hnd] [->|Hin].
  - by rewrite bool_decide_eq_true_2.
  - rewrite bool_decide_eq_false_2; [by apply IH|].
    intros E. apply Hx. rewrite E. apply list_elem_of_fmap.
    exists d. split; [done|]. by apply list_elem_of_In.
Qed.

End LookupById.

Section SortingClaims.
Import Sorting.

Lemma sorting_run_found sortId (s : SortingConcept) d :
  List.find (matches (FId sortId)) (docs (sorts s)) = Some d ->
  forall label weight user,
    add sortId label weight user s =
      (if bool_decide (is_Some (weights (fields d) !! label))
       then (Throw (LabelNotAllowedError label), s)
       else (Ok tt, after (add sortId label weight user) s))
    /\ set sortId label weight user s =
      (if bool_decide (is_Some (weights (fields d) !! label))
       then (Ok tt, after (set sortId label weight user) s)
       else (Throw (LabelNotAllowedError label), s))
    /\ remove sortId label s =
      (if bool_decide (is_Some (weights (fields d) !! label))
       then (Ok tt, after (remove sortId label) s)
       else (Throw (LabelNotFoundError label), s))
    /\ get sortId label s =
      match weights (fields d) !! label with
      | Some w => (Ok w, s)
      | None => (Throw (LabelNotAllowedError label), s)
      end.
Proof.
  intros Hfind label weight user.
  unfold add, set, remove, get, onSorts. run. destruct s as [ss]. simpl in *.
  rewrite !Hfind. simpl.
  destruct (bool_decide (is_Some _)); simpl; rewrite ?Hfind; simpl;
    repeat split; by destruct (weights (fields d) !! label).
Qed.

(** C9.  For a Sort profile stored under [sortId] (identifiers being
    unique) and a label: when the label is a key of the profile's
    weights, [add] throws a [NotAllowedError] and [set], [get] and
    [remove] succeed, [get] returning the stored weight; when it is
    not, [add] succeeds, [set] and [get] throw a [NotAllowedError] and
    [remove] throws a [NotFoundError]. *)
Theorem sorting_label_outcomes (s : SortingConcept) (sort : BaseDoc SortDoc)
    (sortId : ObjectId) (label : Label) (weight : number) (user : ObjectId) :
  NoDup (_id <$> docs (sorts s)) ->
  In sort (docs (sorts s)) -> _id sort = sortId ->
  (forall w, weights (fields sort) !! label = Some w ->
     fails_with (outcome (add sortId label weight user) s) NotAllowed
     /\ outcome (set sortId label weight user) s = Ok tt
     /\ outcome (get sortId label) s = Ok w
     /\ outcome (remove sortId label) s = Ok tt)
  /\ (weights (fields sort) !! label = None ->
     outcome (add sortId label weight user) s = Ok tt
     /\ fails_with (outcome (set sortId label weight user) s) NotAllowed
     /\ fails_with (outcome (get sortId label) s) NotAllowed
     /\ fails_with (outcome (remove sortId label) s) NotFound).
Proof.
  intros Hnd Hin <-.
  pose proof (find_by_id_unique _ _ Hnd Hin) as Hfind.
  destruct (sorting_run_found _ _ _ Hfind label weight user)
    as (Hadd & Hset & Hrem & Hget).
  unfold outcome, fails_with. rewrite Hadd, Hset, Hrem, Hget.
  split.
  - intros w Hw. rewrite Hw, bool_decide_eq_true_2 by (by eexists).
    simpl. repeat split; [by eexists|done..].
  - intros Hw. rewrite Hw, bool_decide_eq_false_2 by (by intros [? ?]).
    simpl. repeat split; by eexists.
Qed.

Lemma sorting_label_outcomes_witness :
  let profile := mkDoc 0 0 0 (mkSort 1 {["work" := 2.5%float]} None) in
  let s := mkSorting (mkColl [profile] 1 1) in
  NoDup (_id <$> docs (sorts s)) /\ In profile (docs (sorts s)) /\ _id profile = 0%N
  /\ fails_with (outcome (add 0 "work" 1%float 1) s) NotAllowed
  /\ outcome (get 0 "work") s = Ok 2.5%float
  /\ outcome (add 0 "play" 1%float 1) s = Ok tt
  /\ fails_with (outcome (remove 0 "play") s) NotFound.
Proof.
  intros profile s.
  assert (Hnd : NoDup (_id <$> docs (sorts s))) by apply NoDup_singleton.
  assert (Hin : In profile (docs (sorts s))) by (by left).
  destruct (sorting_label_outcomes s profile 0 "work" 1%float 1 Hnd Hin eq_refl)
    as [Hpresent _].
  destruct (Hpresent 2.5%float eq_refl) as (Hadd & _ & Hget & _).
  destruct (sorting_label_outcomes s profile 0 "play" 1%float 1 Hnd Hin eq_refl)
    as [_ Habsent].
  destruct (Habsent eq_refl) as (Hadd' & _ & _ & Hrem).
  repeat split; done.
Defined.

End SortingClaims.

Section UnimplementedClaims.

(** C8.  With a Sort profile stored under [sortId], [Sorting.sort]
    throws [NotImplementedError]; with a Source stored under
    [sourceID], so does [Sourcing.update]; with a Template stored
    under [template], so does [Templating.render].  Each leaves the
    whole state of its concept as it was. *)
Theorem unimplemented_algorithms_throw :
  (forall (s : Sorting.SortingConcept) sortId feed,
     (exists d, In d (docs (Sorting.sorts s)) /\ _id d = sortId) ->
     Sorting.sort sortId feed s = (Throw (BaseError NotImplemented), s))
  /\ (forall (s : Sourcing.SourcingConcept) sourceID,
     (exists d, In d (docs (Sourcing.sources s)) /\ _id d = sourceID) ->
     Sourcing.update sourceID s = (Throw (BaseError NotImplemented), s))
  /\ (forall (s : Templating.TemplatingConcept) template data,
     (exists d, In d (docs (Templating.templates s)) /\ _id d = template) ->
     Templating.render template data s = (Throw (BaseError NotImplemented), s)).
Proof.
  split; [|split].
  - intros s sortId feed (d & Hin & <-).
    destruct (find_by_id_exists _ _ Hin) as [d' Hd'].
    unfold Sorting.sort, Sorting.Sort, Sorting.onSorts. run.
    destruct s as [ss]. simpl in *. by rewrite Hd'.
  - intros s sourceID (d & Hin & <-).
    destruct (find_by_id_exists _ _ Hin) as [d' Hd'].
    unfold Sourcing.update, Sourcing.assertSourceExists, Sourcing.Get,
      Sourcing.onSources. run.
    destruct s as [ss cs]. simpl in *. by rewrite !Hd'.
  - intros s template data (d & Hin & <-).
    destruct (find_by_id_exists _ _ Hin) as [d' Hd'].
    unfold Templating.render, Templating.assertTemplateExists, Templating.Render,
      Templating.onTemplates. run.
    destruct s as [ts rs]. simpl in *. by rewrite Hd'.
Qed.

Lemma unimplemented_algorithms_throw_witness :
  let sorting :=
    Sorting.mkSorting (mkColl [mkDoc 0 0 0 (Sorting.mkSort 1 ∅ None)] 1 1) in
  let sourcing :=
    Sourcing.mkSourcing
      (mkColl [mkDoc 0 0 0 (Sourcing.mkSource 1 "https://example.org/feed"
                              Sourcing.URL ∅ None)] 1 1)
      Store.empty in
  let templating :=
    Templating.mkTemplating
      (mkColl [mkDoc 0 0 0 (Templating.mkTemplate 1 Templating.Markdown
                              [Templating.Text] 5 None)] 1 1)
      Store.empty in
  Sorting.sort 0 ∅ sorting = (Throw (BaseError NotImplemented), sorting)
  /\ Sourcing.update 0 sourcing = (Throw (BaseError NotImplemented), sourcing)
  /\ Templating.render 0 ∅ templating = (Throw (BaseError NotImplemented), templating).
Proof.
  intros sorting sourcing templating.
  destruct unimplemented_algorithms_throw as (Hsort & Hupdate & Hrender).
  split; [|split].
  - apply Hsort. eexists. split; [left; reflexivity | reflexivity].
  - apply Hupdate. eexists. split; [left; reflexivity | reflexivity].
  - apply Hrender. eexists. split; [left; reflexivity | reflexivity].
Defined.

End UnimplementedClaims.

(** * Further properties *)

(** ** Lists and the store, continued *)

Section MoreStoreFacts.
Context {T : Type} `{Schema T}.

Lemma matches_id_eq (id : ObjectId) (d : BaseDoc T) :
  matches (FAnd [("_id", CEq (VId id))]) d = bool_decide (_id d = id).
Proof.
  simpl. rewrite andb_true_r. apply eq_true_iff_eq.
  rewrite !bool_decide_eq_true. split; [by intros [= ->] | by intros ->].
Qed.

Lemma removeFirst_sublist {A} (p : A -> bool) (l : list A) :
  removeFirst p l `sublist_of` l.
Proof.
  induction l as [|x l IH]; simpl; [done|].
  destruct (p x); [by apply sublist_cons | by apply sublist_skip].
Qed.

Lemma find_app_none {A} (p : A -> bool) (l1 l2 : list A) :
  List.find p l1 = None -> List.find p (l1 ++ l2) = List.find p l2.
Proof.
  induction l1 as [|x l1 IH]; simpl; [done|]. by destruct (p x).
Qed.

Lemma find_app_some {A} (p : A -> bool) (l1 l2 : list A) x :
  List.find p l1 = Some x -> List.find p (l1 ++ l2) = Some x.
Proof.
  induction l1 as [|y l1 IH]; simpl; [done|]. by destruct (p y).
Qed.

(** Rewriting the first [p]-element with [g] leaves [f] of every
    element alone when [g] does. *)
Lemma fmap_updateFirst {A B} (f : A -> B) (p : A -> bool) (g : A -> A) (l : list A) :
  (forall x, f (g x) = f x) -> f <$> updateFirst p g l = f <$> l.
Proof.
  intros Hfg. induction l as [|x l IH]; simpl; [done|].
  destruct (p x); rewrite !fmap_cons; [by rewrite Hfg | by rewrite IH].
Qed.

Lemma In_updateFirst {A} (p : A -> bool) (g : A -> A) (l : list A) y :
  In y (updateFirst p g l) -> In y l \/ exists x, In x l /\ p x = true /\ y = g x.
Proof.
  induction l as [|x l IH]; simpl; [done|].
  destruct (p x) eqn:Ep; simpl.
  - intros [<-|Hy]; [right; exists x; auto | left; auto].
  - intros [<-|Hy]; [left; auto|].
    destruct (IH Hy) as [?|(z & ? & ? & ?)]; [left; auto | right; exists z; auto].
Qed.

(** With [f] injective on the list, the first [p]-element is the only
    one rewritten, and it is rewritten in place. *)
Lemma updateFirst_found {A} (p : A -> bool) (g : A -> A) (l : list A) x :
  List.find p l = Some x -> In (g x) (updateFirst p g l).
Proof.
  induction l as [|y l IH]; simpl; [done|].
  destruct (p y) eqn:Ep; simpl; [intros [= ->]; by left | right; auto].
Qed.

Lemma NoDup_fmap_updateFirst {A B} (f : A -> B) (p : A -> bool) (g : A -> A)
    (l : list A) b :
  NoDup (f <$> l) -> b ∉ f <$> l -> (forall x, f (g x) = b) ->
  NoDup (f <$> updateFirst p g l).
Proof.
  intros Hnd Hb Hg. induction l as [|x l IH]; simpl; [done|].
  simpl in Hnd, Hb. apply NoDup_cons in Hnd as [Hx Hnd].
  apply not_elem_of_cons in Hb as [Hbx Hb].
  destruct (p x); simpl; apply NoDup_cons.
  - by rewrite Hg.
  - split; [|by apply IH]. intros Hin. apply list_elem_of_fmap in Hin as (y & Hy & Hin).
    apply list_elem_of_In, In_updateFirst in Hin as [Hin|(z & _ & _ & ->)].
    + apply Hx. apply list_elem_of_fmap. exists y. by rewrite list_elem_of_In.
    + rewrite Hg in Hy. congruence.
Qed.

Lemma NoDup_fmap_inj {A B} (f : A -> B) (l : list A) x y :
  NoDup (f <$> l) -> In x l -> In y l -> f x = f y -> x = y.
Proof.
  intros Hnd Hx Hy Hf. induction l as [|z l IH]; [done|].
  simpl in Hnd. apply NoDup_cons in Hnd as [Hz Hnd].
  destruct Hx as [->|Hx], Hy as [->|Hy]; [done| | |by apply IH].
  - destruct Hz. rewrite Hf. apply list_elem_of_fmap. exists y.
    by rewrite list_elem_of_In.
  - destruct Hz. rewrite <- Hf. apply list_elem_of_fmap. exists x.
    by rewrite list_elem_of_In.
Qed.


End MoreStoreFacts.

(** ** Authenticating, continued *)

Section AuthenticatingMore.
Import Authenticating AuthenticatingSpec AuthenticatingReach AuthenticatingQueries.

Lemma matches_credentials name pw (u : BaseDoc UserDoc) :
  matches (FAnd [("username", CEq (VStr name)); ("password", CEq (VStr pw))]) u = true
  <-> Authenticating.username (fields u) = name /\ password (fields u) = pw.
Proof.
  simpl. rewrite andb_true_r, andb_true_iff, !bool_decide_eq_true. split.
  - by intros [[= ->] [= ->]].
  - by intros [-> ->].
Qed.

Lemma authenticate_run name pw s :
  authenticate name pw s =
  match List.find (matches (FAnd [("username", CEq (VStr name));
                                   ("password", CEq (VStr pw))])) (docs (users s)) with
  | Some u => (Ok (_id u), s)
  | None => (Throw (UserNotFoundError
                      (FAnd [("username", CEq (VStr name));
                             ("password", CEq (VStr pw))])), s)
  end.
Proof.
  unfold authenticate, onUsers. run. destruct s as [us]. simpl.
  by destruct (List.find _ _).
Qed.

Lemma updateUsername_run id name s :
  updateUsername id name s =
  match List.find (matches (FAnd [("username", CEq (VStr name))])) (docs (users s)) with
  | Some _ => (Throw (UserNotAllowedError (FAnd [("username", CEq (VStr name))])), s)
  | None =>
      match List.find (matches (FAnd [("_id", CEq (VId id))])) (docs (users s)) with
      | None => (Ok 0, s)
      | Some _ =>
          (Ok 1,
           mkAuthenticating
             (mkColl (updateFirst (matches (FAnd [("_id", CEq (VId id))]))
                        (fun d => mkDoc (_id d) (dateCreated d) (clock (users s))
                                        (mkUser name (password (fields d))))
                        (docs (users s)))
                     (nextId (users s)) (N.succ (clock (users s)))))
      end
  end.
Proof.
  unfold updateUsername. unfold mbind at 1, M_bind at 1, bind at 1.
  unfold try_catch. rewrite assertUsernameUnique_run.
  destruct (List.find _ _); [done|].
  unfold onUsers, zoom, partialUpdateOne. destruct s as [us]. simpl.
  by destruct (List.find _ _).
Qed.

Lemma delete_run id s :
  delete id s =
  match List.find (matches (FAnd [("_id", CEq (VId id))])) (docs (users s)) with
  | None => (Ok 0, s)
  | Some _ =>
      (Ok 1, mkAuthenticating
               (mkColl (removeFirst (matches (FAnd [("_id", CEq (VId id))]))
                          (docs (users s)))
                       (nextId (users s)) (clock (users s))))
  end.
Proof.
  unfold delete, onUsers, zoom, deleteOne. destruct s as [us]. simpl.
  by destruct (List.find _ _).
Qed.

Lemma getUserById_run id s :
  getUserById id s =
  match List.find (matches (FAnd [("_id", CEq (VId id))])) (docs (users s)) with
  | Some u => (Ok (redactPassword u), s)
  | None => (Throw (UserNotFoundError (FAnd [("_id", CEq (VId id))])), s)
  end.
Proof.
  unfold getUserById, onUsers. run. destruct s as [us]. simpl.
  by destruct (List.find _ _).
Qed.

Lemma getUserByUsername_run name s :
  getUserByUsername name s =
  match List.find (matches (FAnd [("username", CEq (VStr name))])) (docs (users s)) with
  | Some u => (Ok (redactPassword u), s)
  | None => (Throw (UserNotFoundError (FAnd [("username", CEq (VStr name))])), s)
  end.
Proof.
  unfold getUserByUsername, onUsers. run. destruct s as [us]. simpl.
  by destruct (List.find _ _).
Qed.

Lemma usernameTaken_find name s :
  usernameTaken name s <->
  is_Some (List.find (matches (FAnd [("username", CEq (VStr name))])) (docs (users s))).
Proof.
  split.
  - intros (u & Hin & Hu). apply (In_find _ _ u Hin). by apply matches_username.
  - intros [u Hu]. apply find_In in Hu as [Hin Hu]. exists u. split; [done|].
    by apply matches_username.
Qed.

Lemma not_usernameTaken_elem name s :
  ~ usernameTaken name s ->
  name ∉ (fun u => Authenticating.username (fields u)) <$> docs (users s).
Proof.
  intros Hfree (u & -> & Hin)%list_elem_of_fmap. apply Hfree. exists u.
  by rewrite <- list_elem_of_In.
Qed.

(** *** The invariant of the reachable states *)

Lemma auth_invariant_init : invariant init.
Proof. repeat split; simpl; try apply NoDup_nil_2; by intros u []. Qed.

Lemma auth_invariant_call c s : invariant s -> invariant (call c s).
Proof.
  intros Hinv. pose proof Hinv as (Hnames & Hids & Hfresh & Hpw).
  destruct c as [name pw|id name|id cur new|id]; simpl.
  - unfold after. rewrite register_run.
    destruct (falsy name || falsy pw) eqn:Hfalsy; [exact Hinv|].
    destruct (List.find _ _) as [u|] eqn:Hfind; [exact Hinv|]. simpl.
    apply orb_false_iff in Hfalsy as [_ Hpwne]. unfold falsy in Hpwne.
    apply bool_decide_eq_false in Hpwne.
    assert (Hfree : ~ usernameTaken name s).
    { rewrite usernameTaken_find, Hfind. by intros [? ?]. }
    repeat split; simpl.
    + rewrite fmap_app. apply NoDup_app. split; [done|]. split; [|apply NoDup_singleton].
      intros x Hx ->%list_elem_of_singleton.
      by apply (not_usernameTaken_elem _ _ Hfree).
    + rewrite fmap_app. apply NoDup_app. split; [done|]. split; [|apply NoDup_singleton].
      intros x (u & -> & Hu)%list_elem_of_fmap E%list_elem_of_singleton.
      apply list_elem_of_In, Hfresh in Hu. simpl in E. lia.
    + intros u [Hu|[<-|[]]]%in_app_or; simpl; [|lia].
      apply Hfresh in Hu. lia.
    + intros u [Hu|[<-|[]]]%in_app_or; simpl; [by apply Hpw | done].
  - unfold after. rewrite updateUsername_run.
    destruct (List.find (matches (FAnd [("username", _)])) _) as [u|] eqn:Hname;
      [exact Hinv|].
    destruct (List.find (matches (FAnd [("_id", _)])) _) as [u|] eqn:Hid;
      [|exact Hinv]. simpl.
    assert (Hfree : ~ usernameTaken name s).
    { rewrite usernameTaken_find, Hname. by intros [? ?]. }
    repeat split; simpl.
    + apply (NoDup_fmap_updateFirst _ _ _ _ name); [done| |done].
      by apply not_usernameTaken_elem.
    + by rewrite fmap_updateFirst.
    + intros v [Hv|(x & Hx & _ & ->)]%In_updateFirst; [by apply Hfresh|].
      simpl. by apply Hfresh.
    + intros v [Hv|(x & Hx & _ & ->)]%In_updateFirst; [by apply Hpw|].
      simpl. by apply Hpw.
  - unfold after. rewrite updatePassword_run. exact Hinv.
  - unfold after. rewrite delete_run.
    destruct (List.find (matches (FAnd [("_id", _)])) _) as [u|] eqn:Hid;
      [|exact Hinv]. simpl.
    repeat split; simpl.
    + eapply sublist_NoDup; [exact Hnames | apply fmap_sublist, removeFirst_sublist].
    + eapply sublist_NoDup; [exact Hids | apply fmap_sublist, removeFirst_sublist].
    + intros v Hv%In_removeFirst. by apply Hfresh.
    + intros v Hv%In_removeFirst. by apply Hpw.
Qed.

Lemma auth_reachable_invariant s : reachable s -> invariant s.
Proof.
  induction 1 as [|c s _ IH]; [apply auth_invariant_init | by apply auth_invariant_call].
Qed.

End AuthenticatingMore.

Section AuthenticatingExtras.
Import Authenticating AuthenticatingSpec AuthenticatingReach AuthenticatingQueries.

Lemma find_ext_eq {A} (p q : A -> bool) (l : list A) :
  (forall x, p x = q x) -> List.find p l = List.find q l.
Proof.
  intros E. induction l as [|x l IH]; simpl; [done|]. by rewrite E, IH.
Qed.

Lemma find_user_by_id (l : list (BaseDoc UserDoc)) d :
  NoDup (_id <$> l) -> In d l ->
  List.find (matches (FAnd [("_id", CEq (VId (_id d)))])) l = Some d.
Proof.
  intros Hnd Hin. rewrite <- (find_by_id_unique l d Hnd Hin).
  apply find_ext_eq. intros x. by rewrite matches_id_eq.
Qed.

Lemma find_user_by_id_none (l : list (BaseDoc UserDoc)) id :
  (forall u, In u l -> _id u <> id) ->
  List.find (matches (FAnd [("_id", CEq (VId id))])) l = None.
Proof.
  intros Hnone. apply find_none_all. intros u Hu.
  rewrite matches_id_eq. apply bool_decide_eq_false. by apply Hnone.
Qed.

Lemma find_credentials_none name pw s :
  ~ usernameTaken name s ->
  List.find (matches (FAnd [("username", CEq (VStr name)); ("password", CEq (VStr pw))]))
    (docs (users s)) = None.
Proof.
  intros Hfree. apply find_none_all. intros u Hu.
  destruct (matches _ u) eqn:E; [|done].
  apply matches_credentials in E as [E _]. destruct Hfree. by exists u.
Qed.

Lemma find_username_none name s :
  ~ usernameTaken name s ->
  List.find (matches (FAnd [("username", CEq (VStr name))])) (docs (users s)) = None.
Proof.
  intros Hfree. destruct (List.find _ _) eqn:E; [|done].
  destruct Hfree. apply usernameTaken_find. rewrite E. by eexists.
Qed.

(** The first [q]-element after rewriting is the rewritten one, when
    it satisfies [q] and no former element does. *)
Lemma find_updateFirst_new {A} (p q : A -> bool) (g : A -> A) (l : list A) x :
  List.find p l = Some x -> q (g x) = true -> (forall y, In y l -> q y = false) ->
  List.find q (updateFirst p g l) = Some (g x).
Proof.
  intros Hfind Hq Hnone. induction l as [|y l IH]; simpl in *; [done|].
  destruct (p y) eqn:Ep; simpl.
  - injection Hfind as ->. by rewrite Hq.
  - rewrite (Hnone y) by auto. apply IH; auto.
Qed.

(** X1.  After a successful [register(name, pw)], [authenticate(name,
    pw)] returns the id that [register] returned, and [authenticate]
    with the same name and any other password throws a
    [NotFoundError]. *)
Theorem register_then_authenticate (name pw : string) (s : AuthenticatingConcept) :
  name <> "" -> pw <> "" -> ~ usernameTaken name s ->
  exists id,
    outcome (register name pw) s = Ok id
    /\ outcome (authenticate name pw) (after (register name pw) s) = Ok id
    /\ forall pw', pw' <> pw ->
         fails_with (outcome (authenticate name pw') (after (register name pw) s)) NotFound.
Proof.
  intros Hn Hp Hfree. unfold outcome, after.
  rewrite register_run, falsy_false, (find_username_none _ _ Hfree) by done. simpl.
  exists (nextId (users s)). split; [done|]. split.
  - rewrite authenticate_run. simpl.
    rewrite find_app_none by (by apply find_credentials_none). simpl.
    by rewrite !bool_decide_eq_true_2.
  - intros pw' Hne. rewrite authenticate_run. simpl.
    rewrite find_app_none by (by apply find_credentials_none). simpl.
    rewrite (bool_decide_eq_false_2 (VStr pw = VStr pw')) by congruence.
    rewrite andb_false_r. simpl. by eexists.
Qed.

Lemma register_then_authenticate_witness :
  "alice" <> "" /\ "secret" <> "" /\ ~ usernameTaken "alice" init
  /\ outcome (authenticate "alice" "secret") (after (register "alice" "secret") init)
     = Ok 0%N
  /\ fails_with (outcome (authenticate "alice" "guess")
                   (after (register "alice" "secret") init)) NotFound.
Proof.
  assert (Hfree : ~ usernameTaken "alice" init) by (intros (u & [] & _)).
  destruct (register_then_authenticate "alice" "secret" init
              ltac:(done) ltac:(done) Hfree) as (id & Hid & Hlogin & Hwrong).
  injection Hid as <-.
  split; [done|]. split; [done|]. split; [exact Hfree|].
  split; [exact Hlogin | by apply Hwrong].
Defined.

(** X2.  In every state reachable by [register], [updateUsername],
    [updatePassword] and [delete], a username belongs to one stored
    User only, so does an identifier, and no stored password is
    empty. *)
Theorem reachable_users_are_distinct (s : AuthenticatingConcept) :
  reachable s ->
  (forall u v, In u (docs (users s)) -> In v (docs (users s)) ->
     Authenticating.username (fields u) = Authenticating.username (fields v) -> u = v)
  /\ (forall u v, In u (docs (users s)) -> In v (docs (users s)) ->
     _id u = _id v -> u = v)
  /\ (forall u, In u (docs (users s)) -> password (fields u) <> "").
Proof.
  intros (Hnames & Hids & _ & Hpw)%auth_reachable_invariant. repeat split.
  - intros u v Hu Hv E.
    by apply (NoDup_fmap_inj (fun u => Authenticating.username (fields u)) (docs (users s))).
  - intros u v Hu Hv E. by apply (NoDup_fmap_inj _id (docs (users s))).
  - exact Hpw.
Qed.

Lemma reachable_users_are_distinct_witness :
  let s := call (Register "bob" "pw2") (call (Register "alice" "pw1") init) in
  reachable s
  /\ forall u v, In u (docs (users s)) -> In v (docs (users s)) ->
       _id u = _id v -> u = v.
Proof.
  intros s.
  assert (Hreach : reachable s) by (do 2 apply reachable_call; apply reachable_init).
  split; [exact Hreach|].
  by destruct (reachable_users_are_distinct s Hreach) as (_ & Hids & _).
Defined.

(** X3.  In a reachable state, renaming a stored User [u] to a name
    nobody holds (the empty name included: the new name is not checked
    for emptiness) modifies one document; afterwards [authenticate]
    with the new name and [u]'s password returns [u]'s id, with the
    old name it throws a [NotFoundError], and [getUserById] shows the
    new name. *)
Theorem updateUsername_then_authenticate
    (s : AuthenticatingConcept) (u : BaseDoc UserDoc) (name : string) :
  reachable s -> In u (docs (users s)) -> ~ usernameTaken name s ->
  let s' := after (updateUsername (_id u) name) s in
  outcome (updateUsername (_id u) name) s = Ok 1
  /\ outcome (authenticate name (password (fields u))) s' = Ok (_id u)
  /\ fails_with (outcome (authenticate (Authenticating.username (fields u))
                                       (password (fields u))) s') NotFound
  /\ exists r, outcome (getUserById (_id u)) s' = Ok r
               /\ _id r = _id u /\ AuthenticatingQueries.username (fields r) = name.
Proof.
  intros Hreach Hu Hfree s'.
  pose proof (auth_reachable_invariant _ Hreach) as (Hnames & Hids & _ & _).
  assert (Hreach' : reachable s') by apply (reachable_call (UpdateUsername (_id u) name)), Hreach.
  pose proof (auth_reachable_invariant _ Hreach') as (Hnames' & Hids' & _ & _).
  pose proof (find_user_by_id _ _ Hids Hu) as Hfind.
  assert (Hrun : updateUsername (_id u) name s =
    (Ok 1, mkAuthenticating
       (mkColl (updateFirst (matches (FAnd [("_id", CEq (VId (_id u)))]))
                  (fun d => mkDoc (_id d) (dateCreated d) (clock (users s))
                                  (mkUser name (password (fields d))))
                  (docs (users s)))
               (nextId (users s)) (N.succ (clock (users s)))))).
  { by rewrite updateUsername_run, (find_username_none _ _ Hfree), Hfind. }
  set (g := fun d : BaseDoc UserDoc =>
              mkDoc (_id d) (dateCreated d) (clock (users s))
                    (mkUser name (password (fields d)))) in *.
  assert (Hs' : docs (users s') =
                updateFirst (matches (FAnd [("_id", CEq (VId (_id u)))])) g (docs (users s))).
  { unfold s', after. by rewrite Hrun. }
  assert (Hgu : In (g u) (docs (users s'))).
  { rewrite Hs'. by apply updateFirst_found. }
  split; [unfold outcome; by rewrite Hrun|]. split; [|split].
  - unfold outcome. rewrite authenticate_run, Hs'.
    rewrite (find_updateFirst_new _ _ g _ u Hfind); [done| |].
    + apply matches_credentials. done.
    + intros y Hy. destruct (matches _ y) eqn:E; [|done].
      apply matches_credentials in E as [E _]. destruct Hfree. by exists y.
  - unfold outcome, fails_with. rewrite authenticate_run.
    rewrite find_none_all; [by eexists|].
    intros z Hz. destruct (matches _ z) eqn:E; [|done]. exfalso.
    apply matches_credentials in E as [Ename _].
    assert (Hne : Authenticating.username (fields u) <> name).
    { intros E. apply Hfree. by exists u. }
    pose proof Hz as Hz'. rewrite Hs' in Hz'.
    apply In_updateFirst in Hz' as [Hzin|(x & _ & _ & ->)].
    + assert (z = u) as ->
        by (by apply (NoDup_fmap_inj (fun u => Authenticating.username (fields u))
                        (docs (users s)))).
      assert (u = g u) as Egu by (by apply (NoDup_fmap_inj _id (docs (users s')))).
      apply Hne. by rewrite Egu at 1.
    + simpl in Ename. congruence.
  - unfold outcome. rewrite getUserById_run.
    pose proof (find_user_by_id _ (g u) Hids' Hgu) as Hf.
    change (_id (g u)) with (_id u) in Hf. rewrite Hf. by eexists.
Qed.

Lemma updateUsername_then_authenticate_witness :
  let s := call (Register "alice" "secret") init in
  let u := mkDoc 0 0 0 (mkUser "alice" "secret") in
  reachable s /\ In u (docs (users s)) /\ ~ usernameTaken "alicia" s
  /\ outcome (authenticate "alicia" "secret") (after (updateUsername 0 "alicia") s) = Ok 0%N
  /\ fails_with (outcome (authenticate "alice" "secret")
                   (after (updateUsername 0 "alicia") s)) NotFound.
Proof.
  intros s u.
  assert (Hreach : reachable s) by (apply reachable_call, reachable_init).
  assert (Hu : In u (docs (users s))) by (by left).
  assert (Hfree : ~ usernameTaken "alicia" s)
    by (intros (v & [<-|[]] & Hv); discriminate Hv).
  destruct (updateUsername_then_authenticate s u "alicia" Hreach Hu Hfree)
    as (_ & Hnew & Hold & _).
  split; [exact Hreach|]. split; [exact Hu|]. split; [exact Hfree|].
  split; [exact Hnew | exact Hold].
Defined.

(** X4.  [updateUsername(id, name)] throws a [NotAllowedError] and
    changes nothing whenever some stored User has that name, the User
    [id] itself included: renaming a User to its own name fails.  With
    a free name and an unknown id it returns normally, reports no
    modified document and changes nothing. *)
Theorem updateUsername_taken_or_unknown
    (s : AuthenticatingConcept) (id : ObjectId) (name : string) :
  (usernameTaken name s ->
     fails_with (outcome (updateUsername id name) s) NotAllowed
     /\ after (updateUsername id name) s = s)
  /\ (forall u, In u (docs (users s)) ->
     fails_with (outcome (updateUsername (_id u) (Authenticating.username (fields u))) s)
                NotAllowed)
  /\ (~ usernameTaken name s -> ~ userExists id s ->
     updateUsername id name s = (Ok 0, s)).
Proof.
  assert (Htaken : forall i n, usernameTaken n s ->
            fails_with (outcome (updateUsername i n) s) NotAllowed
            /\ after (updateUsername i n) s = s).
  { intros i n [v Hv]%usernameTaken_find. unfold outcome, after, fails_with.
    rewrite updateUsername_run, Hv. simpl. split; [by eexists|done]. }
  split; [apply Htaken|]. split.
  - intros u Hu. apply Htaken. by exists u.
  - intros Hfree Hunknown.
    rewrite updateUsername_run, (find_username_none _ _ Hfree).
    rewrite find_user_by_id_none; [done|].
    intros u Hu E. apply Hunknown. by exists u.
Qed.

Lemma updateUsername_taken_or_unknown_witness :
  let s := call (Register "alice" "secret") init in
  usernameTaken "alice" s
  /\ fails_with (outcome (updateUsername 0 "alice") s) NotAllowed
  /\ ~ usernameTaken "bob" s /\ ~ userExists 5 s
  /\ updateUsername 5 "bob" s = (Ok 0, s).
Proof.
  intros s.
  assert (Htaken : usernameTaken "alice" s)
    by (eexists; split; [left; reflexivity | reflexivity]).
  assert (Hfree : ~ usernameTaken "bob" s)
    by (intros (v & [<-|[]] & Hv); discriminate Hv).
  assert (Hunknown : ~ userExists 5 s)
    by (intros (v & [<-|[]] & Hv); discriminate Hv).
  destruct (updateUsername_taken_or_unknown s 0 "alice") as ((Hfail & _)%(fun f => f Htaken) & _).
  destruct (updateUsername_taken_or_unknown s 5 "bob") as (_ & _ & Hnoop).
  split; [exact Htaken|]. split; [exact Hfail|]. split; [exact Hfree|].
  split; [exact Hunknown | exact (Hnoop Hfree Hunknown)].
Defined.





(** X7.  In a reachable state, after a successful [register(name,
    pw)] returning [id], [getUserByUsername(name)] and
    [getUserById(id)] return the same redacted User, with that id and
    that name; before the registration [getUserById(id)] threw a
    [NotFoundError]. *)
Theorem register_then_getUser (name pw : string) (s : AuthenticatingConcept) :
  reachable s -> name <> "" -> pw <> "" -> ~ usernameTaken name s ->
  exists id r,
    outcome (register name pw) s = Ok id
    /\ fails_with (outcome (getUserById id) s) NotFound
    /\ outcome (getUserByUsername name) (after (register name pw) s) = Ok r
    /\ outcome (getUserById id) (after (register name pw) s) = Ok r
    /\ _id r = id /\ AuthenticatingQueries.username (fields r) = name.
Proof.
  intros Hreach Hn Hp Hfree.
  pose proof (auth_reachable_invariant _ Hreach) as (_ & _ & Hfresh & _).
  assert (Hnew : forall u, In u (docs (users s)) -> _id u <> nextId (users s)).
  { intros u Hu%Hfresh. lia. }
  unfold outcome, after.
  rewrite register_run, falsy_false, (find_username_none _ _ Hfree) by done. simpl.
  eexists _, _. split; [reflexivity|]. split; [|split; [|split]].
  - rewrite getUserById_run, find_user_by_id_none by done. by eexists.
  - rewrite getUserByUsername_run. simpl.
    rewrite find_app_none by (by apply find_username_none). simpl.
    rewrite bool_decide_eq_true_2 by done. reflexivity.
  - rewrite getUserById_run. simpl.
    rewrite find_app_none by (by apply find_user_by_id_none). simpl.
    rewrite bool_decide_eq_true_2 by done. reflexivity.
  - done.
Qed.

Lemma register_then_getUser_witness :
  let s := call (Register "alice" "pw1") init in
  reachable s /\ "bob" <> "" /\ "pw2" <> "" /\ ~ usernameTaken "bob" s
  /\ exists r, outcome (getUserByUsername "bob") (after (register "bob" "pw2") s) = Ok r
               /\ _id r = 1%N.
Proof.
  intros s.
  assert (Hreach : reachable s) by (apply reachable_call, reachable_init).
  assert (Hfree : ~ usernameTaken "bob" s)
    by (intros (v & [<-|[]] & Hv); discriminate Hv).
  destruct (register_then_getUser "bob" "pw2" s Hreach ltac:(done) ltac:(done) Hfree)
    as (id & r & Hid & _ & Hbyname & _ & Hr & _).
  injection Hid as <-.
  split; [exact Hreach|]. split; [done|]. split; [done|]. split; [exact Hfree|].
  exists r. split; [exact Hbyname | exact Hr].
Defined.


End AuthenticatingExtras.

(** ** Friending, continued *)

Section FriendingMore.
Import Friending FriendingSpec.

Lemma In_removeFirst_keep {A} (p : A -> bool) (l : list A) y :
  In y l -> p y = false -> In y (removeFirst p l).
Proof.
  induction l as [|x l IH]; simpl; [done|].
  intros [->|Hy] Hp.
  - rewrite Hp. by left.
  - destruct (p x); [done|]. right. by apply IH.
Qed.

Lemma samePair_sym a b x y : samePair a b x y = samePair b a x y.
Proof. unfold samePair. apply orb_comm. Qed.

Lemma areFriends_sym a b s : areFriends a b s <-> areFriends b a s.
Proof.
  unfold areFriends, isFriendship.
  split; intros (f & Hin & Hf); exists f; by rewrite samePair_sym.
Qed.

Lemma areFriends_find a b s :
  areFriends a b s <->
  is_Some (List.find (matches (friendshipBetween a b)) (docs (friends s))).
Proof.
  split.
  - intros (f & Hin & Hf). apply (In_find _ _ f Hin).
    by rewrite matches_friendshipBetween.
  - intros [f Hf]. apply find_In in Hf as [Hin Hf].
    rewrite matches_friendshipBetween in Hf. by exists f.
Qed.

Lemma matches_friendshipsOf u (f : BaseDoc FriendshipDoc) :
  matches (friendshipsOf u) f = true <->
  user1 (fields f) = u \/ user2 (fields f) = u.
Proof.
  simpl. rewrite !andb_true_r, orb_false_r, orb_true_iff, !bool_decide_eq_true.
  split; intros [E|E]; [left|right|left|right]; congruence.
Qed.

(** The other end of an edge, as [getFriends] picks it. *)
Lemma picked_friend_is_friend u (f : BaseDoc FriendshipDoc) :
  matches (friendshipsOf u) f = true ->
  isFriendship u (if bool_decide (user1 (fields f) = u)
                  then user2 (fields f) else user1 (fields f)) f = true.
Proof.
  intros Hm%matches_friendshipsOf. unfold isFriendship. apply samePair_true.
  destruct (bool_decide_reflect (user1 (fields f) = u)) as [E|E]; [by left|].
  destruct Hm as [?|E']; [done|]. by right.
Qed.

Lemma In_getFriends u b s :
  In b (map (fun f => if bool_decide (user1 (fields f) = u)
                      then user2 (fields f) else user1 (fields f))
          (List.filter (matches (friendshipsOf u)) (docs (friends s))))
  <-> areFriends u b s.
Proof.
  rewrite in_map_iff. split.
  - intros (f & <- & [Hin Hm]%List.filter_In). exists f. split; [done|].
    by apply picked_friend_is_friend.
  - intros (f & Hin & Hf). exists f.
    unfold isFriendship in Hf. apply samePair_true in Hf.
    split.
    + destruct Hf as [[E1 E2]|[E1 E2]].
      * by rewrite bool_decide_eq_true_2.
      * destruct (bool_decide_reflect (user1 (fields f) = u)); congruence.
    + apply List.filter_In. split; [done|]. apply matches_friendshipsOf.
      destruct Hf as [[? ?]|[? ?]]; auto.
Qed.

(** In the reachable states no edge joins a user to itself. *)
Lemma reachable_no_self_edge s :
  reachable s -> forall f, In f (docs (friends s)) -> user1 (fields f) <> user2 (fields f).
Proof.
  induction 1 as [|c s Hreach IH]; [intros f []|].
  pose proof (reachable_invariant s Hreach) as [_ Hself].
  destruct c as [a b|a b|a b|a b|a b]; simpl.
  - unfold after. rewrite createRequest_run.
    by destruct (canSendRequest a b s) as [[?|?] ?].
  - unfold after. rewrite acceptRequest_run.
    destruct (List.find _ _) as [p|] eqn:Hfind; [|done]. simpl.
    intros f [Hf|[<-|[]]]%in_app_or; [by apply IH|]. simpl.
    apply find_In in Hfind as [Hin Hp]. rewrite matches_pendingFromTo in Hp.
    unfold isPendingFromTo in Hp.
    rewrite !andb_true_iff, !bool_decide_eq_true in Hp.
    destruct Hp as [[<- <-] _]. by apply Hself.
  - unfold after. rewrite rejectRequest_run. by destruct (List.find _ _).
  - rewrite removeRequest_run. unfold after. rewrite removePendingRequest_run.
    by destruct (List.find _ _).
  - unfold after. rewrite removeFriend_run.
    destruct (List.find _ _); [|done]. simpl.
    intros f Hf%In_removeFirst. by apply IH.
Qed.

(** [createRequest] goes through when the two are distinct, not
    friends and without a pending request, in a reachable state. *)
Lemma createRequest_goes_through s a b :
  reachable s -> a <> b -> ~ areFriends a b s -> ~ hasPendingBetween a b s ->
  exists id, outcome (createRequest a b) s = Ok id.
Proof.
  intros Hreach Hab Hnf Hnp.
  pose proof (reachable_invariant s Hreach) as [_ Hself].
  unfold outcome. rewrite createRequest_run, canSendRequest_run.
  destruct (is_Some_dec _) as [Hf|_]; [by apply areFriends_find in Hf|].
  rewrite bool_decide_eq_false_2 by done.
  destruct (is_Some_dec _) as [[r Hr]|_]; [|by eexists].
  destruct Hnp. apply find_In in Hr as [Hin Hr]. exists r. split; [done|].
  apply matches_isPendingBetween; auto.
Qed.

(** What consuming the pending request [r] leaves, in a reachable
    state. *)
Lemma consume_pending s a b r :
  reachable s -> In r (docs (requests s)) -> isPendingFromTo a b r = true ->
  List.find (matches (pendingFromTo a b)) (docs (requests s)) = Some r
  /\ a <> b
  /\ ~ areFriends a b s
  /\ (forall x, In x (removeFirst (matches (pendingFromTo a b)) (docs (requests s)))
                <-> In x (docs (requests s)) /\ x <> r)
  /\ count (isPendingBetween a b)
       (removeFirst (matches (pendingFromTo a b)) (docs (requests s))) = 0.
Proof.
  intros Hreach Hin Hr.
  pose proof (reachable_invariant s Hreach) as [Hcount Hself].
  specialize (Hcount a b). unfold pendingCount, friendshipCount in Hcount.
  assert (Hrb : isPendingBetween a b r = true).
  { rewrite (isPendingBetween_FromTo a b) by done. apply samePair_true. auto. }
  pose proof (count_pos _ _ _ Hin Hrb) as Hpos.
  assert (Hone : count (matches (pendingFromTo a b)) (docs (requests s)) <= 1).
  { etrans; [apply (count_le_impl _ (isPendingBetween a b))|lia].
    intros x Hx. rewrite matches_pendingFromTo in Hx.
    rewrite (isPendingBetween_FromTo a b) by done. apply samePair_true. auto. }
  destruct (In_find (matches (pendingFromTo a b)) _ r Hin) as [p Hfind];
    [by rewrite matches_pendingFromTo|].
  assert (p = r) as ->.
  { pose proof (find_In _ _ _ Hfind) as [Hpin Hp].
    apply (count_le1_unique _ _ _ _ Hone); auto. by rewrite matches_pendingFromTo. }
  split; [done|]. split; [|split; [|split]].
  - unfold isPendingFromTo in Hr. rewrite !andb_true_iff, !bool_decide_eq_true in Hr.
    destruct Hr as [[<- <-] _]. by apply Hself.
  - intros (f & Hf & Hff). pose proof (count_pos _ _ _ Hf Hff). lia.
  - apply In_removeFirst_unique; done.
  - pose proof (count_removeFirst _ (isPendingBetween a b) _ _ Hfind) as Hrem.
    rewrite Hrb in Hrem. lia.
Qed.

End FriendingMore.

Section FriendingExtras.
Import Friending FriendingSpec.

(** X8.  In every state, [getFriends] returns without throwing and
    changes nothing; [b] is in [getFriends(a)] exactly when some
    Friendship edge joins [a] and [b], hence exactly when [a] is in
    [getFriends(b)]. *)
Theorem getFriends_is_symmetric (s : FriendingConcept) (a b : ObjectId) :
  exists la lb,
    getFriends a s = (Ok la, s) /\ getFriends b s = (Ok lb, s)
    /\ (In b la <-> areFriends a b s)
    /\ (In b la <-> In a lb).
Proof.
  eexists _, _. rewrite !getFriends_run.
  split; [reflexivity|]. split; [reflexivity|]. split.
  - apply In_getFriends.
  - rewrite !In_getFriends. apply areFriends_sym.
Qed.

(** X9.  In a reachable state holding a pending request [r] from
    [from] to [to], [rejectRequest(from, to)] succeeds: the requests
    become the former ones without [r] plus one new [rejected] row,
    the friendships are untouched, and a new [createRequest] between
    the two then succeeds in either direction. *)
Theorem rejectRequest_logs_and_reopens
    (s : FriendingConcept) (from to : ObjectId) (r : BaseDoc FriendRequestDoc) :
  reachable s -> In r (docs (requests s)) -> isPendingFromTo from to r = true ->
  let s' := after (rejectRequest from to) s in
  exists requestId row,
    outcome (rejectRequest from to) s = Ok requestId
    /\ _id row = requestId /\ fields row = mkRequest from to rejected
    /\ (forall x, In x (docs (requests s')) <->
                  (In x (docs (requests s)) /\ x <> r) \/ x = row)
    /\ friends s' = friends s
    /\ (exists id, outcome (createRequest from to) s' = Ok id)
    /\ (exists id, outcome (createRequest to from) s' = Ok id).
Proof.
  intros Hreach Hin Hr s'.
  destruct (consume_pending s from to r Hreach Hin Hr)
    as (Hfind & Hne & Hnf & Hrows & Hzero).
  assert (Hreach' : reachable s') by apply (reachable_call (RejectRequest from to)), Hreach.
  assert (Hrun : rejectRequest from to s =
    (Ok (nextId (requests s)),
     mkFriending (friends s)
       (mkColl (removeFirst (matches (pendingFromTo from to)) (docs (requests s)) ++
                  [mkDoc (nextId (requests s)) (clock (requests s))
                         (clock (requests s)) (mkRequest from to rejected)])
               (N.succ (nextId (requests s))) (N.succ (clock (requests s)))))).
  { by rewrite rejectRequest_run, Hfind. }
  assert (Hnf' : ~ areFriends from to s').
  { unfold s', after. by rewrite Hrun. }
  assert (Hnp' : ~ hasPendingBetween from to s').
  { intros (x & Hx & Hxp). unfold s', after in Hx. rewrite Hrun in Hx. simpl in Hx.
    apply in_app_or in Hx as [Hx|[<-|[]]]; [|done].
    pose proof (count_pos _ _ _ Hx Hxp). lia. }
  exists (nextId (requests s)),
    (mkDoc (nextId (requests s)) (clock (requests s)) (clock (requests s))
           (mkRequest from to rejected)).
  split; [unfold outcome; by rewrite Hrun|]. do 2 (split; [done|]).
  split; [|split; [|split]].
  - intros x. unfold s', after. rewrite Hrun. simpl.
    rewrite in_app_iff, Hrows. simpl. intuition congruence.
  - unfold s', after. by rewrite Hrun.
  - by apply createRequest_goes_through.
  - apply createRequest_goes_through; [done|by apply not_eq_sym| |].
    + by rewrite areFriends_sym.
    + intros (x & Hx & Hxp). apply Hnp'. exists x. split; [done|].
      unfold isPendingBetween in *. by rewrite samePair_sym.
Qed.

Lemma rejectRequest_logs_and_reopens_witness :
  reachable (call (CreateRequest 1 2) init)
  /\ In (mkDoc 0 0 0 (mkRequest 1 2 pending)) (docs (requests (call (CreateRequest 1 2) init)))
  /\ isPendingFromTo 1 2 (mkDoc 0 0 0 (mkRequest 1 2 pending)) = true
  /\ friends (after (rejectRequest 1 2) (call (CreateRequest 1 2) init)) = friends (call (CreateRequest 1 2) init)
  /\ exists id, outcome (createRequest 2 1) (after (rejectRequest 1 2) (call (CreateRequest 1 2) init)) = Ok id.
Proof.
  assert (Hreach : reachable (call (CreateRequest 1 2) init)) by apply reachable_call, reachable_init.
  assert (Hin : In (mkDoc 0 0 0 (mkRequest 1 2 pending)) (docs (requests (call (CreateRequest 1 2) init))))
    by (left; reflexivity).
  destruct (rejectRequest_logs_and_reopens (call (CreateRequest 1 2) init) 1 2 _ Hreach Hin eq_refl)
    as (? & ? & _ & _ & _ & _ & Hfriends & _ & Hagain).
  split; [exact Hreach|]. split; [exact Hin|]. split; [reflexivity|].
  split; [exact Hfriends | exact Hagain].
Defined.

(** X10.  In a reachable state holding a pending request [r] from
    [from] to [to], [removeRequest(from, to)] succeeds without logging
    anything: the requests become the former ones without [r], the
    friendships are untouched, and [createRequest(from, to)] then
    succeeds again. *)
Theorem removeRequest_withdraws
    (s : FriendingConcept) (from to : ObjectId) (r : BaseDoc FriendRequestDoc) :
  reachable s -> In r (docs (requests s)) -> isPendingFromTo from to r = true ->
  let s' := after (removeRequest from to) s in
  outcome (removeRequest from to) s = Ok tt
  /\ (forall x, In x (docs (requests s')) <-> In x (docs (requests s)) /\ x <> r)
  /\ friends s' = friends s
  /\ exists id, outcome (createRequest from to) s' = Ok id.
Proof.
  intros Hreach Hin Hr s'.
  destruct (consume_pending s from to r Hreach Hin Hr)
    as (Hfind & Hne & Hnf & Hrows & Hzero).
  assert (Hreach' : reachable s') by apply (reachable_call (RemoveRequest from to)), Hreach.
  assert (Hrun : removeRequest from to s =
    (Ok tt,
     mkFriending (friends s)
       (mkColl (removeFirst (matches (pendingFromTo from to)) (docs (requests s)))
               (nextId (requests s)) (clock (requests s))))).
  { unfold removeRequest, mbind, M_bind, bind.
    by rewrite removePendingRequest_run, Hfind. }
  split; [unfold outcome; by rewrite Hrun|]. split; [|split].
  - intros x. unfold s', after. rewrite Hrun. simpl. apply Hrows.
  - unfold s', after. by rewrite Hrun.
  - apply createRequest_goes_through; [done..| |].
    + unfold s', after. by rewrite Hrun.
    + intros (x & Hx & Hxp). unfold s', after in Hx. rewrite Hrun in Hx. simpl in Hx.
      pose proof (count_pos _ _ _ Hx Hxp). lia.
Qed.

Lemma removeRequest_withdraws_witness :
  reachable (call (CreateRequest 1 2) init)
  /\ In (mkDoc 0 0 0 (mkRequest 1 2 pending)) (docs (requests (call (CreateRequest 1 2) init)))
  /\ isPendingFromTo 1 2 (mkDoc 0 0 0 (mkRequest 1 2 pending)) = true
  /\ outcome (removeRequest 1 2) (call (CreateRequest 1 2) init) = Ok tt
  /\ docs (requests (after (removeRequest 1 2) (call (CreateRequest 1 2) init))) = [].
Proof.
  assert (Hreach : reachable (call (CreateRequest 1 2) init)) by apply reachable_call, reachable_init.
  assert (Hin : In (mkDoc 0 0 0 (mkRequest 1 2 pending)) (docs (requests (call (CreateRequest 1 2) init))))
    by (left; reflexivity).
  destruct (removeRequest_withdraws (call (CreateRequest 1 2) init) 1 2 _ Hreach Hin eq_refl)
    as (Hok & Hrows & _).
  split; [exact Hreach|]. split; [exact Hin|]. split; [reflexivity|].
  split; [exact Hok|].
  destruct (docs (requests (after (removeRequest 1 2) (call (CreateRequest 1 2) init)))) as [|x l] eqn:E;
    [reflexivity|].
  destruct (proj1 (Hrows x) (or_introl eq_refl)) as [[<-|[]] Hne]. by destruct Hne.
Defined.

Lemma no_pending_throws s a b :
  (forall x, In x (docs (requests s)) -> isPendingFromTo a b x = false) ->
  acceptRequest a b s = (Throw (FriendRequestNotFoundError a b), s)
  /\ rejectRequest a b s = (Throw (FriendRequestNotFoundError a b), s)
  /\ removeRequest a b s = (Throw (FriendRequestNotFoundError a b), s).
Proof.
  intros Hnone.
  assert (Hfind : List.find (matches (pendingFromTo a b)) (docs (requests s)) = None).
  { apply find_none_all. intros x Hx. rewrite matches_pendingFromTo. by apply Hnone. }
  rewrite acceptRequest_run, rejectRequest_run, Hfind.
  repeat split. unfold removeRequest, mbind, M_bind, bind.
  by rewrite removePendingRequest_run, Hfind.
Qed.

(** X11.  Requests are directed.  In a reachable state holding a
    pending request from [from] to [to], the calls in the opposite
    direction, [acceptRequest(to, from)], [rejectRequest(to, from)]
    and [removeRequest(to, from)], each throw
    [FriendRequestNotFoundError] and change nothing. *)
Theorem requests_are_directed
    (s : FriendingConcept) (from to : ObjectId) (r : BaseDoc FriendRequestDoc) :
  reachable s -> In r (docs (requests s)) -> isPendingFromTo from to r = true ->
  acceptRequest to from s = (Throw (FriendRequestNotFoundError to from), s)
  /\ rejectRequest to from s = (Throw (FriendRequestNotFoundError to from), s)
  /\ removeRequest to from s = (Throw (FriendRequestNotFoundError to from), s).
Proof.
  intros Hreach Hin Hr. apply no_pending_throws. intros x Hx.
  destruct (isPendingFromTo to from x) eqn:Ex; [|done]. exfalso.
  pose proof (reachable_invariant s Hreach) as [Hcount Hself].
  specialize (Hcount from to). unfold pendingCount in Hcount.
  assert (x = r).
  { apply (count_le1_unique (isPendingBetween from to) (docs (requests s))); [lia|done..| |].
    - rewrite (isPendingBetween_FromTo to from) by done. apply samePair_true. auto.
    - rewrite (isPendingBetween_FromTo from to) by done. apply samePair_true. auto. }
  subst x. unfold isPendingFromTo in Hr, Ex.
  rewrite !andb_true_iff, !bool_decide_eq_true in Hr, Ex.
  apply (Hself r Hin). destruct Hr as [[_ Ht] _], Ex as [[Hf _] _]. congruence.
Qed.

Lemma requests_are_directed_witness :
  reachable (call (CreateRequest 1 2) init)
  /\ In (mkDoc 0 0 0 (mkRequest 1 2 pending))
        (docs (requests (call (CreateRequest 1 2) init)))
  /\ isPendingFromTo 1 2 (mkDoc 0 0 0 (mkRequest 1 2 pending)) = true
  /\ acceptRequest 2 1 (call (CreateRequest 1 2) init)
     = (Throw (FriendRequestNotFoundError 2 1), call (CreateRequest 1 2) init).
Proof.
  assert (Hreach : reachable (call (CreateRequest 1 2) init))
    by apply reachable_call, reachable_init.
  assert (Hin : In (mkDoc 0 0 0 (mkRequest 1 2 pending))
                  (docs (requests (call (CreateRequest 1 2) init))))
    by (left; reflexivity).
  destruct (requests_are_directed _ 1 2 _ Hreach Hin eq_refl) as (Haccept & _).
  split; [exact Hreach|]. split; [exact Hin|]. split; [reflexivity | exact Haccept].
Defined.

Lemma removeFriend_not_friends s a b :
  ~ areFriends a b s -> removeFriend a b s = (Throw (FriendNotFoundError a b), s).
Proof.
  intros Hnf. rewrite removeFriend_run.
  destruct (List.find _ _) as [x|] eqn:E; [|done].
  destruct Hnf. apply areFriends_find. rewrite E. by eexists.
Qed.

(** X12.  In a reachable state where [a] and [b] are friends,
    [removeFriend(a, b)] succeeds whichever of the two calls it, the
    requests are untouched, and afterwards no edge joins the two:
    neither is in the other's [getFriends], and a second
    [removeFriend(a, b)] throws [FriendNotFoundError] and changes
    nothing. *)
Theorem removeFriend_unfriends (s : FriendingConcept) (a b : ObjectId) :
  reachable s -> areFriends a b s ->
  let s' := after (removeFriend a b) s in
  outcome (removeFriend a b) s = Ok tt
  /\ requests s' = requests s
  /\ ~ areFriends a b s' /\ ~ areFriends b a s'
  /\ (forall l, outcome (getFriends a) s' = Ok l -> ~ In b l)
  /\ (forall l, outcome (getFriends b) s' = Ok l -> ~ In a l)
  /\ removeFriend a b s' = (Throw (FriendNotFoundError a b), s').
Proof.
  intros Hreach Hfr s'.
  pose proof (reachable_invariant s Hreach) as [Hcount _].
  specialize (Hcount a b). unfold friendshipCount in Hcount.
  destruct (proj1 (areFriends_find a b s) Hfr) as [f Hfind].
  assert (Hrun : removeFriend a b s =
    (Ok tt, mkFriending
              (mkColl (removeFirst (matches (friendshipBetween a b)) (docs (friends s)))
                      (nextId (friends s)) (clock (friends s)))
              (requests s))).
  { by rewrite removeFriend_run, Hfind. }
  assert (Hnf : ~ areFriends a b s').
  { intros (x & Hx & Hxf). unfold s', after in Hx. rewrite Hrun in Hx. simpl in Hx.
    pose proof (count_pos _ _ _ Hx Hxf) as Hpos.
    pose proof (count_removeFirst _ (isFriendship a b) _ _ Hfind) as Hrem.
    pose proof (find_In _ _ _ Hfind) as [_ Hf].
    rewrite matches_friendshipBetween in Hf. rewrite Hf in Hrem. lia. }
  split; [unfold outcome; by rewrite Hrun|].
  split; [unfold s', after; by rewrite Hrun|].
  split; [exact Hnf|]. split; [by rewrite areFriends_sym|].
  split; [|split].
  - intros l. unfold outcome. rewrite getFriends_run. intros [= <-].
    by rewrite In_getFriends.
  - intros l. unfold outcome. rewrite getFriends_run. intros [= <-].
    by rewrite In_getFriends, areFriends_sym.
  - by apply removeFriend_not_friends.
Qed.

Lemma removeFriend_unfriends_witness :
  let s := call (AcceptRequest 1 2) (call (CreateRequest 1 2) init) in
  reachable s /\ areFriends 2 1 s
  /\ outcome (removeFriend 2 1) s = Ok tt
  /\ ~ areFriends 1 2 (after (removeFriend 2 1) s).
Proof.
  intros s.
  assert (Hreach : reachable s) by (do 2 apply reachable_call; apply reachable_init).
  assert (Hfr : areFriends 2 1 s) by (eexists; split; [left; reflexivity | reflexivity]).
  destruct (removeFriend_unfriends s 2 1 Hreach Hfr) as (Hok & _ & _ & Hnf & _).
  split; [exact Hreach|]. split; [exact Hfr|]. split; [exact Hok | exact Hnf].
Defined.

Lemma NoDup_picked_friends u (fl : list (BaseDoc FriendshipDoc)) :
  (forall b, count (isFriendship u b) fl <= 1) ->
  List.NoDup (map (fun f => if bool_decide (user1 (fields f) = u)
                            then user2 (fields f) else user1 (fields f))
                (List.filter (matches (friendshipsOf u)) fl)).
Proof.
  induction fl as [|f fl IH]; intros Hcount; [constructor|].
  assert (Hfl : forall b, count (isFriendship u b) fl <= 1).
  { intros b. specialize (Hcount b). unfold count in *. simpl in Hcount.
    destruct (isFriendship u b f); simpl in Hcount; lia. }
  cbn [List.filter]. destruct (matches (friendshipsOf u) f) eqn:Hm; [|by apply IH].
  cbn [map]. constructor; [|by apply IH].
  intros (f' & Hpick & [Hin' Hm']%List.filter_In)%in_map_iff.
  pose proof (picked_friend_is_friend u f Hm) as Hf.
  pose proof (picked_friend_is_friend u f' Hm') as Hf'.
  rewrite Hpick in Hf'.
  specialize (Hcount (if bool_decide (user1 (fields f) = u)
                      then user2 (fields f) else user1 (fields f))).
  pose proof (count_pos _ _ _ Hin' Hf') as Hpos.
  unfold count in *. simpl in Hcount. rewrite Hf in Hcount. simpl in Hcount. lia.
Qed.

(** X13.  In every reachable state, [getFriends(u)] lists no user
    twice and never lists [u] itself. *)
Theorem getFriends_no_duplicates (s : FriendingConcept) (u : ObjectId) :
  reachable s ->
  exists l, getFriends u s = (Ok l, s) /\ List.NoDup l /\ ~ In u l.
Proof.
  intros Hreach. rewrite getFriends_run. eexists. split; [reflexivity|]. split.
  - apply NoDup_picked_friends. intros b.
    pose proof (reachable_invariant s Hreach) as [Hcount _].
    specialize (Hcount u b). unfold friendshipCount in Hcount. lia.
  - rewrite In_getFriends. intros (f & Hf & Hself).
    apply (reachable_no_self_edge s Hreach f Hf).
    unfold isFriendship in Hself. apply samePair_true in Hself.
    destruct Hself as [[-> ->]|[-> ->]]; done.
Qed.

Lemma getFriends_no_duplicates_witness :
  let s := call (AcceptRequest 1 2) (call (CreateRequest 1 2) init) in
  reachable s /\ exists l, getFriends 1 s = (Ok l, s) /\ List.NoDup l /\ ~ In 1%N l.
Proof.
  intros s.
  assert (Hreach : reachable s) by (do 2 apply reachable_call; apply reachable_init).
  split; [exact Hreach | exact (getFriends_no_duplicates s 1 Hreach)].
Defined.

(** X14.  The request log is append-only for the rows that are not
    pending: whatever action is called, in any state, every
    [accepted] or [rejected] row is still stored afterwards. *)
Theorem settled_requests_are_kept
    (c : Call) (s : FriendingConcept) (r : BaseDoc FriendRequestDoc) :
  In r (docs (requests s)) -> status (fields r) <> pending ->
  In r (docs (requests (call c s))).
Proof.
  intros Hin Hst.
  assert (Hkeep : forall a b,
    In r (removeFirst (matches (pendingFromTo a b)) (docs (requests s)))).
  { intros a b. apply In_removeFirst_keep; [done|].
    rewrite matches_pendingFromTo. unfold isPendingFromTo.
    rewrite (bool_decide_eq_false_2 (status (fields r) = pending)) by done.
    apply andb_false_r. }
  destruct c as [a b|a b|a b|a b|a b]; simpl.
  - unfold after. rewrite createRequest_run.
    destruct (canSendRequest a b s) as [[?|?] ?]; simpl; [|done].
    apply in_or_app. by left.
  - unfold after. rewrite acceptRequest_run.
    destruct (List.find _ _); simpl; [|done]. apply in_or_app. by left.
  - unfold after. rewrite rejectRequest_run.
    destruct (List.find _ _); simpl; [|done]. apply in_or_app. by left.
  - rewrite removeRequest_run. unfold after. rewrite removePendingRequest_run.
    destruct (List.find _ _); simpl; done.
  - unfold after. rewrite removeFriend_run. by destruct (List.find _ _).
Qed.

Lemma settled_requests_are_kept_witness :
  let s := call (RejectRequest 1 2) (call (CreateRequest 1 2) init) in
  let r := mkDoc 1 1 1 (mkRequest 1 2 rejected) in
  In r (docs (requests s)) /\ status (fields r) <> pending
  /\ In r (docs (requests (call (RemoveRequest 1 2) (call (CreateRequest 1 2) s)))).
Proof.
  intros s r.
  assert (Hin : In r (docs (requests s))) by (left; reflexivity).
  assert (Hst : status (fields r) <> pending) by done.
  split; [exact Hin|]. split; [exact Hst|].
  apply settled_requests_are_kept; [|exact Hst].
  by apply settled_requests_are_kept.
Defined.

End FriendingExtras.

(** ** Labelling, continued *)

Section LabellingMore.
Import Labelling LabellingReach.

(** Under unique keys, removing the first element of key [k] removes
    every element of key [k]. *)
Lemma In_removeFirst_key {A K} `{EqDecision K} (f : A -> K) (p : A -> bool)
    (l : list A) k :
  (forall x, p x = bool_decide (f x = k)) -> NoDup (f <$> l) ->
  forall x, In x (removeFirst p l) <-> In x l /\ f x <> k.
Proof.
  intros Hp Hnd x. induction l as [|y l IH]; simpl; [tauto|].
  simpl in Hnd. apply NoDup_cons in Hnd as [Hy Hnd]. rewrite Hp.
  destruct (bool_decide_reflect (f y = k)) as [E|E].
  - split.
    + intros Hx. split; [by right|]. intros E'. apply Hy. rewrite E, <- E'.
      apply list_elem_of_fmap. exists x. by rewrite list_elem_of_In.
    + intros [[->|Hx] Hne]; done.
  - simpl. rewrite (IH Hnd). split.
    + intros [->|[Hx Hne]]; auto.
    + intros [[->|Hx] Hne]; auto.
Qed.

Lemma matches_labelOf_key l u (d : BaseDoc LabelDoc) :
  matches (labelOf l u) d = bool_decide ((label (fields d), user (fields d)) = (l, u)).
Proof.
  apply eq_true_iff_eq. rewrite matches_labelOf, bool_decide_eq_true.
  split; [by intros [-> ->] | by intros [= -> ->]].
Qed.

Lemma registered_find l u s :
  registered l u s <->
  is_Some (List.find (matches (labelOf l u)) (docs (labels s))).
Proof.
  split.
  - intros (d & Hin & Hl & Hu). apply (In_find _ _ d Hin). by apply matches_labelOf.
  - intros [d Hd]. apply find_In in Hd as [Hin Hd]. apply matches_labelOf in Hd.
    exists d. tauto.
Qed.

Lemma not_registered_find l u s :
  ~ registered l u s -> List.find (matches (labelOf l u)) (docs (labels s)) = None.
Proof.
  intros Hn. destruct (List.find _ _) eqn:E; [|done].
  destruct Hn. apply registered_find. rewrite E. by eexists.
Qed.

Lemma unregister_run l u s :
  unregister l u s =
  match List.find (matches (labelOf l u)) (docs (labels s)) with
  | None => (Throw (LabelNotFoundError l), s)
  | Some _ =>
      (Ok tt, mkLabelling
                (mkColl (removeFirst (matches (labelOf l u)) (docs (labels s)))
                        (nextId (labels s)) (clock (labels s))))
  end.
Proof.
  unfold unregister, assertLabelExists, onLabels. run. destruct s as [ls]. simpl.
  destruct (List.find _ _) as [d|] eqn:E; simpl; rewrite ?E; simpl; done.
Qed.

Lemma lookup_run l u s :
  lookup l u s =
  match List.find (matches (labelOf l u)) (docs (labels s)) with
  | None => (Throw (LabelNotFoundError l), s)
  | Some d => (Ok d, s)
  end.
Proof.
  unfold lookup, onLabels. run. destruct s as [ls]. simpl.
  by destruct (List.find _ _).
Qed.

Lemma remove_leaves_state r l u s : after (remove r l u) s = s.
Proof.
  unfold after. rewrite label_remove_run.
  destruct (List.find _ _); [|done]. by destruct (bool_decide _).
Qed.

Lemma labelling_invariant_call c s : invariant s -> invariant (call c s).
Proof.
  intros Hinv. pose proof Hinv as [Hempty Hnd].
  destruct c as [l u|l u|r l u|r l u]; simpl.
  - unfold after. rewrite label_register_run.
    destruct (List.find _ _) as [d|] eqn:E; [exact Hinv|]. simpl. split; simpl.
    + intros d [Hd|[<-|[]]]%in_app_or; [by apply Hempty | done].
    + rewrite fmap_app. apply NoDup_app. split; [done|]. split; [|apply NoDup_singleton].
      intros k (d & -> & Hd)%list_elem_of_fmap Hk%list_elem_of_singleton.
      simpl in Hk. apply list_elem_of_In in Hd.
      pose proof (List.find_none _ _ E d Hd) as Hm.
      rewrite matches_labelOf_key, Hk in Hm. by rewrite bool_decide_eq_true_2 in Hm.
  - unfold after. rewrite unregister_run.
    destruct (List.find _ _) as [d|] eqn:E; [|exact Hinv]. simpl. split; simpl.
    + intros x Hx%In_removeFirst. by apply Hempty.
    + eapply sublist_NoDup; [exact Hnd | apply fmap_sublist, removeFirst_sublist].
  - by rewrite add_leaves_state.
  - by rewrite remove_leaves_state.
Qed.

Lemma labelling_reachable_invariant s : reachable s -> invariant s.
Proof.
  induction 1 as [|c s _ IH]; [|by apply labelling_invariant_call].
  split; [intros d [] | apply NoDup_nil_2].
Qed.

End LabellingMore.

Section LabellingExtras.
Import Labelling LabellingReach.

(** X15.  In every state reachable by [register], [unregister], [add]
    and [remove], every stored resource set is empty; so [get] returns
    the empty set for every resource, [remove] always throws a
    [NotFoundError], and [add] either succeeds or throws
    [LabelNotFoundError]: it never reports a resource as already
    present. *)
Theorem reachable_resources_are_empty (s : LabellingConcept) :
  reachable s ->
  (forall d, In d (docs (labels s)) -> resources (fields d) = ∅)
  /\ (forall r, get r s = (Ok ∅, s))
  /\ (forall r l u, fails_with (outcome (remove r l u) s) NotFound)
  /\ (forall r l u, add r l u s = (Ok tt, s)
                    \/ add r l u s = (Throw (LabelNotFoundError l), s)).
Proof.
  intros [Hempty _]%labelling_reachable_invariant.
  split; [exact Hempty|]. split; [|split].
  - intros r. rewrite label_get_run. do 2 f_equal.
    induction (docs (labels s)) as [|d ds IH]; simpl; [done|].
    rewrite (Hempty d) by (by left).
    rewrite bool_decide_eq_false_2 by set_solver. apply IH.
    intros x Hx. apply Hempty. by right.
  - intros r l u. unfold outcome, fails_with. rewrite label_remove_run.
    destruct (List.find _ _) as [d|] eqn:E; [|by eexists].
    apply find_In in E as [Hin _]. rewrite (Hempty d Hin).
    rewrite bool_decide_eq_false_2 by set_solver. by eexists.
  - intros r l u. rewrite label_add_run.
    destruct (List.find _ _) as [d|] eqn:E; [|by right].
    apply find_In in E as [Hin _]. rewrite (Hempty d Hin).
    rewrite bool_decide_eq_false_2 by set_solver. by left.
Qed.

Lemma reachable_resources_are_empty_witness :
  let s := call (Add 7 "work" 1) (call (Register "work" 1) init) in
  reachable s /\ get 7 s = (Ok ∅, s)
  /\ fails_with (outcome (remove 7 "work" 1) s) NotFound.
Proof.
  intros s.
  assert (Hreach : reachable s) by (do 2 apply reachable_call; apply reachable_init).
  destruct (reachable_resources_are_empty s Hreach) as (_ & Hget & Hremove & _).
  split; [exact Hreach|]. split; [apply Hget | apply Hremove].
Defined.

(** X16.  Labels are registered per user.  In any state,
    [register(l, u)] throws [LabelNotAllowedError] and changes nothing
    when [u] already has a label [l]; otherwise it succeeds, whoever
    else has a label of that name, keeps every registered label, and
    [lookup(l, u)] then returns the new label, with the returned id
    and no resources. *)
Theorem register_is_per_user (s : LabellingConcept) (l : Label) (u : ObjectId) :
  (registered l u s -> register l u s = (Throw (LabelNotAllowedError l), s))
  /\ (~ registered l u s ->
      exists id d,
        outcome (register l u) s = Ok id
        /\ (forall l' u', registered l' u' s -> registered l' u' (after (register l u) s))
        /\ outcome (lookup l u) (after (register l u) s) = Ok d
        /\ _id d = id /\ fields d = mkLabel u l ∅).
Proof.
  split.
  - intros [d Hd]%registered_find. by rewrite label_register_run, Hd.
  - intros Hnew%not_registered_find. unfold outcome, after.
    rewrite label_register_run, Hnew. simpl.
    eexists _, (mkDoc _ _ _ _). split; [reflexivity|]. split; [|split].
    + intros l' u' (d & Hin & Hd). exists d. split; [|done]. simpl.
      apply in_or_app. by left.
    + rewrite lookup_run. simpl. rewrite (find_app_none _ _ _ Hnew). simpl.
      rewrite !bool_decide_eq_true_2 by done. reflexivity.
    + done.
Qed.

Lemma register_is_per_user_witness :
  let s := call (Register "work" 1) init in
  registered "work" 1 s /\ ~ registered "work" 2 s
  /\ register "work" 1 s = (Throw (LabelNotAllowedError "work"), s)
  /\ exists id, outcome (register "work" 2) s = Ok id.
Proof.
  intros s.
  assert (Hyes : registered "work" 1 s)
    by (eexists; split; [left; reflexivity | split; reflexivity]).
  assert (Hno : ~ registered "work" 2 s)
    by (intros (d & [<-|[]] & _ & Hd); discriminate Hd).
  destruct (register_is_per_user s "work" 1) as [Hdup _].
  destruct (register_is_per_user s "work" 2) as [_ Hnew].
  destruct (Hnew Hno) as (id & d & Hid & _).
  split; [exact Hyes|]. split; [exact Hno|]. split; [exact (Hdup Hyes)|].
  by exists id.
Defined.

(** X17.  In a reachable state where [u] has a label [l],
    [unregister(l, u)] succeeds; afterwards [u] has no label [l],
    [lookup(l, u)] throws [LabelNotFoundError], and every other label
    of every user is registered exactly as before.  Where [u] has no
    label [l], in any state, [unregister(l, u)] throws
    [LabelNotFoundError] and changes nothing. *)
Theorem unregister_removes_the_label (s : LabellingConcept) (l : Label) (u : ObjectId) :
  (reachable s -> registered l u s ->
     let s' := after (unregister l u) s in
     outcome (unregister l u) s = Ok tt
     /\ ~ registered l u s'
     /\ lookup l u s' = (Throw (LabelNotFoundError l), s')
     /\ forall l' u', (l', u') <> (l, u) ->
          (registered l' u' s' <-> registered l' u' s))
  /\ (~ registered l u s -> unregister l u s = (Throw (LabelNotFoundError l), s)).
Proof.
  split.
  - intros [_ Hnd]%labelling_reachable_invariant [d Hd]%registered_find s'.
    assert (Hrun : unregister l u s =
      (Ok tt, mkLabelling
                (mkColl (removeFirst (matches (labelOf l u)) (docs (labels s)))
                        (nextId (labels s)) (clock (labels s))))).
    { by rewrite unregister_run, Hd. }
    assert (Hdocs : forall x, In x (docs (labels s')) <->
              In x (docs (labels s)) /\ (label (fields x), user (fields x)) <> (l, u)).
    { intros x. unfold s', after. rewrite Hrun. simpl.
      apply (In_removeFirst_key (fun d => (label (fields d), user (fields d))));
        [apply matches_labelOf_key | exact Hnd]. }
    assert (Hgone : ~ registered l u s').
    { intros (x & [_ Hne]%Hdocs & Hl & Hu). apply Hne. by rewrite Hl, Hu. }
    split; [unfold outcome; by rewrite Hrun|]. split; [exact Hgone|]. split.
    + by rewrite lookup_run, not_registered_find.
    + intros l' u' Hne. split.
      * intros (x & [Hx _]%Hdocs & Hx'). by exists x.
      * intros (x & Hx & Hl & Hu). exists x. split; [|done].
        apply Hdocs. split; [done|]. by rewrite Hl, Hu.
  - intros Hn%not_registered_find. by rewrite unregister_run, Hn.
Qed.

Lemma unregister_removes_the_label_witness :
  let s := call (Register "play" 1) (call (Register "work" 1) init) in
  reachable s /\ registered "work" 1 s
  /\ outcome (unregister "work" 1) s = Ok tt
  /\ ~ registered "work" 1 (after (unregister "work" 1) s)
  /\ registered "play" 1 (after (unregister "work" 1) s).
Proof.
  intros s.
  assert (Hreach : reachable s) by (do 2 apply reachable_call; apply reachable_init).
  assert (Hwork : registered "work" 1 s)
    by (eexists; split; [left; reflexivity | split; reflexivity]).
  assert (Hplay : registered "play" 1 s)
    by (eexists; split; [right; left; reflexivity | split; reflexivity]).
  destruct (unregister_removes_the_label s "work" 1) as [Hrem _].
  destruct (Hrem Hreach Hwork) as (Hok & Hgone & _ & Hothers).
  split; [exact Hreach|]. split; [exact Hwork|]. split; [exact Hok|].
  split; [exact Hgone|]. apply Hothers; [|exact Hplay]. intros E. discriminate E.
Defined.

End LabellingExtras.

(** ** Sorting, continued *)

Section SortingMore.
Import Sorting SortingSpec.

Lemma find_updateFirst_same {A} (p : A -> bool) (g : A -> A) (l : list A) x :
  List.find p l = Some x -> p (g x) = true ->
  List.find p (updateFirst p g l) = Some (g x).
Proof.
  induction l as [|y l IH]; simpl; [done|].
  destruct (p y) eqn:Ep; simpl.
  - intros [= ->] Hg. by rewrite Hg.
  - intros Hf Hg. rewrite Ep. by apply IH.
Qed.

Lemma sorting_writes sortId (s : SortingConcept) d label weight user :
  List.find (matches (FId sortId)) (docs (sorts s)) = Some d ->
  (weights (fields d) !! label = None ->
     after (add sortId label weight user) s =
     rewritten s sortId
       (fun f => mkSort user (<[label := weight]> (weights (fields d))) (options f)))
  /\ (is_Some (weights (fields d) !! label) ->
     after (set sortId label weight user) s =
       rewritten s sortId
         (fun f => mkSort (Sorting.user f) (<[label := weight]> (weights (fields d)))
                          (options f))
     /\ after (remove sortId label) s =
       rewritten s sortId
         (fun f => mkSort (Sorting.user f) (base.delete label (weights (fields d)))
                          (options f))).
Proof.
  intros Hfind. unfold after, add, set, remove, rewritten, onSorts. run.
  destruct s as [ss]. simpl in *. rewrite !Hfind. simpl. split.
  - intros Hnone. rewrite bool_decide_eq_false_2 by (rewrite Hnone; by intros [? ?]).
    simpl. by rewrite Hfind.
  - intros Hsome. rewrite bool_decide_eq_true_2 by done. simpl. by rewrite Hfind.
Qed.

Lemma find_rewritten sortId (s : SortingConcept) d g :
  List.find (matches (FId sortId)) (docs (sorts s)) = Some d ->
  List.find (matches (FId sortId)) (docs (sorts (rewritten s sortId g))) =
  Some (mkDoc (_id d) (dateCreated d) (clock (sorts s)) (g (fields d))).
Proof.
  intros Hfind. simpl.
  apply (find_updateFirst_same _ (fun d => mkDoc (_id d) _ _ (g (fields d))) _ d Hfind).
  apply find_In in Hfind as [_ Hd]. exact Hd.
Qed.

Lemma get_of_found sortId (s : SortingConcept) d label :
  List.find (matches (FId sortId)) (docs (sorts s)) = Some d ->
  outcome (get sortId label) s =
  match weights (fields d) !! label with
  | Some w => Ok w
  | None => Throw (LabelNotAllowedError label)
  end.
Proof.
  intros Hfind. unfold outcome.
  destruct (sorting_run_found _ _ _ Hfind label 0%float 0%N) as (_ & _ & _ & ->).
  by destruct (weights (fields d) !! label).
Qed.

Lemma add_of_found sortId (s : SortingConcept) d label weight user :
  List.find (matches (FId sortId)) (docs (sorts s)) = Some d ->
  outcome (add sortId label weight user) s =
  if bool_decide (is_Some (weights (fields d) !! label))
  then Throw (LabelNotAllowedError label) else Ok tt.
Proof.
  intros Hfind. unfold outcome.
  destruct (sorting_run_found _ _ _ Hfind label weight user) as (-> & _).
  by destruct (bool_decide _).
Qed.

End SortingMore.

Section SortingExtras.
Import Sorting SortingSpec.

(** X18.  For a Sort profile stored under [sortId] (identifiers being
    unique) that has no weight for [label]: after [add(sortId, label,
    weight, user)], [get(sortId, label)] returns [weight], [get] of
    every other label answers as before, a second [add] of the label
    throws a [NotAllowedError], and the stored profile now belongs to
    [user], whoever owned it. *)
Theorem sorting_add_then_get (s : SortingConcept) (sort : BaseDoc SortDoc)
    (sortId : ObjectId) (label : Label) (weight : number) (user : ObjectId) :
  NoDup (_id <$> docs (sorts s)) ->
  In sort (docs (sorts s)) -> _id sort = sortId ->
  weights (fields sort) !! label = None ->
  let s' := after (add sortId label weight user) s in
  outcome (get sortId label) s' = Ok weight
  /\ (forall l', l' <> label -> outcome (get sortId l') s' = outcome (get sortId l') s)
  /\ fails_with (outcome (add sortId label weight user) s') NotAllowed
  /\ exists sort', In sort' (docs (sorts s')) /\ _id sort' = sortId
                   /\ Sorting.user (fields sort') = user.
Proof.
  intros Hnd Hin <- Hnone s'.
  pose proof (find_by_id_unique _ _ Hnd Hin) as Hfind.
  destruct (sorting_writes _ _ _ label weight user Hfind) as [Hadd _].
  unfold s'. rewrite (Hadd Hnone).
  set (g := fun f => mkSort user (<[label := weight]> (weights (fields sort))) (options f)).
  pose proof (find_rewritten _ _ _ g Hfind) as Hfind'.
  split; [|split; [|split]].
  - rewrite (get_of_found _ _ _ _ Hfind'). simpl. by rewrite lookup_insert_eq.
  - intros l' Hne. rewrite (get_of_found _ _ _ _ Hfind'), (get_of_found _ _ _ _ Hfind).
    simpl. by rewrite lookup_insert_ne.
  - unfold fails_with. rewrite (add_of_found _ _ _ _ _ _ Hfind'). simpl.
    rewrite lookup_insert_eq, bool_decide_eq_true_2 by (by eexists). by eexists.
  - apply find_In in Hfind' as [Hin' _]. eexists. split; [exact Hin'|]. done.
Qed.

Lemma sorting_add_then_get_witness :
  let profile := mkDoc 0 0 0 (mkSort 1 ∅ None) in
  let s := mkSorting (mkColl [profile] 1 1) in
  NoDup (_id <$> docs (sorts s)) /\ In profile (docs (sorts s)) /\ _id profile = 0%N
  /\ weights (fields profile) !! "work" = None
  /\ outcome (get 0 "work") (after (add 0 "work" 2.5%float 9) s) = Ok 2.5%float
  /\ exists sort', In sort' (docs (sorts (after (add 0 "work" 2.5%float 9) s)))
                   /\ _id sort' = 0%N /\ Sorting.user (fields sort') = 9%N.
Proof.
  intros profile s.
  assert (Hnd : NoDup (_id <$> docs (sorts s))) by apply NoDup_singleton.
  assert (Hin : In profile (docs (sorts s))) by (by left).
  destruct (sorting_add_then_get s profile 0 "work" 2.5%float 9 Hnd Hin eq_refl eq_refl)
    as (Hget & _ & _ & Howner).
  split; [exact Hnd|]. split; [exact Hin|]. split; [reflexivity|].
  split; [reflexivity|]. split; [exact Hget | exact Howner].
Defined.

(** X19.  For a Sort profile stored under [sortId] (identifiers being
    unique) that has a weight for [label]: after [set(sortId, label,
    weight, user)], [get(sortId, label)] returns [weight]; after
    [remove(sortId, label)], [get(sortId, label)] throws a
    [NotAllowedError] and [add] of the label succeeds again; in both
    cases [get] of every other label answers as before. *)
Theorem sorting_set_and_remove (s : SortingConcept) (sort : BaseDoc SortDoc)
    (sortId : ObjectId) (label : Label) (weight : number) (user : ObjectId) :
  NoDup (_id <$> docs (sorts s)) ->
  In sort (docs (sorts s)) -> _id sort = sortId ->
  is_Some (weights (fields sort) !! label) ->
  outcome (get sortId label) (after (set sortId label weight user) s) = Ok weight
  /\ fails_with (outcome (get sortId label) (after (remove sortId label) s)) NotAllowed
  /\ outcome (add sortId label weight user) (after (remove sortId label) s) = Ok tt
  /\ forall l', l' <> label ->
       outcome (get sortId l') (after (set sortId label weight user) s)
       = outcome (get sortId l') s
       /\ outcome (get sortId l') (after (remove sortId label) s)
          = outcome (get sortId l') s.
Proof.
  intros Hnd Hin <- Hsome.
  pose proof (find_by_id_unique _ _ Hnd Hin) as Hfind.
  destruct (sorting_writes _ _ _ label weight user Hfind) as [_ Hwrite].
  destruct (Hwrite Hsome) as [-> ->].
  split; [|split; [|split]].
  - rewrite (get_of_found _ _ _ _ (find_rewritten _ _ _ _ Hfind)). simpl.
    by rewrite lookup_insert_eq.
  - unfold fails_with.
    rewrite (get_of_found _ _ _ _ (find_rewritten _ _ _ _ Hfind)). simpl.
    rewrite lookup_delete_eq. by eexists.
  - rewrite (add_of_found _ _ _ _ _ _ (find_rewritten _ _ _ _ Hfind)). simpl.
    rewrite lookup_delete_eq. by rewrite bool_decide_eq_false_2 by (by intros [? ?]).
  - intros l' Hne. split.
    + rewrite (get_of_found _ _ _ _ (find_rewritten _ _ _ _ Hfind)),
        (get_of_found _ _ _ _ Hfind). simpl. by rewrite lookup_insert_ne.
    + rewrite (get_of_found _ _ _ _ (find_rewritten _ _ _ _ Hfind)),
        (get_of_found _ _ _ _ Hfind). simpl. by rewrite lookup_delete_ne.
Qed.

Lemma sorting_set_and_remove_witness :
  let profile := mkDoc 0 0 0 (mkSort 1 {["work" := 2.5%float]} None) in
  let s := mkSorting (mkColl [profile] 1 1) in
  NoDup (_id <$> docs (sorts s)) /\ In profile (docs (sorts s)) /\ _id profile = 0%N
  /\ is_Some (weights (fields profile) !! "work")
  /\ outcome (get 0 "work") (after (set 0 "work" 4%float 1) s) = Ok 4%float
  /\ fails_with (outcome (get 0 "work") (after (remove 0 "work") s)) NotAllowed.
Proof.
  intros profile s.
  assert (Hnd : NoDup (_id <$> docs (sorts s))) by apply NoDup_singleton.
  assert (Hin : In profile (docs (sorts s))) by (by left).
  assert (Hsome : is_Some (weights (fields profile) !! "work")) by (by eexists).
  destruct (sorting_set_and_remove s profile 0 "work" 4%float 1 Hnd Hin eq_refl Hsome)
    as (Hset & Hrem & _).
  split; [exact Hnd|]. split; [exact Hin|]. split; [reflexivity|].
  split; [exact Hsome|]. split; [exact Hset | exact Hrem].
Defined.

(** X20.  When no Sort profile is stored under [sortId], [sort],
    [add], [remove], [set] and [get] each throw [SortNotFoundError]
    and change nothing. *)
Theorem sorting_unknown_profile (s : SortingConcept) (sortId : ObjectId)
    (feed : gset ObjectId) (label : Label) (weight : number) (user : ObjectId) :
  (forall d, In d (docs (sorts s)) -> _id d <> sortId) ->
  sort sortId feed s = (Throw (SortNotFoundError sortId), s)
  /\ add sortId label weight user s = (Throw (SortNotFoundError sortId), s)
  /\ remove sortId label s = (Throw (SortNotFoundError sortId), s)
  /\ set sortId label weight user s = (Throw (SortNotFoundError sortId), s)
  /\ get sortId label s = (Throw (SortNotFoundError sortId), s).
Proof.
  intros Hnone.
  assert (Hfind : List.find (matches (FId sortId)) (docs (sorts s)) = None).
  { apply find_none_all. intros d Hd. simpl. apply bool_decide_eq_false.
    by apply Hnone. }
  unfold sort, add, remove, set, get, onSorts. run. destruct s as [ss].
  simpl in *. by rewrite Hfind.
Qed.

Lemma sorting_unknown_profile_witness :
  let s := mkSorting Store.empty in
  (forall d, In d (docs (sorts s)) -> _id d <> 3%N)
  /\ add 3 "work" 1%float 1 s = (Throw (SortNotFoundError 3), s)
  /\ get 3 "work" s = (Throw (SortNotFoundError 3), s).
Proof.
  intros s.
  assert (Hnone : forall d, In d (docs (sorts s)) -> _id d <> 3%N) by (intros d []).
  destruct (sorting_unknown_profile s 3 ∅ "work" 1%float 1 Hnone)
    as (_ & Hadd & _ & _ & Hget).
  split; [exact Hnone|]. split; [exact Hadd | exact Hget].
Defined.

End SortingExtras.

(** ** Sourcing, continued *)

Section SourcingExtras.
Import Sourcing SourcingActions.

Variable targetValue : SourceTarget -> Value.

Abbreviation fieldsOf := (sourceFields targetValue).

(** No Source has a field [uri]: the filter of the duplicate check
    matches nothing. *)
Lemma matches_uri_filter target uri user (d : BaseDoc SourceDoc) :
  matches (H := fieldsOf)
    (FAnd [("target", CEq (targetValue target)); ("uri", CEq (VStr uri));
           ("user", CEq (VId user))]) d = false.
Proof. simpl. apply andb_false_r. Qed.

(** No Source has a field [sourceID] either. *)
Lemma matches_sourceID_filter sourceID user (d : BaseDoc SourceDoc) :
  matches (H := fieldsOf)
    (FAnd [("sourceID", CEq (VId sourceID)); ("user", CEq (VId user))]) d = false.
Proof. done. Qed.

Lemma matches_user_filter user (d : BaseDoc SourceDoc) :
  matches (H := fieldsOf) (FAnd [("user", CEq (VId user))]) d = true
  <-> Sourcing.user (fields d) = user.
Proof.
  simpl. rewrite andb_true_r, bool_decide_eq_true.
  split; [by intros [= ->] | by intros ->].
Qed.

Lemma sourcing_register_run target uri user s :
  register targetValue target uri user s =
  (Ok (nextId (sources s)),
   mkSourcing
     (mkColl (docs (sources s) ++
                [mkDoc (nextId (sources s)) (clock (sources s)) (clock (sources s))
                       (mkSource user uri target ∅ None)])
             (N.succ (nextId (sources s))) (N.succ (clock (sources s))))
     (content s)).
Proof.
  unfold register, assertSourceDoesNotExist, SourcingActions.onSources. run.
  destruct s as [ss cs]. simpl.
  rewrite find_none_all; [done|]. intros d _. apply matches_uri_filter.
Qed.

Lemma sourcing_lookupMany_run user s :
  lookupMany targetValue user s =
  (Ok (List.filter (matches (H := fieldsOf) (FAnd [("user", CEq (VId user))]))
         (docs (sources s))), s).
Proof.
  unfold lookupMany, SourcingActions.onSources. run. by destruct s as [ss cs].
Qed.

(** X21.  [Sourcing.register] never rejects: in any state it succeeds
    and appends one Source of the given target, uri and user, also
    when a Source with the same three is already stored.  Registering
    the same source twice stores two documents with the same fields,
    and [lookupMany(user)] then lists both. *)
Theorem sourcing_register_never_rejects
    (target : SourceTarget) (uri : string) (user : ObjectId) (s : SourcingConcept) :
  let s1 := after (register targetValue target uri user) s in
  let s2 := after (register targetValue target uri user) s1 in
  exists id1 id2 d1 d2 listed,
    outcome (register targetValue target uri user) s = Ok id1
    /\ outcome (register targetValue target uri user) s1 = Ok id2
    /\ id1 <> id2 /\ _id d1 = id1 /\ _id d2 = id2
    /\ fields d1 = mkSource user uri target ∅ None
    /\ fields d2 = mkSource user uri target ∅ None
    /\ docs (sources s2) = (docs (sources s) ++ [d1; d2])%list
    /\ lookupMany targetValue user s2 = (Ok listed, s2)
    /\ In d1 listed /\ In d2 listed.
Proof.
  intros s1 s2. unfold s2, s1, outcome, after.
  rewrite !sourcing_register_run. simpl.
  eexists _, _, (mkDoc _ _ _ _), (mkDoc _ _ _ _), _.
  split; [reflexivity|]. split; [reflexivity|].
  split; [lia|]. do 4 (split; [reflexivity|]).
  split; [by rewrite <- app_assoc|]. split; [apply sourcing_lookupMany_run|].
  simpl. rewrite <- app_assoc. split.
  - apply List.filter_In. split; [apply in_or_app; right; by left|].
    by apply matches_user_filter.
  - apply List.filter_In. split; [apply in_or_app; right; right; by left|].
    by apply matches_user_filter.
Qed.

(** X22.  [Sourcing.lookupOne] never returns a Source: in any state it
    throws [SourceNotFoundError] when a Source is stored under
    [sourceID], whoever asks, its owner included, and
    [SourceNotAllowedError] when none is; it changes nothing. *)
Theorem sourcing_lookupOne_never_succeeds
    (sourceID user : ObjectId) (s : SourcingConcept) :
  ((exists d, In d (docs (sources s)) /\ _id d = sourceID) ->
     lookupOne targetValue sourceID user s
     = (Throw (SourceNotFoundError (FId sourceID)), s))
  /\ ((forall d, In d (docs (sources s)) -> _id d <> sourceID) ->
     lookupOne targetValue sourceID user s
     = (Throw (SourceNotAllowedError (FId sourceID)), s)).
Proof.
  unfold lookupOne, assertSourceExists, SourcingActions.onSources. run.
  destruct s as [ss cs]. simpl. split.
  - intros (d & Hin & <-).
    destruct (find_by_id_exists (H := fieldsOf) _ _ Hin) as [d' ->]. simpl.
    rewrite find_none_all; [done|]. intros x _. apply matches_sourceID_filter.
  - intros Hnone. rewrite find_none_all; [done|].
    intros d Hd. simpl. apply bool_decide_eq_false. by apply Hnone.
Qed.

(** X23.  [Sourcing.unregister(sourceID, user)], with unique
    identifiers: for a Source stored under [sourceID], the owner's
    call deletes it and no other Source, so [lookupMany] of the owner
    lists it no more, and anybody else's call throws
    [SourceNotAllowedError] and changes nothing; with no Source under
    [sourceID] the call throws [SourceNotFoundError] and changes
    nothing. *)
Theorem sourcing_unregister_checks_owner
    (sourceID user : ObjectId) (s : SourcingConcept) :
  (forall d, NoDup (_id <$> docs (sources s)) ->
     In d (docs (sources s)) -> _id d = sourceID ->
     (Sourcing.user (fields d) = user ->
        let s' := after (unregister targetValue sourceID user) s in
        outcome (unregister targetValue sourceID user) s = Ok 1
        /\ (forall x, In x (docs (sources s')) <-> In x (docs (sources s)) /\ x <> d)
        /\ exists listed, lookupMany targetValue user s' = (Ok listed, s')
                          /\ ~ In d listed)
     /\ (Sourcing.user (fields d) <> user ->
        unregister targetValue sourceID user s
        = (Throw (SourceNotAllowedError (FId sourceID)), s)))
  /\ ((forall d, In d (docs (sources s)) -> _id d <> sourceID) ->
     unregister targetValue sourceID user s
     = (Throw (SourceNotFoundError (FId sourceID)), s)).
Proof.
  split.
  - intros d Hnd Hin <-.
    pose proof (find_by_id_unique (H := fieldsOf) _ _ Hnd Hin) as Hfind.
    split.
    + intros Howner s'.
      assert (Hrun : unregister targetValue (_id d) user s =
        (Ok 1, mkSourcing
                 (mkColl (removeFirst (matches (H := fieldsOf) (FId (_id d)))
                            (docs (sources s)))
                         (nextId (sources s)) (clock (sources s)))
                 (content s))).
      { unfold unregister, assertUserOwns, SourcingActions.onSources. run.
        destruct s as [ss cs]. simpl in *. rewrite Hfind. simpl.
        rewrite bool_decide_eq_true_2 by done. simpl. by rewrite Hfind. }
      assert (Hdocs : forall x, In x (docs (sources s')) <->
                                In x (docs (sources s)) /\ x <> d).
      { intros x. unfold s', after. rewrite Hrun. simpl.
        rewrite (In_removeFirst_key _id (matches (H := fieldsOf) (FId (_id d))) _ (_id d)
                   (fun _ => eq_refl) Hnd). split.
        - intros [Hx Hne]. split; [done|]. by intros ->.
        - intros [Hx Hne]. split; [done|]. intros E. apply Hne.
          by apply (NoDup_fmap_inj _id (docs (sources s))). }
      split; [unfold outcome; by rewrite Hrun|]. split; [exact Hdocs|].
      eexists. split; [apply sourcing_lookupMany_run|].
      intros [[_ Hne]%Hdocs _]%List.filter_In. done.
    + intros Hother.
      unfold unregister, assertUserOwns, SourcingActions.onSources. run.
      destruct s as [ss cs]. simpl in *. rewrite Hfind. simpl.
      by rewrite bool_decide_eq_false_2.
  - intros Hnone.
    unfold unregister, SourcingActions.onSources. run.
    destruct s as [ss cs]. simpl in *. rewrite find_none_all; [done|].
    intros d Hd. simpl. apply bool_decide_eq_false. by apply Hnone.
Qed.

End SourcingExtras.

Lemma sourcing_lookupOne_never_succeeds_witness :
  let s := after (SourcingActions.register SourcingSpec.targetName Sourcing.URL
                    "https://example.org/feed" 1)
                 (Sourcing.mkSourcing Store.empty Store.empty) in
  (exists d, In d (docs (Sourcing.sources s)) /\ _id d = 0%N)
  /\ SourcingActions.lookupOne SourcingSpec.targetName 0 1 s
     = (Throw (SourceNotFoundError (FId 0)), s).
Proof.
  intros s.
  assert (Hstored : exists d, In d (docs (Sourcing.sources s)) /\ _id d = 0%N)
    by (eexists; split; [left; reflexivity | reflexivity]).
  destruct (sourcing_lookupOne_never_succeeds SourcingSpec.targetName 0 1 s)
    as [Hfound _].
  split; [exact Hstored | exact (Hfound Hstored)].
Defined.

Lemma sourcing_unregister_checks_owner_witness :
  let s := after (SourcingActions.register SourcingSpec.targetName Sourcing.URL
                    "https://example.org/feed" 1)
                 (Sourcing.mkSourcing Store.empty Store.empty) in
  let d := mkDoc 0 0 0 (Sourcing.mkSource 1 "https://example.org/feed" Sourcing.URL ∅ None) in
  NoDup (_id <$> docs (Sourcing.sources s)) /\ In d (docs (Sourcing.sources s))
  /\ SourcingActions.unregister SourcingSpec.targetName 0 2 s
     = (Throw (SourceNotAllowedError (FId 0)), s)
  /\ outcome (SourcingActions.unregister SourcingSpec.targetName 0 1) s = Ok 1.
Proof.
  intros s d.
  assert (Hnd : NoDup (_id <$> docs (Sourcing.sources s))) by apply NoDup_singleton.
  assert (Hin : In d (docs (Sourcing.sources s))) by (by left).
  destruct (sourcing_unregister_checks_owner SourcingSpec.targetName 0 2 s) as [Hother _].
  destruct (Hother d Hnd Hin eq_refl) as [_ Hdenied].
  destruct (sourcing_unregister_checks_owner SourcingSpec.targetName 0 1 s) as [Howner _].
  destruct (Howner d Hnd Hin eq_refl) as [Hdeleted _].
  destruct (Hdeleted eq_refl) as [Hone _].
  split; [exact Hnd|]. split; [exact Hin|].
  split; [apply Hdenied; discriminate | exact Hone].
Defined.

(** ** Responses *)

Section ResponsesExtras.
Import Authenticating AuthenticatingSpec ResponsesSpec.

(** The name [idsToUsernames(ids)] gives to [id]. *)
Lemma idsToUsernames_run ids s :
  idsToUsernames ids s =
  (Ok ((fun id =>
          match idToUserMap
                  (List.filter (matches (FAnd [("_id", CIn (VId <$> ids))]))
                     (docs (users s))) !! id with
          | Some user => username (fields user)
          | None => DELETED_USER
          end) <$> ids), s).
Proof. unfold idsToUsernames, onUsers. run. by destruct s as [us]. Qed.

Lemma named_by_map ids s id :
  id ∈ ids ->
  named s id
    (Some match idToUserMap
                  (List.filter (matches (FAnd [("_id", CIn (VId <$> ids))]))
                     (docs (users s))) !! id with
          | Some user => username (fields user)
          | None => DELETED_USER
          end).
Proof.
  intros Hid. eexists. split; [reflexivity|]. unfold idToUserMap. split.
  - intros (u & Hin & Hu).
    destruct (foldl_insert_is_Some
                (List.filter (matches (FAnd [("_id", CIn (VId <$> ids))])) (docs (users s)))
                ∅ id) as [v Hv].
    { left. exists u. split; [|done]. apply List.filter_In. split; [done|].
      apply matches_id_in. by rewrite Hu. }
    rewrite Hv. apply foldl_insert_lookup in Hv as [[Hvin Hvid]|Hv]; [|done].
    apply List.filter_In in Hvin as [Hvin _]. eauto.
  - intros Hnone. destruct (foldl _ _ _ !! id) as [v|] eqn:Hv; [|done].
    apply foldl_insert_lookup in Hv as [[Hvin Hvid]|Hv]; [|done].
    apply List.filter_In in Hvin as [Hvin _]. destruct Hnone. by exists v.
Qed.

(** X24.  [Responses.friendRequests] never throws and changes nothing.
    Its body has one entry per request, in order, with the request's
    id and status; the entry's [from] and [to] are defined strings:
    the display names of the request's own [from] and [to] (the
    username of a stored User with that id, or ["DELETED_USER"]). *)
Theorem friendRequests_names_both_ends
    (requests : list (BaseDoc Friending.FriendRequestDoc)) (s : AuthenticatingConcept) :
  exists body,
    Responses.friendRequests requests s = (Ok (Responses.mkResponse 200 body), s)
    /\ length body = length requests
    /\ forall i request, requests !! i = Some request ->
         exists entry,
           body !! i = Some entry
           /\ _id entry = _id request
           /\ Responses.status (fields entry) = Friending.status (fields request)
           /\ named s (Friending.from (fields request)) (Responses.from (fields entry))
           /\ named s (Friending.to (fields request)) (Responses.to (fields entry)).
Proof.
  unfold Responses.friendRequests. unfold mbind, M_bind, bind.
  rewrite idsToUsernames_run. simpl.
  eexists. split; [reflexivity|]. split; [by rewrite length_imap|].
  intros i request Hi. rewrite list_lookup_imap, Hi. simpl.
  eexists. split; [reflexivity|]. do 2 (split; [reflexivity|]). simpl.
  assert (Hlt : i < length requests) by (by eapply lookup_lt_Some).
  rewrite !list_lookup_fmap.
  rewrite lookup_app_l by (by rewrite length_fmap).
  rewrite lookup_app_r by (rewrite length_fmap; lia).
  rewrite length_fmap. replace (i + length requests - length requests) with i by lia.
  rewrite !list_lookup_fmap, Hi. simpl. split.
  - apply named_by_map. apply elem_of_app. left. apply list_elem_of_fmap.
    exists request. split; [done|]. by eapply list_elem_of_lookup_2.
  - apply named_by_map. apply elem_of_app. right. apply list_elem_of_fmap.
    exists request. split; [done|]. by eapply list_elem_of_lookup_2.
Qed.

(** X25.  [Responses.posts] never throws and changes nothing.  Its
    body has one entry per post, in order, with the post's id, content
    and options; the entry's [author] is a defined string, the display
    name of the post's author (["DELETED_USER"] for an author that is
    not stored). *)
Theorem posts_names_authors
    (posts : list (BaseDoc Responses.PostDoc)) (s : AuthenticatingConcept) :
  exists body,
    Responses.posts posts s = (Ok (Responses.mkResponse 200 body), s)
    /\ length body = length posts
    /\ forall i post, posts !! i = Some post ->
         exists entry,
           body !! i = Some entry
           /\ _id entry = _id post
           /\ Responses.content (fields entry) = Responses.content (fields post)
           /\ Responses.options (fields entry) = Responses.options (fields post)
           /\ named s (Responses.author (fields post)) (Responses.author (fields entry)).
Proof.
  unfold Responses.posts. unfold mbind, M_bind, bind.
  rewrite idsToUsernames_run. simpl.
  eexists. split; [reflexivity|]. split; [by rewrite length_imap|].
  intros i post Hi. unfold Responses.PostDoc in *.
  rewrite list_lookup_imap, Hi. simpl.
  eexists. split; [reflexivity|]. do 3 (split; [reflexivity|]). simpl.
  rewrite !list_lookup_fmap, Hi. simpl.
  apply named_by_map. apply list_elem_of_fmap.
  exists post. split; [done|]. by eapply list_elem_of_lookup_2.
Qed.

(** X26.  [Responses.post], unlike [Responses.posts], needs the author:
    for a post whose author is not a stored User it throws
    [UserNotFoundError] (a [NotFoundError]), where [Responses.posts]
    of that one post answers with the author ["DELETED_USER"]; for a
    stored author it answers 200 with the post's id and content and
    the username of a stored User with the author's id. *)
Theorem post_needs_the_author (post : BaseDoc Responses.PostDoc) (s : AuthenticatingConcept) :
  (~ userExists (Responses.author (fields post)) s ->
     fails_with (outcome (Responses.post post) s) NotFound
     /\ exists entry,
          outcome (Responses.posts [post]) s = Ok (Responses.mkResponse 200 [entry])
          /\ Responses.author (fields entry) = Some DELETED_USER)
  /\ (userExists (Responses.author (fields post)) s ->
     exists entry u,
       Responses.post post s = (Ok (Responses.mkResponse 200 entry), s)
       /\ _id entry = _id post
       /\ Responses.content (fields entry) = Responses.content (fields post)
       /\ In u (docs (users s)) /\ _id u = Responses.author (fields post)
       /\ Responses.author (fields entry) = username (fields u)).
Proof.
  split.
  - intros Hstale. split.
    + unfold outcome, fails_with, Responses.post, mbind, M_bind, bind.
      rewrite getUserById_run, find_user_by_id_none; [by eexists|].
      intros u Hu E. apply Hstale. by exists u.
    + unfold outcome, Responses.posts, mbind, M_bind, bind.
      rewrite idsToUsernames_run. simpl. eexists. split; [reflexivity|]. simpl.
      destruct (named_by_map [Responses.author (fields post)] s
                  (Responses.author (fields post))) as (name & [= <-] & _ & Hname);
        [set_solver|].
      f_equal. exact (Hname Hstale).
  - intros (u & Hin & Hu).
    unfold Responses.post, mbind, M_bind, bind. rewrite getUserById_run.
    destruct (In_find (matches (FAnd [("_id", CEq (VId (Responses.author (fields post))))]))
                _ u Hin) as [v Hv].
    { rewrite matches_id_eq. by apply bool_decide_eq_true. }
    rewrite Hv. simpl. eexists _, v. split; [reflexivity|].
    apply find_In in Hv as [Hvin Hvid].
    rewrite matches_id_eq in Hvid. apply bool_decide_eq_true in Hvid.
    repeat split; done.
Qed.

Lemma post_needs_the_author_witness :
  let s := after (register "alice" "secret") init in
  let stale := mkDoc 5 0 0 (Responses.mkPost 9%N 3%N None) in
  let fresh := mkDoc 6 0 0 (Responses.mkPost 0%N 4%N None) in
  ~ userExists 9 s /\ userExists 0 s
  /\ fails_with (outcome (Responses.post stale) s) NotFound
  /\ exists entry, Responses.post fresh s = (Ok (Responses.mkResponse 200 entry), s)
                   /\ Responses.author (fields entry) = "alice".
Proof.
  intros s stale fresh.
  assert (Hstale : ~ userExists 9 s) by (intros (u & [<-|[]] & Hu); discriminate Hu).
  assert (Hfresh : userExists 0 s) by (eexists; split; [left; reflexivity | reflexivity]).
  destruct (post_needs_the_author stale s) as [Hthrows _].
  destruct (Hthrows Hstale) as [Hfail _].
  destruct (post_needs_the_author fresh s) as [_ Hanswers].
  destruct (Hanswers Hfresh) as (entry & u & Hrun & _ & _ & Hu & _ & Hname).
  split; [exact Hstale|]. split; [exact Hfresh|]. split; [exact Hfail|].
  exists entry. split; [exact Hrun|]. rewrite Hname.
  by destruct Hu as [<-|[]].
Defined.

End ResponsesExtras.

Lemma friendRequests_names_both_ends_witness :
  let s := after (Authenticating.register "alice" "secret") Authenticating.init in
  let request := mkDoc 4 0 0 (Friending.mkRequest 0 7 Friending.pending) in
  [request] !! 0%nat = Some request
  /\ exists body entry,
       Responses.friendRequests [request] s = (Ok (Responses.mkResponse 200 body), s)
       /\ body !! 0%nat = Some entry
       /\ Responses.from (fields entry) = Some "alice"
       /\ Responses.to (fields entry) = Some "DELETED_USER".
Proof.
  intros s request. split; [reflexivity|].
  destruct (friendRequests_names_both_ends [request] s) as (body & Hrun & _ & Hentries).
  destruct (Hentries 0%nat request eq_refl)
    as (entry & Hentry & _ & _ & (from & Hfrom & Hknown & _) & (to & Hto & _ & Hstale)).
  exists body, entry. split; [exact Hrun|]. split; [exact Hentry|]. split.
  - rewrite Hfrom. f_equal.
    destruct Hknown as (u & [<-|[]] & _ & ->);
      [eexists; split; [left; reflexivity | reflexivity] | reflexivity].
  - rewrite Hto. f_equal. apply Hstale.
    intros (u & [<-|[]] & Hu). discriminate Hu.
Defined.

Lemma posts_names_authors_witness :
  let s := after (Authenticating.register "alice" "secret") Authenticating.init in
  let post := mkDoc 6 0 0 (Responses.mkPost 9%N 4%N None) in
  [post] !! 0%nat = Some post
  /\ exists body entry,
       Responses.posts [post] s = (Ok (Responses.mkResponse 200 body), s)
       /\ body !! 0%nat = Some entry
       /\ Responses.author (fields entry) = Some "DELETED_USER".
Proof.
  intros s post. split; [reflexivity|].
  destruct (posts_names_authors [post] s) as (body & Hrun & _ & Hentries).
  destruct (Hentries 0%nat post eq_refl)
    as (entry & Hentry & _ & _ & _ & (name & Hname & _ & Hstale)).
  exists body, entry. split; [exact Hrun|]. split; [exact Hentry|].
  rewrite Hname. f_equal. apply Hstale.
  intros (u & [<-|[]] & Hu). discriminate Hu.
Defined.

(** ** FormattableError *)

Section FormattingExtras.
Import Stdlib.Strings.Ascii.
Import Formatting FormattingSpec.

Lemma append_assoc (a b c : string) : (a ++ b) ++ c = a ++ (b ++ c).
Proof.
  induction a as [|x a IH]; [done|].
  change (String x ((a ++ b) ++ c) = String x (a ++ (b ++ c))). by rewrite IH.
Qed.

Lemma append_nil_r (s : string) : s ++ "" = s.
Proof.
  induction s as [|c s IH]; [done|].
  change (String c (s ++ "") = String c s). by rewrite IH.
Qed.

Lemma append_cons_middle (a : string) c (b : string) :
  (a ++ String c "") ++ b = a ++ String c b.
Proof. by rewrite append_assoc. Qed.

(** Without arguments nothing is replaced: the pass writes out what
    it reads. *)
Lemma replaceAll_no_args st s : replaceAll [] st s = pending st ++ s.
Proof.
  revert st. induction s as [|c rest IH]; intros st.
  - cbn [replaceAll]. by rewrite append_nil_r.
  - destruct st as [|digits]; cbn [replaceAll].
    + destruct (Ascii.eqb c "{") eqn:E; rewrite IH; [|done].
      apply Ascii.eqb_eq in E as ->. done.
    + destruct (isDigit c).
      { rewrite IH. cbn [pending].
        change ("{" ++ digits ++ String c "") with (String "{" (digits ++ String c "")).
        change ("{" ++ digits) with (String "{" digits).
        change (String "{" ((digits ++ String c "") ++ rest)
                = String "{" (digits ++ String c rest)).
        by rewrite append_cons_middle. }
      destruct (Ascii.eqb c "}" && negb (String.eqb digits "")) eqn:E.
      { apply andb_true_iff in E as [->%Ascii.eqb_eq _]. rewrite IH.
        unfold replacement, argAt.
        replace (if isIndex digits then mjoin ([] !! decimal 0 digits) else None)
          with (@None string) by (destruct (isIndex digits); by rewrite ?lookup_nil).
        cbn [pending]. rewrite !append_assoc. done. }
      destruct (Ascii.eqb c "{") eqn:E'; rewrite IH; [|done].
      by apply Ascii.eqb_eq in E' as ->.
Qed.

Lemma replaceAll_braceFree args pre s :
  braceFree pre = true ->
  replaceAll args Text (pre ++ s) = pre ++ replaceAll args Text s.
Proof.
  induction pre as [|c pre IH]; simpl; [done|].
  intros [Hc Hpre]%andb_true_iff. apply negb_true_iff in Hc.
  by rewrite Hc, IH.
Qed.

Lemma digitOf_facts n :
  n < 10 -> isDigit (digitOf n) = true /\ digitValue (digitOf n) = n
            /\ Ascii.eqb (digitOf n) "}" = false.
Proof.
  intros Hn. do 10 (destruct n as [|n]; [by vm_compute|]). lia.
Qed.

(** X27.  A [FormattableError] built without arguments has its format
    as message, whatever the format holds, braces and placeholders
    included; and a format in which ["{"] does not occur is the
    message whatever the arguments are. *)
Theorem message_without_placeholders (format : string) :
  message (new format []) = format
  /\ forall args, braceFree format = true -> message (new format args) = format.
Proof.
  split; simpl.
  - by rewrite replaceAll_no_args.
  - intros args Hfree.
    pose proof (replaceAll_braceFree args format "" Hfree) as E.
    rewrite append_nil_r in E. rewrite E. apply append_nil_r.
Qed.

Lemma message_without_placeholders_witness :
  braceFree "Username and password must be non-empty!" = true
  /\ message (new "Username and password must be non-empty!" [Some "x"])
     = "Username and password must be non-empty!"
  /\ message (new "{0} and {1} are already friends!" [])
     = "{0} and {1} are already friends!".
Proof.
  destruct (message_without_placeholders "Username and password must be non-empty!")
    as [_ Hfree].
  destruct (message_without_placeholders "{0} and {1} are already friends!") as [Hnone _].
  split; [reflexivity|]. split; [by apply Hfree | exact Hnone].
Defined.

(** X28.  The first placeholder.  For a format that begins with a text
    free of ["{"], then the placeholder of an index [n] below ten,
    then [post]: the message is that text, then argument [n] when it
    is given and defined and the placeholder as written when it is
    not, then the message of [post]; the argument is written as it
    is, placeholders in it are not replaced.  [formatWith] formats the
    same format with the new arguments and keeps the HTTP code. *)
Theorem first_placeholder (pre post : string) (n : nat) (args : list (option string)) :
  braceFree pre = true -> n < 10 ->
  let placeholder := String "{" (String (digitOf n) "}") in
  message (new (pre ++ placeholder ++ post) args)
  = pre ++ match mjoin (args !! n) with
           | Some arg => arg
           | None => placeholder
           end ++ message (new post args)
  /\ forall this, formatWith this args
                  = mkError (HTTP_CODE this) (format this)
                            (message (new (format this) args)).
Proof.
  intros Hfree Hn placeholder. split; [|reflexivity].
  destruct (digitOf_facts n Hn) as (Hd & Hv & Hc).
  unfold placeholder. set (d := digitOf n) in *. clearbody d.
  unfold new, message.
  rewrite (replaceAll_braceFree args pre _ Hfree). f_equal.
  change (String "{" (String d "}") ++ post)
    with (String "{" (String d (String "}" post))).
  cbn [replaceAll]. change (Ascii.eqb "{" "{") with true. cbv iota.
  rewrite Hd. cbn [replaceAll]. change (isDigit "}") with false. cbv iota.
  change (Ascii.eqb "}" "}" && negb (String.eqb ("" ++ String d "") "")) with true.
  cbv iota. f_equal.
  unfold replacement, argAt.
  change (isIndex ("" ++ String d "")) with (negb (Ascii.eqb d "0") || true).
  rewrite orb_true_r.
  change (decimal 0 ("" ++ String d "")) with (10 * 0 + digitValue d)%nat.
  rewrite Hv. change (10 * 0 + n)%nat with n.
  by destruct (mjoin (args !! n)).
Qed.

Lemma first_placeholder_witness :
  braceFree "Sort of ID " = true /\ 0 < 10
  /\ message (new ("Sort of ID " ++ String "{" (String (digitOf 0) "}") ++ " not found!")
                  [Some "{1}"; Some "x"])
     = "Sort of ID {1} not found!"
  /\ message (new ("Sort of ID " ++ String "{" (String (digitOf 0) "}") ++ " not found!") [])
     = "Sort of ID {0} not found!".
Proof.
  assert (Hfree : braceFree "Sort of ID " = true) by reflexivity.
  assert (Hn : 0 < 10) by lia.
  destruct (first_placeholder "Sort of ID " " not found!" 0 [Some "{1}"; Some "x"] Hfree Hn)
    as [Hgiven _].
  destruct (first_placeholder "Sort of ID " " not found!" 0 [] Hfree Hn) as [Hmissing _].
  split; [exact Hfree|]. split; [exact Hn|]. split; [exact Hgiven | exact Hmissing].
Defined.

End FormattingExtras.
